(** * Tradebot: the backtesting engine of [server/services/backtestService.ts]
      and the indicator code of [client/src/lib/tradingStrategies.ts].

    The source file of the service holds two revisions.  The development
    embeds the first one ([runBacktest], [getBacktestDetails],
    [applyStrategy], [simulateTrades]), whose simulator the specification
    follows, together with the strategy library both import, and the
    strategy engine, the simulator and the data source of the second one
    ([Revision2], [Sim2], [Data2]); it states the properties of the
    backtesting specification over these definitions.

    Modelling conventions.
    - A JavaScript [number] is a value of [num]: an exact rational, or one of
      the three IEEE special values.  Rounding of binary64 arithmetic and the
      sign of zero are not represented; every other rule of the arithmetic
      (division by zero, [Infinity * 0], comparisons with [NaN]) is.
    - Where the rounding of a result decides a property (the cash left by a
      purchase, the profit of a trade against the gain of the capital), the
      simulator is embedded a second time on the binary64 numbers themselves
      ([F64], [Sim64]), and the property is stated there.
    - Reading an array of numbers out of range yields [undefined], which
      every use in this code converts to a number: such a read is [NaN].
    - Period parameters are integral bar counts ([Z]); thresholds are [num].
    - A call that can [throw] returns a [result]; database access threads the
      table contents explicitly. *)

From stdpp Require Import base option list strings pretty sorting gmap.
From Stdlib Require Import ZArith QArith Qabs Qround Lia Lqa.

Local Open Scope Z_scope.

(** ** JavaScript numbers *)

Module JsNum.

Inductive num : Type :=
| Fin (q : Q)
| PInf
| NInf
| NaN.

Definition ofZ (z : Z) : num := Fin (inject_Z z).
Definition ofNat (n : nat) : num := ofZ (Z.of_nat n).

Definition isFinite (x : num) : bool :=
  match x with Fin _ => true | _ => false end.

(** Sign of a rational as a [comparison]: [Lt] negative, [Eq] zero. *)
Definition qsign (q : Q) : comparison := (q ?= 0)%Q.

Definition neg (x : num) : num :=
  match x with
  | Fin q => Fin (- q)
  | PInf => NInf
  | NInf => PInf
  | NaN => NaN
  end.

Definition add (x y : num) : num :=
  match x, y with
  | NaN, _ | _, NaN => NaN
  | Fin a, Fin b => Fin (a + b)
  | PInf, NInf | NInf, PInf => NaN
  | PInf, _ | _, PInf => PInf
  | NInf, _ | _, NInf => NInf
  end.

Definition sub (x y : num) : num := add x (neg y).

(** An infinity scaled by a finite factor. *)
Definition scaleInf (pos : bool) (q : Q) : num :=
  match qsign q with
  | Eq => NaN
  | Gt => if pos then PInf else NInf
  | Lt => if pos then NInf else PInf
  end.

Definition mul (x y : num) : num :=
  match x, y with
  | NaN, _ | _, NaN => NaN
  | Fin a, Fin b => Fin (a * b)
  | PInf, Fin b => scaleInf true b
  | NInf, Fin b => scaleInf false b
  | Fin a, PInf => scaleInf true a
  | Fin a, NInf => scaleInf false a
  | PInf, PInf | NInf, NInf => PInf
  | PInf, NInf | NInf, PInf => NInf
  end.

Definition div (x y : num) : num :=
  match x, y with
  | NaN, _ | _, NaN => NaN
  | Fin a, Fin b =>
      match qsign b with
      | Eq => match qsign a with
              | Eq => NaN
              | Gt => PInf
              | Lt => NInf
              end
      | _ => Fin (a / b)
      end
  | Fin _, (PInf | NInf) => Fin 0
  | PInf, Fin b => match qsign b with Lt => NInf | _ => PInf end
  | NInf, Fin b => match qsign b with Lt => PInf | _ => NInf end
  | (PInf | NInf), (PInf | NInf) => NaN
  end.

(** [Math.floor], [Math.abs] and [Math.pow(x, 2)]. *)
Definition floor (x : num) : num :=
  match x with
  | Fin q => ofZ (Qfloor q)
  | _ => x
  end.

Definition abs (x : num) : num :=
  match x with
  | Fin q => Fin (Qabs q)
  | PInf | NInf => PInf
  | NaN => NaN
  end.

Definition square (x : num) : num := mul x x.

(** The relational operators [<], [>], [<=], [>=] and [===]; each is [false]
    as soon as one side is [NaN]. *)
Definition ltb (x y : num) : bool :=
  match x, y with
  | NaN, _ | _, NaN => false
  | Fin a, Fin b => match (a ?= b)%Q with Lt => true | _ => false end
  | Fin _, PInf => true
  | Fin _, NInf => false
  | PInf, _ => false
  | NInf, NInf => false
  | NInf, _ => true
  end.

Definition gtb (x y : num) : bool := ltb y x.

Definition eqb (x y : num) : bool :=
  match x, y with
  | Fin a, Fin b => Qeq_bool a b
  | PInf, PInf | NInf, NInf => true
  | _, _ => false
  end.

Definition leb (x y : num) : bool := ltb x y || eqb x y.
Definition geb (x y : num) : bool := leb y x.

(** Sum of an array by [reduce((s, x) => s + x, 0)]. *)
Definition sum (l : list num) : num := fold_left add l (Fin 0).

End JsNum.

Import JsNum.

Declare Scope num_scope.
Delimit Scope num_scope with num.
Bind Scope num_scope with num.
Infix "+" := add : num_scope.
Infix "-" := sub : num_scope.
Infix "*" := mul : num_scope.
Infix "/" := div : num_scope.
Infix "<?" := ltb : num_scope.
Infix ">?" := gtb : num_scope.
Infix "<=?" := leb : num_scope.
Infix ">=?" := geb : num_scope.
Infix "=?" := eqb : num_scope.

#[global] Arguments neg : simpl never.
#[global] Arguments add : simpl never.
#[global] Arguments sub : simpl never.
#[global] Arguments mul : simpl never.
#[global] Arguments div : simpl never.
#[global] Arguments floor : simpl never.
#[global] Arguments abs : simpl never.
#[global] Arguments ltb : simpl never.
#[global] Arguments gtb : simpl never.
#[global] Arguments eqb : simpl never.
#[global] Arguments leb : simpl never.
#[global] Arguments geb : simpl never.
#[global] Arguments sum : simpl never.

(** ** Thrown errors *)

Inductive error : Type :=
| Error (msg : string)
| TypeError (msg : string).

Inductive result (A : Type) : Type :=
| Ok (a : A)
| Err (e : error).
Arguments Ok {A} a.
Arguments Err {A} e.

#[global] Instance result_ret : MRet result := fun A a => Ok a.
#[global] Instance result_bind : MBind result := fun A B f m =>
  match m with
  | Ok a => f a
  | Err e => Err e
  end.

Definition fails {A} (r : result A) : Prop := exists e, r = Err e.

(** ** Data model *)

(** A [Date] is its time value, milliseconds since the epoch. *)
Definition Date : Type := Z.

Inductive SignalType : Type := BUY | SELL | HOLD.

#[global] Instance SignalType_eq_dec : EqDecision SignalType.
Proof. solve_decision. Defined.

Module Signal.
Record t : Type := mk { date : Date; type : SignalType; price : num }.
End Signal.

Inductive TradeType : Type := TradeBuy | TradeSell.

#[global] Instance TradeType_eq_dec : EqDecision TradeType.
Proof. solve_decision. Defined.

Module Trade.
Record t : Type := mk {
  date : Date;
  type : TradeType;
  price : num;
  quantity : num;
  profit : option num
}.
End Trade.

Module EquityPoint.
Record t : Type := mk { date : Date; equity : num }.
End EquityPoint.

Module Summary.
Record t : Type := mk {
  initialCapital : num;
  finalCapital : num;
  profit : num;
  profitPercentage : num;
  totalTrades : Z;
  winningTrades : Z;
  losingTrades : Z;
  winRate : num;
  maxDrawdown : num;
  avgTradeProfit : num
}.
End Summary.

(** ** The trade simulator ([simulateTrades]) *)

Module Sim.

(** The local variables of [simulateTrades]. *)
Record state : Type := mk {
  capital : num;
  position : num;
  entryPrice : num;
  trades : list Trade.t;
  maxDrawdown : num;
  peak : num;
  winningTrades : Z;
  totalTrades : Z;
  equityCurve : list EquityPoint.t
}.

Record output : Type := mkOutput {
  out_trades : list Trade.t;
  summary : Summary.t;
  out_equityCurve : list EquityPoint.t
}.

(** [signals[0]?.date || new Date()]: a [Date] object is always truthy. *)
Definition firstDate (now : Date) (signals : list Signal.t) : Date :=
  match signals with
  | s :: _ => Signal.date s
  | [] => now
  end.

Definition init (now : Date) (signals : list Signal.t) (initialCapital : num) : state :=
  {| capital := initialCapital;
     position := Fin 0;
     entryPrice := Fin 0;
     trades := [];
     maxDrawdown := Fin 0;
     peak := initialCapital;
     winningTrades := 0;
     totalTrades := 0;
     equityCurve := [EquityPoint.mk (firstDate now signals) initialCapital] |}.

(** One iteration of [for (const signal of signals)]. *)
Definition step (st : state) (signal : Signal.t) : state :=
  let price := Signal.price signal in
  if bool_decide (Signal.type signal = BUY) && (position st =? Fin 0)%num then
    let quantity := floor (capital st / price) in
    if (quantity >? Fin 0)%num then
      let cost := (quantity * price)%num in
      let capital' := (capital st - cost)%num in
      {| capital := capital';
         position := quantity;
         entryPrice := price;
         trades := trades st ++
           [Trade.mk (Signal.date signal) TradeBuy price quantity None];
         maxDrawdown := maxDrawdown st;
         peak := peak st;
         winningTrades := winningTrades st;
         totalTrades := totalTrades st;
         equityCurve := equityCurve st ++
           [EquityPoint.mk (Signal.date signal) (capital' + quantity * price)%num] |}
    else st
  else if bool_decide (Signal.type signal = SELL) && (position st >? Fin 0)%num then
    let sellValue := (position st * price)%num in
    let profit := (sellValue - position st * entryPrice st)%num in
    let capital' := (capital st + sellValue)%num in
    let drawdown := ((peak st - capital') / peak st * Fin 100)%num in
    {| capital := capital';
       position := Fin 0;
       entryPrice := Fin 0;
       trades := trades st ++
         [Trade.mk (Signal.date signal) TradeSell price (position st) (Some profit)];
       maxDrawdown :=
         if (capital' >? peak st)%num then maxDrawdown st
         else if (drawdown >? maxDrawdown st)%num then drawdown
         else maxDrawdown st;
       peak := if (capital' >? peak st)%num then capital' else peak st;
       winningTrades :=
         if (profit >? Fin 0)%num then winningTrades st + 1 else winningTrades st;
       totalTrades := totalTrades st + 1;
       equityCurve := equityCurve st ++
         [EquityPoint.mk (Signal.date signal) capital'] |}
  else st.

Definition loop (st : state) (signals : list Signal.t) : state :=
  fold_left step signals st.

(** "Close any remaining positions at the last price". *)
Definition closeRemaining (signals : list Signal.t) (st : state) : state :=
  match last signals with
  | Some lastSignal =>
      if (position st >? Fin 0)%num then
        let sellValue := (position st * Signal.price lastSignal)%num in
        let profit := (sellValue - position st * entryPrice st)%num in
        let capital' := (capital st + sellValue)%num in
        {| capital := capital';
           position := position st;
           entryPrice := entryPrice st;
           trades := trades st ++
             [Trade.mk (Signal.date lastSignal) TradeSell
                (Signal.price lastSignal) (position st) (Some profit)];
           maxDrawdown := maxDrawdown st;
           peak := peak st;
           winningTrades :=
             if (profit >? Fin 0)%num then winningTrades st + 1 else winningTrades st;
           totalTrades := totalTrades st + 1;
           equityCurve := equityCurve st ++
             [EquityPoint.mk (Signal.date lastSignal) capital'] |}
      else st
  | None => st
  end.

Definition summarize (initialCapital : num) (st : state) : Summary.t :=
  let finalCapital := capital st in
  let profit := (finalCapital - initialCapital)%num in
  let profitPercentage := (profit / initialCapital * Fin 100)%num in
  {| Summary.initialCapital := initialCapital;
     Summary.finalCapital := finalCapital;
     Summary.profit := profit;
     Summary.profitPercentage := profitPercentage;
     Summary.totalTrades := totalTrades st;
     Summary.winningTrades := winningTrades st;
     Summary.losingTrades := totalTrades st - winningTrades st;
     Summary.winRate :=
       if totalTrades st >? 0
       then (ofZ (winningTrades st) / ofZ (totalTrades st) * Fin 100)%num
       else Fin 0;
     Summary.maxDrawdown := maxDrawdown st;
     Summary.avgTradeProfit :=
       if totalTrades st >? 0 then (profit / ofZ (totalTrades st))%num else Fin 0 |}.

End Sim.

(** [now] stands for the clock read by [new Date()] when there is no signal. *)
Definition simulateTrades (now : Date) (signals : list Signal.t)
    (initialCapital : num) : result Sim.output :=
  let st := Sim.closeRemaining signals
              (Sim.loop (Sim.init now signals initialCapital) signals) in
  Ok {| Sim.out_trades := Sim.trades st;
        Sim.summary := Sim.summarize initialCapital st;
        Sim.out_equityCurve := Sim.equityCurve st |}.

(** ** Arrays *)

Definition len {A} (l : list A) : Z := Z.of_nat (length l).

(** [a[i]] on an array of numbers, [undefined] read as [NaN]. *)
Definition aget (a : list num) (i : Z) : num :=
  if i <? 0 then NaN else default NaN (a !! Z.to_nat i).

(** Resolution of a relative index by [Array.prototype.slice]. *)
Definition relIndex (n i : Z) : nat :=
  Z.to_nat (if i <? 0 then Z.max (n + i) 0 else Z.min i n).

Definition slice {A} (a : list A) (start stop : Z) : list A :=
  let k := relIndex (len a) start in
  let final := relIndex (len a) stop in
  take (final - k) (drop k a).

(** The values taken by [i] in [for (let i = start; i < stop; i++)]. *)
Definition indices (start stop : Z) : list Z :=
  (fun j => start + Z.of_nat j) <$> seq 0 (Z.to_nat (stop - start)).

(** ** The indicator library ([tradingStrategies.ts]) *)

Definition calculateEMA (data : list num) (period : Z) : list num :=
  let k := (Fin 2 / ofZ (period + 1))%num in
  let ema0 := (sum (slice data 0 period) / ofZ period)%num in
  snd (fold_left
         (fun '(ema, emaData) i =>
            let ema' := ((aget data i - ema) * k + ema)%num in
            (ema', emaData ++ [ema']))
         (indices period (len data))
         (ema0, [ema0])).

(** [100 - (100 / (1 + rs))] with [rs = avgGain / (avgLoss === 0 ? 0.001 : avgLoss)]. *)
Definition rsiOf (avgGain avgLoss : num) : num :=
  let rs := (avgGain / (if (avgLoss =? Fin 0)%num then Fin (1 # 1000) else avgLoss))%num in
  (Fin 100 - Fin 100 / (Fin 1 + rs))%num.

Definition gainOf (change : num) : num :=
  if (change >? Fin 0)%num then change else Fin 0.

Definition lossOf (change : num) : num :=
  if (change <? Fin 0)%num then abs change else Fin 0.

Definition changes (data : list num) : list num :=
  (fun i => (aget data i - aget data (i - 1))%num) <$> indices 1 (len data).

Definition calculateRSI (data : list num) (period : Z) : list num :=
  let gains := gainOf <$> changes data in
  let losses := lossOf <$> changes data in
  let avgGain := (sum (slice gains 0 period) / ofZ period)%num in
  let avgLoss := (sum (slice losses 0 period) / ofZ period)%num in
  snd (fold_left
         (fun '(avgGain, avgLoss, rsiData) i =>
            let avgGain' := ((avgGain * ofZ (period - 1) + aget gains i) / ofZ period)%num in
            let avgLoss' := ((avgLoss * ofZ (period - 1) + aget losses i) / ofZ period)%num in
            (avgGain', avgLoss', rsiData ++ [rsiOf avgGain' avgLoss']))
         (indices period (len gains))
         (avgGain, avgLoss, [rsiOf avgGain avgLoss])).

Record MACD : Type := mkMACD {
  macdLine : list num;
  signalLine : list num;
  histogram : list num
}.

Definition calculateMACD (data : list num) (fastPeriod slowPeriod signalPeriod : Z) : MACD :=
  let fastEMA := calculateEMA data fastPeriod in
  let slowEMA := calculateEMA data slowPeriod in
  let shift := len slowEMA - len fastEMA in
  let macdLine :=
    omap (fun i => if shift <=? i
                   then Some (aget fastEMA i - aget slowEMA (i + shift))%num
                   else None)
         (indices 0 (len fastEMA)) in
  let signalLine := calculateEMA macdLine signalPeriod in
  let histogram :=
    (fun i => (aget macdLine (i + (len macdLine - len signalLine)) - aget signalLine i)%num)
      <$> indices 0 (len signalLine) in
  {| macdLine := macdLine; signalLine := signalLine; histogram := histogram |}.

Record Bands : Type := mkBands {
  middle : list num;
  upper : list num;
  lower : list num
}.

(** [sqrt] stands for [Math.sqrt], which has no exact rational counterpart. *)
Definition calculateBollingerBands (sqrt : num -> num)
    (data : list num) (period : Z) (stdDev : num) : Bands :=
  let rows :=
    (fun i =>
       let window := slice data (i - period + 1) (i + 1) in
       let avg := (sum window / ofZ period)%num in
       let squaredDiffs := (fun price => square (price - avg)%num) <$> window in
       let variance := (sum squaredDiffs / ofZ period)%num in
       let sd := sqrt variance in
       (avg, (avg + stdDev * sd)%num, (avg - stdDev * sd)%num))
      <$> indices (period - 1) (len data) in
  {| middle := (fun r => r.1.1) <$> rows;
     upper := (fun r => r.1.2) <$> rows;
     lower := (fun r => r.2) <$> rows |}.

(** ** The strategies *)

Module Candle.
(** [date] is the time value denoted by the ISO string of the bar. *)
Record t : Type := mk {
  date : Date;
  timestamp : Z;
  open : num;
  high : num;
  low : num;
  close : num;
  volume : num
}.
End Candle.

(** The strategies take [data: any[]] and read only the [close] property of
    its elements. *)
Class HasClose (A : Type) : Type := close : A -> num.

#[global] Instance Candle_close : HasClose Candle.t := Candle.close.

Inductive metaValue : Type :=
| MetaNum (x : num)
| MetaBool (b : bool).

(** The object [{ signal, meta }] every strategy returns. *)
Record StrategyResult : Type := mkStrategyResult {
  signal : string;
  meta : list (string * metaValue)
}.

Definition neutral : StrategyResult := {| signal := "NEUTRAL"; meta := [] |}.

(** [a[a.length - back]] *)
Definition fromEnd (a : list num) (back : Z) : num := aget a (len a - back).

Definition movingAverageCrossover `{HasClose A} (data : list A)
    (shortPeriod longPeriod : Z) : StrategyResult :=
  if len data <? longPeriod then neutral
  else
    let shortEMA := calculateEMA (close <$> data) shortPeriod in
    let longEMA := calculateEMA (close <$> data) longPeriod in
    let currentShortEMA := fromEnd shortEMA 1 in
    let previousShortEMA := fromEnd shortEMA 2 in
    let currentLongEMA := fromEnd longEMA 1 in
    let previousLongEMA := fromEnd longEMA 2 in
    let currentCrossover := (currentShortEMA >? currentLongEMA)%num in
    let previousCrossover := (previousShortEMA >? previousLongEMA)%num in
    {| signal :=
         if currentCrossover && negb previousCrossover then "BUY"
         else if negb currentCrossover && previousCrossover then "SELL"
         else "NEUTRAL";
       meta := [("shortEMA", MetaNum currentShortEMA);
                ("longEMA", MetaNum currentLongEMA);
                ("crossover", MetaBool currentCrossover)] |}.

Definition rsiStrategy `{HasClose A} (data : list A) (period : Z)
    (overbought oversold : num) : StrategyResult :=
  if len data <? period + 14 then neutral
  else
    let rsiValues := calculateRSI (close <$> data) period in
    let currentRSI := fromEnd rsiValues 1 in
    let previousRSI := fromEnd rsiValues 2 in
    {| signal :=
         if (currentRSI <? oversold)%num && (previousRSI >=? oversold)%num then "BUY"
         else if (currentRSI >? overbought)%num && (previousRSI <=? overbought)%num then "SELL"
         else "NEUTRAL";
       meta := [("rsi", MetaNum currentRSI);
                ("overbought", MetaNum overbought);
                ("oversold", MetaNum oversold)] |}.

Definition macdStrategy `{HasClose A} (data : list A)
    (fastPeriod slowPeriod signalPeriod : Z) : StrategyResult :=
  if len data <? slowPeriod + signalPeriod then neutral
  else
    let m := calculateMACD (close <$> data) fastPeriod slowPeriod signalPeriod in
    let currentMacd := fromEnd (macdLine m) 1 in
    let currentSignal := fromEnd (signalLine m) 1 in
    let currentHistogram := fromEnd (histogram m) 1 in
    let previousHistogram := fromEnd (histogram m) 2 in
    {| signal :=
         if (currentMacd >? currentSignal)%num && (previousHistogram <=? Fin 0)%num
            && (currentHistogram >? Fin 0)%num then "BUY"
         else if (currentMacd <? currentSignal)%num && (previousHistogram >=? Fin 0)%num
                 && (currentHistogram <? Fin 0)%num then "SELL"
         else "NEUTRAL";
       meta := [("macd", MetaNum currentMacd);
                ("signal", MetaNum currentSignal);
                ("histogram", MetaNum currentHistogram)] |}.

(** [data[i].close]: reading a property of [undefined] throws. *)
Definition closeAt `{HasClose A} (data : list A) (i : Z) : result num :=
  match (if i <? 0 then None else data !! Z.to_nat i) with
  | Some c => Ok (close c)
  | None => Err (TypeError "Cannot read properties of undefined (reading 'close')")
  end.

Definition bollingerBandsStrategy `{HasClose A} (sqrt : num -> num) (data : list A)
    (period : Z) (stdDev : num) : result StrategyResult :=
  if len data <? period then Ok neutral
  else
    let b := calculateBollingerBands sqrt (close <$> data) period stdDev in
    currentPrice ← closeAt data (len data - 1);
    let currentUpper := fromEnd (upper b) 1 in
    let currentLower := fromEnd (lower b) 1 in
    previousPrice ← closeAt data (len data - 2);
    let previousLower := fromEnd (lower b) 2 in
    let previousUpper := fromEnd (upper b) 2 in
    Ok {| signal :=
            if (previousPrice <=? previousLower)%num && (currentPrice >? currentLower)%num
            then "BUY"
            else if (previousPrice >=? previousUpper)%num && (currentPrice <? currentUpper)%num
            then "SELL"
            else "NEUTRAL";
          meta := [("price", MetaNum currentPrice);
                   ("upper", MetaNum currentUpper);
                   ("middle", MetaNum (fromEnd (middle b) 1));
                   ("lower", MetaNum currentLower)] |}.

(** ** The strategy engine ([applyStrategy]) *)

(** The [parameters] object, read only through these keys; an absent key is
    [None] and takes the default of the destructuring pattern. *)
Record Parameters : Type := mkParameters {
  shortPeriod : option Z;
  longPeriod : option Z;
  period : option Z;
  overbought : option num;
  oversold : option num;
  fastPeriod : option Z;
  slowPeriod : option Z;
  signalPeriod : option Z;
  stdDev : option num
}.

Definition noParameters : Parameters :=
  mkParameters None None None None None None None None None.

(** What [result] can hold when [result.map] is evaluated: the object a
    strategy returns, or an array of per-bar numbers. *)
Inductive jsValue : Type :=
| JObject (r : StrategyResult)
| JArray (a : list num).

Definition signalTypeOf (signal : num) : SignalType :=
  if (signal >? Fin 0)%num then BUY
  else if (signal <? Fin 0)%num then SELL
  else HOLD.

(** The object built by the callback of [result.map((signal, i) => ...)]
    for the bar [c = data[i]]. *)
Definition signalAt (c : Candle.t) (signal : num) : Signal.t :=
  {| Signal.date := if Candle.timestamp c =? 0 then Candle.date c else Candle.timestamp c;
     Signal.type := signalTypeOf signal;
     Signal.price := Candle.close c |}.

(** The callback at index [i]: [data[i]] may be [undefined]. *)
Definition toSignal (data : list Candle.t) (i : nat) (signal : num) : result Signal.t :=
  match data !! i with
  | Some c => Ok (signalAt c signal)
  | None => Err (TypeError "Cannot read properties of undefined (reading 'timestamp')")
  end.

Fixpoint mapFrom (data : list Candle.t) (i : nat) (a : list num) : result (list Signal.t) :=
  match a with
  | [] => Ok []
  | signal :: rest =>
      s ← toSignal data i signal;
      ss ← mapFrom data (S i) rest;
      Ok (s :: ss)
  end.

(** [result.map(...)]: only an array has a [map] method. *)
Definition mapSignals (data : list Candle.t) (value : jsValue) : result (list Signal.t) :=
  match value with
  | JArray a => mapFrom data 0 a
  | JObject _ => Err (TypeError "result.map is not a function")
  end.

(** [signals.filter(signal => signal.type !== 'HOLD')] *)
Definition dropHold (signals : list Signal.t) : list Signal.t :=
  filter (fun s => Signal.type s ≠ HOLD) signals.

Definition applyStrategy (sqrt : num -> num) (data : list Candle.t)
    (strategyName : string) (parameters : Parameters) : result (list Signal.t) :=
  if bool_decide (data = []) then Err (Error "No data provided for strategy application")
  else
    signals ←
      (if bool_decide (strategyName = "Moving Average Crossover") then
         let result := movingAverageCrossover data
                         (default 20 (shortPeriod parameters))
                         (default 50 (longPeriod parameters)) in
         mapSignals data (JObject result)
       else if bool_decide (strategyName = "RSI Strategy") then
         let result := rsiStrategy data
                         (default 14 (period parameters))
                         (default (Fin 70) (overbought parameters))
                         (default (Fin 30) (oversold parameters)) in
         mapSignals data (JObject result)
       else if bool_decide (strategyName = "MACD Strategy") then
         let result := macdStrategy data
                         (default 12 (fastPeriod parameters))
                         (default 26 (slowPeriod parameters))
                         (default 9 (signalPeriod parameters)) in
         mapSignals data (JObject result)
       else if bool_decide (strategyName = "Bollinger Bands Strategy") then
         result ← bollingerBandsStrategy sqrt data
                    (default 20 (period parameters))
                    (default (Fin 2) (stdDev parameters));
         mapSignals data (JObject result)
       else Err (Error ("Strategy '" +:+ strategyName +:+ "' not supported")));
    Ok (dropHold signals).

(** ** Persistence *)

Module Db.

(** Modelled from the spec: the table declarations of [@shared/schema] that
    this revision of the service writes to are not among the sources (the
    declaration at hand has no [profitLoss], [profitLossPercentage],
    [strategyName] or [maxDrawdown] column).  A persisted record carries
    the BacktestResult fields under the column names of the insert in
    [runBacktest]; the two counters are the [serial] sequences of the
    primary keys. *)
Record StrategyRow : Type := mkStrategy { strategy_id : Z; strategy_name : string }.

Record BacktestRow : Type := mkBacktest {
  id : Z;
  userId : Z;
  strategyId : Z;
  strategyName : string;
  stockSymbol : string;
  startDate : Date;
  endDate : Date;
  initialCapital : num;
  finalCapital : num;
  parameters : Parameters;
  profitLoss : num;
  profitLossPercentage : num;
  totalTrades : Z;
  winningTrades : Z;
  maxDrawdown : num
}.

Record TradeRow : Type := mkTrade {
  trade_id : Z;
  backtestId : Z;
  date : Date;
  type : TradeType;
  price : num;
  quantity : num;
  profit : option num
}.

Record t : Type := mk {
  strategies : list StrategyRow;
  backtests : list BacktestRow;
  backtestTrades : list TradeRow;
  backtestSeq : Z;
  tradeSeq : Z
}.

Definition insertBacktest (row : Z -> BacktestRow) (db : t) : BacktestRow * t :=
  let r := row (backtestSeq db + 1) in
  (r, {| strategies := strategies db;
         backtests := backtests db ++ [r];
         backtestTrades := backtestTrades db;
         backtestSeq := backtestSeq db + 1;
         tradeSeq := tradeSeq db |}).

Definition insertTrade (row : Z -> TradeRow) (db : t) : t :=
  {| strategies := strategies db;
     backtests := backtests db;
     backtestTrades := backtestTrades db ++ [row (tradeSeq db + 1)];
     backtestSeq := backtestSeq db;
     tradeSeq := tradeSeq db + 1 |}.

End Db.

(** ** The orchestrator ([runBacktest]) *)

Record BacktestResult : Type := mkBacktestResult {
  backtestId : Z;
  summary : Summary.t;
  trades : list Trade.t;
  equityCurve : list EquityPoint.t
}.

(** [fetched] is the series [fetchHistoricalData] resolves to (the broker's
    answer, or the generated series it falls back to). *)
Definition runBacktest (sqrt : num -> num) (now : Date) (fetched : list Candle.t)
    (userId strategyId : Z) (stockSymbol : string) (startDate endDate : Date)
    (initialCapital : num) (parameters : Parameters) (db : Db.t)
    : result BacktestResult * Db.t :=
  match head (filter (fun s => Db.strategy_id s = strategyId) (Db.strategies db)) with
  | None =>
      (Err (Error ("Strategy with ID " +:+ pretty strategyId +:+ " not found")), db)
  | Some strategyData =>
      if bool_decide (fetched = []) then
        (Err (Error ("No historical data available for " +:+ stockSymbol
                     +:+ " in the specified date range")), db)
      else
        match applyStrategy sqrt fetched (Db.strategy_name strategyData) parameters with
        | Err e => (Err e, db)
        | Ok signals =>
            match simulateTrades now signals initialCapital with
            | Err e => (Err e, db)
            | Ok sim =>
                let s := Sim.summary sim in
                let '(backtest, db1) :=
                  Db.insertBacktest
                    (fun id =>
                       {| Db.id := id;
                          Db.userId := userId;
                          Db.strategyId := strategyId;
                          Db.strategyName := Db.strategy_name strategyData;
                          Db.stockSymbol := stockSymbol;
                          Db.startDate := startDate;
                          Db.endDate := endDate;
                          Db.initialCapital := initialCapital;
                          Db.finalCapital := Summary.finalCapital s;
                          Db.parameters := parameters;
                          Db.profitLoss := Summary.profit s;
                          Db.profitLossPercentage := Summary.profitPercentage s;
                          Db.totalTrades := Summary.totalTrades s;
                          Db.winningTrades := Summary.winningTrades s;
                          Db.maxDrawdown := Summary.maxDrawdown s |})
                    db in
                let db2 :=
                  fold_left
                    (fun d trade =>
                       Db.insertTrade
                         (fun id =>
                            {| Db.trade_id := id;
                               Db.backtestId := Db.id backtest;
                               Db.date := Trade.date trade;
                               Db.type := Trade.type trade;
                               Db.price := Trade.price trade;
                               Db.quantity := Trade.quantity trade;
                               Db.profit := Trade.profit trade |})
                         d)
                    (Sim.out_trades sim) db1 in
                (Ok {| backtestId := Db.id backtest;
                       summary := s;
                       trades := Sim.out_trades sim;
                       equityCurve := Sim.out_equityCurve sim |}, db2)
            end
        end
  end.

(** ** The read path ([getBacktestDetails]) *)

Definition dayMs : Z := 86400000.

(** The key [toISOString().split('T')[0]] of a date, as a day number. *)
Definition dateKey (d : Date) : Z := d `div` dayMs.

(** The values of [d] in
    [for (let d = new Date(startDate); d <= endDate; d.setDate(d.getDate() + 1))],
    the server clock being UTC. *)
Definition eachDay (startDate endDate : Date) : list Date :=
  if endDate <? startDate then []
  else (fun j => startDate + dayMs * Z.of_nat j)
         <$> seq 0 (Z.to_nat ((endDate - startDate) `div` dayMs + 1)).

Definition tradesByDay (trades : list Db.TradeRow) : gmap Z (list Db.TradeRow) :=
  fold_left
    (fun tradeMap trade =>
       let key := dateKey (Db.date trade) in
       let tradeMap' := if bool_decide (is_Some (tradeMap !! key)) then tradeMap
                        else <[key := []]> tradeMap in
       <[key := default [] (tradeMap' !! key) ++ [trade]]> tradeMap')
    trades ∅.

Definition applyDayTrades (equity : num) (dayTrades : list Db.TradeRow) : num :=
  fold_left
    (fun equity trade =>
       match Db.profit trade with
       | Some p => (equity + p)%num
       | None => equity
       end)
    dayTrades equity.

Record BacktestDetails : Type := mkBacktestDetails {
  det_backtest : Db.BacktestRow;
  det_trades : list Db.TradeRow;
  det_equityCurve : list EquityPoint.t;
  det_summary : Summary.t
}.

Definition detailsSummary (backtest : Db.BacktestRow) : Summary.t :=
  {| Summary.initialCapital := Db.initialCapital backtest;
     Summary.finalCapital := Db.finalCapital backtest;
     Summary.profit := Db.profitLoss backtest;
     Summary.profitPercentage := Db.profitLossPercentage backtest;
     Summary.totalTrades := Db.totalTrades backtest;
     Summary.winningTrades := Db.winningTrades backtest;
     Summary.losingTrades := Db.totalTrades backtest - Db.winningTrades backtest;
     Summary.winRate :=
       (ofZ (Db.winningTrades backtest) / ofZ (Db.totalTrades backtest) * Fin 100)%num;
     Summary.maxDrawdown := Db.maxDrawdown backtest;
     Summary.avgTradeProfit :=
       (Db.profitLoss backtest / ofZ (Db.totalTrades backtest))%num |}.

(** The order of [.orderBy(backtestTrades.date)]. *)
Definition byDate (a b : Db.TradeRow) : Prop := (Db.date a <= Db.date b)%Z.

#[global] Instance byDate_dec a b : Decision (byDate a b).
Proof. unfold byDate. apply Z_le_dec. Defined.

(** [None] is the [null] returned for an unknown or foreign identifier. *)
Definition getBacktestDetails (backtestId userId : Z) (db : Db.t)
    : result (option BacktestDetails) :=
  match head (filter (fun b => Db.id b = backtestId ∧ Db.userId b = userId)
                     (Db.backtests db)) with
  | None => Ok None
  | Some backtest =>
      let trades :=
        merge_sort byDate
          (filter (fun r => Db.backtestId r = backtestId) (Db.backtestTrades db)) in
      let tradeMap := tradesByDay trades in
      let curve :=
        fold_left
          (fun '(equity, equityCurve) d =>
             let dayTrades := default [] (tradeMap !! dateKey d) in
             let equity' := applyDayTrades equity dayTrades in
             (equity', equityCurve ++ [EquityPoint.mk d equity']))
          (eachDay (Db.startDate backtest) (Db.endDate backtest))
          (Db.initialCapital backtest, []) in
      Ok (Some {| det_backtest := backtest;
                  det_trades := trades;
                  det_equityCurve := snd curve;
                  det_summary := detailsSummary backtest |})
  end.

(** ** The strategy engine of the second revision of the service *)

(** The file holds a second revision of the service, whose [applyStrategy]
    replays the strategies bar by bar on the growing prefix of the series
    and returns every bar with a numeric signal. *)
Module Revision2.

(** [parameters.key || fallback] *)
Definition orZ (o : option Z) (fallback : Z) : Z :=
  match o with
  | Some z => if z =? 0 then fallback else z
  | None => fallback
  end.

Definition orNum (o : option num) (fallback : num) : num :=
  match o with
  | Some (Fin q) => if Qeq_bool q 0 then fallback else Fin q
  | Some NaN | None => fallback
  | Some x => x
  end.

(** An element of [ohlcData]. *)
Record Bar : Type := mkBar {
  time : Date;
  open : num;
  high : num;
  low : num;
  bar_close : num;
  volume : num
}.

#[global] Instance Bar_close : HasClose Bar := bar_close.

(** [new Date(bar.date || bar.time)]: the bars of this model carry a [date]. *)
Definition toBar (c : Candle.t) : Bar :=
  {| time := Candle.date c;
     open := Candle.open c;
     high := Candle.high c;
     low := Candle.low c;
     bar_close := Candle.close c;
     volume := Candle.volume c |}.

(** The body of the loop over [i]: the signal pushed for bar [i]. *)
Definition signalFor (sqrt : num -> num) (strategyName : string)
    (ohlcData : list Bar) (parameters : Parameters) (i : nat) : result Z :=
  let currentData := slice ohlcData 0 (Z.of_nat i + 1) in
  if 30 <=? Z.of_nat i then
    result ←
      (if bool_decide (strategyName = "Moving Average Crossover") then
         Ok (movingAverageCrossover currentData
               (orZ (shortPeriod parameters) 9)
               (orZ (longPeriod parameters) 21))
       else if bool_decide (strategyName = "RSI Strategy") then
         Ok (rsiStrategy currentData
               (orZ (period parameters) 14)
               (orNum (overbought parameters) (Fin 70))
               (orNum (oversold parameters) (Fin 30)))
       else if bool_decide (strategyName = "MACD Strategy") then
         Ok (macdStrategy currentData
               (orZ (fastPeriod parameters) 12)
               (orZ (slowPeriod parameters) 26)
               (orZ (signalPeriod parameters) 9))
       else if bool_decide (strategyName = "Bollinger Bands Strategy") then
         bollingerBandsStrategy sqrt currentData
           (orZ (period parameters) 20)
           (orNum (stdDev parameters) (Fin 2))
       else Err (Error ("Strategy " +:+ strategyName +:+ " not implemented")));
    Ok (if bool_decide (signal result = "BUY") then 1
        else if bool_decide (signal result = "SELL") then -1
        else 0)
  else Ok 0.

(** [{ ...bar, signal }] *)
Record SignalBar : Type := mkSignalBar { bar : Bar; barSignal : Z }.

Definition applyStrategy (sqrt : num -> num) (strategyName : string)
    (data : list Candle.t) (parameters : Parameters) : result (list SignalBar) :=
  let ohlcData := toBar <$> data in
  signals ← mapM (signalFor sqrt strategyName ohlcData parameters)
                 (seq 0 (length ohlcData));
  Ok (imap (fun index bar =>
              mkSignalBar bar
                (if Z.of_nat index <? len signals
                 then default 0 (signals !! index) else 0))
           ohlcData).

End Revision2.

(** ** The trade simulator of the second revision *)

(** The second revision's [simulateTrades] reads the bars with their numeric
    signal, marks the open position to market on every bar from the
    eleventh on, and puts 95% of the cash into each purchase. *)
Module Sim2.

Import Revision2.

(** The local variables of [simulateTrades]; [position] is 0 (none),
    1 (long) or -1 (short). *)
Record state : Type := mk {
  trades : list Trade.t;
  equityCurve : list EquityPoint.t;
  cash : num;
  shares : num;
  position : Z;
  entryPrice : num;
  winningTrades : Z;
  losingTrades : Z;
  totalProfit : num;
  equity : num;
  maxEquity : num;
  maxDrawdown : num
}.

Record output : Type := mkOutput {
  summary : Summary.t;
  out_trades : list Trade.t;
  out_equityCurve : list EquityPoint.t
}.

(** "Record initial equity". *)
Definition init (strategyResults : list SignalBar) (initialCapital : num) : state :=
  {| trades := [];
     equityCurve :=
       match strategyResults with
       | first :: _ => [EquityPoint.mk (time (bar first)) initialCapital]
       | [] => []
       end;
     cash := initialCapital;
     shares := Fin 0;
     position := 0;
     entryPrice := Fin 0;
     winningTrades := 0;
     losingTrades := 0;
     totalProfit := Fin 0;
     equity := initialCapital;
     maxEquity := initialCapital;
     maxDrawdown := Fin 0 |}.

(** The bar's point pushed on the equity curve, with the new values of
    [equity], [maxEquity] and [maxDrawdown]. *)
Definition recordEquity (st : state) (b : SignalBar)
    (equity' maxEquity' maxDrawdown' : num) : state :=
  {| trades := trades st;
     equityCurve := equityCurve st ++ [EquityPoint.mk (time (bar b)) equity'];
     cash := cash st;
     shares := shares st;
     position := position st;
     entryPrice := entryPrice st;
     winningTrades := winningTrades st;
     losingTrades := losingTrades st;
     totalProfit := totalProfit st;
     equity := equity';
     maxEquity := maxEquity';
     maxDrawdown := maxDrawdown' |}.

(** "Update equity curve (mark-to-market)". *)
Definition markToMarket (st : state) (b : SignalBar) : state :=
  let currentPrice := bar_close (bar b) in
  if bool_decide (position st <> 0) then
    let equity' := (cash st + shares st * currentPrice)%num in
    if (equity' >? maxEquity st)%num then
      recordEquity st b equity' equity' (maxDrawdown st)
    else
      let drawdown := ((maxEquity st - equity') / maxEquity st * Fin 100)%num in
      if (drawdown >? maxDrawdown st)%num then
        recordEquity st b equity' (maxEquity st) drawdown
      else recordEquity st b equity' (maxEquity st) (maxDrawdown st)
  else recordEquity st b (cash st) (maxEquity st) (maxDrawdown st).

(** "Close short position": the branch [position === -1] of a buy signal. *)
Definition closeShort (st : state) (b : SignalBar) : state :=
  let currentPrice := bar_close (bar b) in
  let profit := ((entryPrice st - currentPrice) * shares st)%num in
  {| trades := trades st ++
       [Trade.mk (time (bar b)) TradeBuy currentPrice (shares st) (Some profit)];
     equityCurve := equityCurve st;
     cash := (cash st + entryPrice st * shares st + profit)%num;
     shares := Fin 0;
     position := position st;
     entryPrice := entryPrice st;
     winningTrades :=
       if (profit >? Fin 0)%num then winningTrades st + 1 else winningTrades st;
     losingTrades :=
       if (profit >? Fin 0)%num then losingTrades st else losingTrades st + 1;
     totalProfit := (totalProfit st + profit)%num;
     equity := equity st;
     maxEquity := maxEquity st;
     maxDrawdown := maxDrawdown st |}.

(** "Open new long position": [shares] is assigned whether or not the
    purchase goes through. *)
Definition openLong (st : state) (b : SignalBar) : state :=
  let currentPrice := bar_close (bar b) in
  let positionSize := (Fin 0.95 * cash st)%num in
  let shares' := floor (positionSize / currentPrice) in
  if (shares' >? Fin 0)%num then
    {| trades := trades st ++
         [Trade.mk (time (bar b)) TradeBuy currentPrice shares' None];
       equityCurve := equityCurve st;
       cash := (cash st - shares' * currentPrice)%num;
       shares := shares';
       position := 1;
       entryPrice := currentPrice;
       winningTrades := winningTrades st;
       losingTrades := losingTrades st;
       totalProfit := totalProfit st;
       equity := equity st;
       maxEquity := maxEquity st;
       maxDrawdown := maxDrawdown st |}
  else
    {| trades := trades st;
       equityCurve := equityCurve st;
       cash := cash st;
       shares := shares';
       position := position st;
       entryPrice := entryPrice st;
       winningTrades := winningTrades st;
       losingTrades := losingTrades st;
       totalProfit := totalProfit st;
       equity := equity st;
       maxEquity := maxEquity st;
       maxDrawdown := maxDrawdown st |}.

(** "Close long position" at [price], dated [date]; [keep] tells the close
    after the loop, which leaves [shares] as it is, from the one inside. *)
Definition closeLong (keep : bool) (date : Date) (price : num) (st : state) : state :=
  let profit := ((price - entryPrice st) * shares st)%num in
  {| trades := trades st ++
       [Trade.mk date TradeSell price (shares st) (Some profit)];
     equityCurve := equityCurve st;
     cash := (cash st + shares st * price)%num;
     shares := if keep then shares st else Fin 0;
     position := position st;
     entryPrice := entryPrice st;
     winningTrades :=
       if (profit >? Fin 0)%num then winningTrades st + 1 else winningTrades st;
     losingTrades :=
       if (profit >? Fin 0)%num then losingTrades st else losingTrades st + 1;
     totalProfit := (totalProfit st + profit)%num;
     equity := equity st;
     maxEquity := maxEquity st;
     maxDrawdown := maxDrawdown st |}.

(** [position = 0] at the end of the sell branch. *)
Definition flatten (st : state) : state :=
  {| trades := trades st;
     equityCurve := equityCurve st;
     cash := cash st;
     shares := shares st;
     position := 0;
     entryPrice := entryPrice st;
     winningTrades := winningTrades st;
     losingTrades := losingTrades st;
     totalProfit := totalProfit st;
     equity := equity st;
     maxEquity := maxEquity st;
     maxDrawdown := maxDrawdown st |}.

(** The callback of [strategyResults.forEach((bar, index) => ...)]. *)
Definition step (st : state) (index : nat) (b : SignalBar) : state :=
  if Z.of_nat index <? 10 then st
  else
    let st1 := markToMarket st b in
    if bool_decide (barSignal b = 1) && (position st1 <=? 0) then
      let st2 := if bool_decide (position st1 = -1) then closeShort st1 b else st1 in
      openLong st2 b
    else if bool_decide (barSignal b = -1) && (position st1 >=? 0) then
      let st2 := if bool_decide (position st1 = 1)
                 then closeLong false (time (bar b)) (bar_close (bar b)) st1
                 else st1 in
      flatten st2
    else st1.

Definition loop (st : state) (strategyResults : list SignalBar) : state :=
  fold_left (fun st ib => step st ib.1 ib.2)
            (zip (seq 0 (length strategyResults)) strategyResults) st.

(** "Close any open position at the end using the last price". *)
Definition closeRemaining (strategyResults : list SignalBar) (st : state) : state :=
  match last strategyResults with
  | Some lastBar =>
      if bool_decide (position st <> 0) && bool_decide (position st = 1)
      then closeLong true (time (bar lastBar)) (bar_close (bar lastBar)) st
      else st
  | None => st
  end.

Definition summarize (initialCapital : num) (st : state) : Summary.t :=
  let finalCapital := cash st in
  let profitPercentage := ((finalCapital - initialCapital) / initialCapital * Fin 100)%num in
  let totalTrades := winningTrades st + losingTrades st in
  {| Summary.initialCapital := initialCapital;
     Summary.finalCapital := finalCapital;
     Summary.profit := (finalCapital - initialCapital)%num;
     Summary.profitPercentage := profitPercentage;
     Summary.totalTrades := totalTrades;
     Summary.winningTrades := winningTrades st;
     Summary.losingTrades := losingTrades st;
     Summary.winRate :=
       if totalTrades >? 0
       then (ofZ (winningTrades st) / ofZ totalTrades * Fin 100)%num
       else Fin 0;
     Summary.maxDrawdown := maxDrawdown st;
     Summary.avgTradeProfit :=
       if totalTrades >? 0 then (totalProfit st / ofZ totalTrades)%num else Fin 0 |}.

Definition simulateTrades (strategyResults : list SignalBar) (initialCapital : num)
    : output :=
  let st := closeRemaining strategyResults
              (loop (init strategyResults initialCapital) strategyResults) in
  {| summary := summarize initialCapital st;
     out_trades := trades st;
     out_equityCurve := equityCurve st |}.

End Sim2.

(** ** Historical data *)

(** The broker client ([utils/angelOne.ts]): [isInitialized] is the flag of
    the singleton, set when an API key is configured. *)
Module AngelOne.

Definition ensureInitialized (isInitialized : bool) : result unit :=
  if isInitialized then Ok tt
  else Err (Error "AngelOne API not initialized. Please verify your API key.").

Definition getHistoricalData (isInitialized : bool) (symbol : string)
    (startDate endDate : Date) : result (list Candle.t) :=
  _ ← ensureInitialized isInitialized;
  Err (Error "AngelOne API getHistoricalData not implemented - using fallback").

End AngelOne.

(** The data source of the second revision.  [random n] stands for the
    result of the [n]-th call of [Math.random()], and the server clock is
    UTC. *)
Module Data2.

(** [date.getDay()]: 0 is Sunday, and 1 January 1970 was a Thursday. *)
Definition getDay (date : Date) : Z := (date `div` dayMs + 4) `mod` 7.

(** The nearest multiple of 1/100, the larger one of two. *)
Definition nearestCent (q : Q) : Q :=
  (inject_Z (Qfloor (q * 100 + (1 # 2))) / 100)%Q.

(** [parseFloat(x.toFixed(2))]: [toFixed] rounds the absolute value and
    leaves numbers from [10^21] on as they are. *)
Definition toFixed2 (x : num) : num :=
  match x with
  | Fin q =>
      if Qle_bool (inject_Z (10 ^ 21)) (Qabs q) then Fin q
      else if Qle_bool 0 q then Fin (nearestCent q)
      else Fin (- nearestCent (- q))%Q
  | _ => x
  end.

(** The variables of the loop of [generateMockHistoricalData]; [calls]
    counts the calls of [Math.random()] made so far. *)
Record state : Type := mk {
  price : num;
  calls : nat;
  data : list Candle.t
}.

(** One iteration of [for (let i = 0; i < numBars; i++)]; a bar of this
    revision has no [timestamp] property. *)
Definition step (random : nat -> num) (startDate : Date) (st : state) (i : Z) : state :=
  let date := startDate + i * 24 * 60 * 60 * 1000 in
  if bool_decide (getDay date = 0) || bool_decide (getDay date = 6) then st
  else
    let n := calls st in
    let change := ((random n - Fin 0.5) * Fin 2 * (price st * Fin 0.02))%num in
    let price' := (price st + change)%num in
    let range := (price' * Fin 0.015)%num in
    let high := (price' + random (n + 1)%nat * range)%num in
    let low := (price' - random (n + 2)%nat * range)%num in
    let open := (low + random (n + 3)%nat * (high - low))%num in
    let close := (low + random (n + 4)%nat * (high - low))%num in
    let volume := floor (Fin 10000 + random (n + 5)%nat * Fin 90000)%num in
    {| price := price';
       calls := (n + 6)%nat;
       data := data st ++
         [{| Candle.date := date;
             Candle.timestamp := 0;
             Candle.open := toFixed2 open;
             Candle.high := toFixed2 high;
             Candle.low := toFixed2 low;
             Candle.close := toFixed2 close;
             Candle.volume := volume |}] |}.

Definition generateMockHistoricalData (random : nat -> num)
    (startDate endDate : Date) : list Candle.t :=
  let dayDiff := - ((- (endDate - startDate)) `div` (1000 * 3600 * 24)) in
  let numBars := Z.min dayDiff 365 in
  data (fold_left (step random startDate) (indices 0 numBars)
                  {| price := Fin 100; calls := 0; data := [] |}).

(** [apiKey] is [process.env.ANGELONE_API_KEY]; the [catch] falls back to
    the generated series. *)
Definition fetchHistoricalData (random : nat -> num) (apiKey : string)
    (isInitialized : bool) (symbol : string) (startDate endDate : Date)
    : list Candle.t :=
  match
    (if bool_decide (apiKey <> "")
     then AngelOne.getHistoricalData isInitialized symbol startDate endDate
     else Ok (generateMockHistoricalData random startDate endDate))
  with
  | Ok data => data
  | Err _ => generateMockHistoricalData random startDate endDate
  end.

End Data2.

(** ** Binary64 arithmetic *)

From Stdlib Require Floats Uint63.

Set Warnings "-inexact-float".

(** Where a property depends on rounding, the numbers are the binary64
    values themselves: the kernel's floating-point numbers, whose operations
    are those of IEEE 754 in round-to-nearest-even, as JavaScript's are.  A
    decimal literal denotes the nearest binary64 value, in both. *)
Module F64.

Import PrimFloat.

(** [x > y] *)
Definition gtb (x y : float) : bool := PrimFloat.ltb y x.

(** [Math.floor]: the largest integer not above [x].  A finite [x] is
    [m * 2^e], negated when [negative]; with [e >= 0] it is an integer
    already, and zeros, infinities and NaN are returned as they are. *)
Definition floor (x : float) : float :=
  match FloatOps.Prim2SF x with
  | SpecFloat.S754_finite negative m e =>
      if 0 <=? e then x
      else
        let d := 2 ^ (- e) in
        let magnitude :=
          if negative then (Z.pos m + d - 1) `div` d else Z.pos m `div` d in
        let r := PrimFloat.of_uint63 (Uint63.of_Z magnitude) in
        if negative then PrimFloat.opp r else r
  | _ => x
  end.

(** A counter as a number; the counters of this code stay below [2^32],
    the bound of an array's length, where the conversion is exact. *)
Definition ofZ (z : Z) : float := PrimFloat.of_uint63 (Uint63.of_Z z).

End F64.

(** ** The trade simulator in binary64 *)

(** [simulateTrades] of the first revision once more, statement by
    statement as [Sim] has it, on binary64 numbers. *)
Module Sim64.

Import PrimFloat.
Local Open Scope float_scope.

Module Signal.
Record t : Type := mk {
date : Date;
type : SignalType;
price : float
}.
End Signal.

Module Trade.
Record t : Type := mk {
date : Date;
type : TradeType;
price : float;
quantity : float;
profit : option float
}.
End Trade.

Module EquityPoint.
Record t : Type := mk { date : Date; equity : float }.
End EquityPoint.

Module Summary.
Record t : Type := mk {
initialCapital : float;
finalCapital : float;
profit : float;
profitPercentage : float;
totalTrades : Z;
winningTrades : Z;
losingTrades : Z;
winRate : float;
maxDrawdown : float;
avgTradeProfit : float
}.
End Summary.

(** The local variables of [simulateTrades]. *)
Record state : Type := mk {
  capital : float;
  position : float;
  entryPrice : float;
  trades : list Trade.t;
  maxDrawdown : float;
  peak : float;
  winningTrades : Z;
  totalTrades : Z;
  equityCurve : list EquityPoint.t
}.

Record output : Type := mkOutput {
  out_trades : list Trade.t;
  summary : Summary.t;
  out_equityCurve : list EquityPoint.t
}.

(** [signals[0]?.date || new Date()] *)
Definition firstDate (now : Date) (signals : list Signal.t) : Date :=
  match signals with
  | s :: _ => Signal.date s
  | [] => now
  end.

Definition init (now : Date) (signals : list Signal.t) (initialCapital : float) : state :=
  {| capital := initialCapital;
     position := 0;
     entryPrice := 0;
     trades := [];
     maxDrawdown := 0;
     peak := initialCapital;
     winningTrades := 0;
     totalTrades := 0;
     equityCurve := [EquityPoint.mk (firstDate now signals) initialCapital] |}.

(** One iteration of [for (const signal of signals)]. *)
Definition step (st : state) (signal : Signal.t) : state :=
  let price := Signal.price signal in
  if bool_decide (Signal.type signal = BUY) && (position st =? 0) then
    let quantity := F64.floor (capital st / price) in
    if F64.gtb quantity 0 then
      let cost := quantity * price in
      let capital' := capital st - cost in
      {| capital := capital';
         position := quantity;
         entryPrice := price;
         trades := trades st ++
           [Trade.mk (Signal.date signal) TradeBuy price quantity None];
         maxDrawdown := maxDrawdown st;
         peak := peak st;
         winningTrades := winningTrades st;
         totalTrades := totalTrades st;
         equityCurve := equityCurve st ++
           [EquityPoint.mk (Signal.date signal) (capital' + quantity * price)] |}
    else st
  else if bool_decide (Signal.type signal = SELL) && F64.gtb (position st) 0 then
    let sellValue := position st * price in
    let profit := sellValue - position st * entryPrice st in
    let capital' := capital st + sellValue in
    let drawdown := (peak st - capital') / peak st * 100 in
    {| capital := capital';
       position := 0;
       entryPrice := 0;
       trades := trades st ++
         [Trade.mk (Signal.date signal) TradeSell price (position st) (Some profit)];
       maxDrawdown :=
         if F64.gtb capital' (peak st) then maxDrawdown st
         else if F64.gtb drawdown (maxDrawdown st) then drawdown
         else maxDrawdown st;
       peak := if F64.gtb capital' (peak st) then capital' else peak st;
       winningTrades :=
         if F64.gtb profit 0 then (winningTrades st + 1)%Z else winningTrades st;
       totalTrades := (totalTrades st + 1)%Z;
       equityCurve := equityCurve st ++
         [EquityPoint.mk (Signal.date signal) capital'] |}
  else st.

Definition loop (st : state) (signals : list Signal.t) : state :=
  fold_left step signals st.

(** "Close any remaining positions at the last price". *)
Definition closeRemaining (signals : list Signal.t) (st : state) : state :=
  match last signals with
  | Some lastSignal =>
      if F64.gtb (position st) 0 then
        let sellValue := position st * Signal.price lastSignal in
        let profit := sellValue - position st * entryPrice st in
        let capital' := capital st + sellValue in
        {| capital := capital';
           position := position st;
           entryPrice := entryPrice st;
           trades := trades st ++
             [Trade.mk (Signal.date lastSignal) TradeSell
                (Signal.price lastSignal) (position st) (Some profit)];
           maxDrawdown := maxDrawdown st;
           peak := peak st;
           winningTrades :=
             if F64.gtb profit 0 then (winningTrades st + 1)%Z else winningTrades st;
           totalTrades := (totalTrades st + 1)%Z;
           equityCurve := equityCurve st ++
             [EquityPoint.mk (Signal.date lastSignal) capital'] |}
      else st
  | None => st
  end.

Definition summarize (initialCapital : float) (st : state) : Summary.t :=
  let finalCapital := capital st in
  let profit := finalCapital - initialCapital in
  let profitPercentage := profit / initialCapital * 100 in
  {| Summary.initialCapital := initialCapital;
     Summary.finalCapital := finalCapital;
     Summary.profit := profit;
     Summary.profitPercentage := profitPercentage;
     Summary.totalTrades := totalTrades st;
     Summary.winningTrades := winningTrades st;
     Summary.losingTrades := (totalTrades st - winningTrades st)%Z;
     Summary.winRate :=
       if (totalTrades st >? 0)%Z
       then F64.ofZ (winningTrades st) / F64.ofZ (totalTrades st) * 100
       else 0;
     Summary.maxDrawdown := maxDrawdown st;
     Summary.avgTradeProfit :=
       if (totalTrades st >? 0)%Z then profit / F64.ofZ (totalTrades st) else 0 |}.

Definition simulateTrades (now : Date) (signals : list Signal.t)
    (initialCapital : float) : output :=
  let st := closeRemaining signals (loop (init now signals initialCapital) signals) in
  {| out_trades := trades st;
     summary := summarize initialCapital st;
     out_equityCurve := equityCurve st |}.

End Sim64.

(** ** Vocabulary of the specification *)

(** A closing trade is one whose [profit] is not [null]. *)
Definition isClosing (t : Trade.t) : bool :=
  match Trade.profit t with Some _ => true | None => false end.

Definition isWinning (t : Trade.t) : bool :=
  match Trade.profit t with Some p => (p >? Fin 0)%num | None => false end.

Definition isLosing (t : Trade.t) : bool :=
  match Trade.profit t with Some p => negb (p >? Fin 0)%num | None => false end.

Definition countTrades (f : Trade.t -> bool) (trades : list Trade.t) : Z :=
  len (filter (fun t => Is_true (f t)) trades).

(** The state of the simulator once the signals [processed] have been consumed. *)
Definition stateAfter (now : Date) (signals processed : list Signal.t)
    (initialCapital : num) : Sim.state :=
  Sim.loop (Sim.init now signals initialCapital) processed.

Definition positivePrice (s : Signal.t) : Prop :=
  exists p, Signal.price s = Fin p /\ (0 < p)%Q.

(** Consecutive prices are finite and never decrease. *)
Definition nonDecreasing (data : list num) : Prop :=
  forall i a b, data !! i = Some a -> data !! S i = Some b ->
    exists x y, a = Fin x /\ b = Fin y /\ (x <= y)%Q.

(** The successive values of the variable [avgGain] of [calculateRSI], one
    per RSI value: the mean of the first [period] gains, then the smoothing
    by [(period - 1) / period]. *)
Definition averageGains (data : list num) (period : Z) : list num :=
  let gains := gainOf <$> changes data in
  let avgGain := (sum (slice gains 0 period) / ofZ period)%num in
  snd (fold_left
         (fun '(avgGain, averages) i =>
            let avgGain' := ((avgGain * ofZ (period - 1) + aget gains i) / ofZ period)%num in
            (avgGain', averages ++ [avgGain']))
         (indices period (len gains))
         (avgGain, [avgGain])).

(** The value the RSI code produces from the average gain [avgGain] when
    the average loss is 0, the divisor being replaced by 0.001. *)
Definition rsiAtZeroLoss (avgGain : num) : num :=
  (Fin 100 - Fin 100 / (Fin 1 + avgGain / Fin (1 # 1000)))%num.

Definition finiteNonneg (x : num) : Prop := exists q, x = Fin q /\ (0 <= q)%Q.
Definition finiteZero (x : num) : Prop := exists q, x = Fin q /\ (q == 0)%Q.

(** The strategy names [applyStrategy] has a case for. *)
Definition supportedStrategies : list string :=
  ["Moving Average Crossover"; "RSI Strategy"; "MACD Strategy";
   "Bollinger Bands Strategy"].

Definition isHold (s : Signal.t) : Prop := Signal.type s = HOLD.

(** The counters of the simulator against its trade log. *)
Definition countersAgree (st : Sim.state) : Prop :=
  Sim.totalTrades st = countTrades isClosing (Sim.trades st) /\
  Sim.winningTrades st = countTrades isWinning (Sim.trades st).

(** ** Example runs *)

(** Scenario D: a single BUY signal, then the end of the data. *)
Definition scenarioD : list Signal.t := [Signal.mk 1 BUY (Fin 10)].

(** A BUY at 10 followed by a SELL at 12. *)
Definition scenarioRoundTrip : list Signal.t :=
  [Signal.mk 1 BUY (Fin 10); Signal.mk 2 SELL (Fin 12)].

(** The stored record of a run that closed no trade, over a window of three
    days: its fields are those the insert of [runBacktest] takes from the
    simulator's summary, here for an empty signal sequence and a capital of
    10000. *)
Definition noTradeSummary : Summary.t :=
  Sim.summarize (Fin 10000)
    (Sim.closeRemaining [] (Sim.loop (Sim.init 0 [] (Fin 10000)) [])).

Definition noTradeRow : Db.BacktestRow :=
  {| Db.id := 1;
     Db.userId := 1;
     Db.strategyId := 1;
     Db.strategyName := "RSI Strategy";
     Db.stockSymbol := "INFY";
     Db.startDate := 0;
     Db.endDate := 2 * dayMs;
     Db.initialCapital := Fin 10000;
     Db.finalCapital := Summary.finalCapital noTradeSummary;
     Db.parameters := noParameters;
     Db.profitLoss := Summary.profit noTradeSummary;
     Db.profitLossPercentage := Summary.profitPercentage noTradeSummary;
     Db.totalTrades := Summary.totalTrades noTradeSummary;
     Db.winningTrades := Summary.winningTrades noTradeSummary;
     Db.maxDrawdown := Summary.maxDrawdown noTradeSummary |}.

Definition noTradeDb : Db.t :=
  {| Db.strategies := [Db.mkStrategy 1 "RSI Strategy"];
     Db.backtests := [noTradeRow];
     Db.backtestTrades := [];
     Db.backtestSeq := 1;
     Db.tradeSeq := 0 |}.

(** Sixteen bars at a constant close of 100, and three rising bars. *)
Definition flatPrices : list num := replicate 16 (Fin 100).
Definition risingPrices : list num := [Fin 1; Fin 2; Fin 3].

(** A bar closing at [x], stamped at millisecond [t]. *)
Definition bar (t : Z) (x : Q) : Candle.t :=
  Candle.mk t t (Fin x) (Fin x) (Fin x) (Fin x) (Fin 1000).

(** A stand-in for [Math.sqrt] in example runs; no example depends on it. *)
Definition sqrtStub (x : num) : num := x.

(** ** Further vocabulary *)

(** A finite number between two rational bounds. *)
Definition finiteWithin (lo hi : Q) (x : num) : Prop :=
  exists q, x = Fin q /\ (lo <= q)%Q /\ (q <= hi)%Q.

(** Every bar of the series closes at the same price. *)
Definition flat `{HasClose A} (data : list A) (p : Q) : Prop :=
  forall c, c ∈ data -> close c = Fin p.

(** Forty daily bars closing at 100, 101, ..., 139, and forty at 100. *)
Definition risingBars : list Candle.t :=
  (fun j => bar (dayMs * Z.of_nat j) (inject_Z (100 + Z.of_nat j))) <$> seq 0 40.

Definition flatBars : list Candle.t :=
  (fun j => bar (dayMs * Z.of_nat j) 100) <$> seq 0 40.

(** An opening BUY and the SELL that closes it: same quantity, and the
    profit of the SELL is its proceeds minus the cost of the BUY. *)
Definition roundTrip (p : Trade.t * Trade.t) : Prop :=
  let (buy, sell) := p in
  Trade.type buy = TradeBuy /\ Trade.profit buy = None /\
  (Trade.quantity buy >? Fin 0)%num = true /\
  Trade.type sell = TradeSell /\ Trade.quantity sell = Trade.quantity buy /\
  Trade.profit sell =
    Some (Trade.quantity buy * Trade.price sell
          - Trade.quantity buy * Trade.price buy)%num.

Definition tradesOf (pairs : list (Trade.t * Trade.t)) : list Trade.t :=
  flat_map (fun p => [p.1; p.2]) pairs.

(** The trade log is a sequence of round trips, followed by the BUY of the
    position still open, if any. *)
Definition pairedUp (st : Sim.state) : Prop :=
  exists pairs,
    Forall roundTrip pairs /\ Sim.totalTrades st = len pairs /\
    ((Sim.position st = Fin 0 /\ Sim.trades st = tradesOf pairs) \/
     ((Sim.position st >? Fin 0)%num = true /\
      exists buy, Trade.type buy = TradeBuy /\ Trade.profit buy = None /\
        Trade.quantity buy = Sim.position st /\ Trade.price buy = Sim.entryPrice st /\
        Sim.trades st = tradesOf pairs ++ [buy])).

(** The simulator's variables other than the equity curve. *)
Definition ledger (st : Sim.state) :=
  (Sim.capital st, Sim.position st, Sim.entryPrice st, Sim.trades st,
   Sim.maxDrawdown st, Sim.peak st, Sim.winningTrades st, Sim.totalTrades st).

(** A HOLD before the BUY at 10 and another before the SELL at 12. *)
Definition scenarioWithHolds : list Signal.t :=
  [Signal.mk 1 HOLD (Fin 9); Signal.mk 2 BUY (Fin 10); Signal.mk 3 HOLD (Fin 11)].

(** The trade falls on a day from day [lo] up to, but not including, day
    [hi]. *)
Definition tradedWithin (lo hi : Z) (t : Db.TradeRow) : Prop :=
  lo <= dateKey (Db.date t) < hi.

#[global] Instance tradedWithin_dec lo hi t : Decision (tradedWithin lo hi t).
Proof. unfold tradedWithin. apply _. Defined.

(** A run of user 1 over three days, stored with its BUY on the first day
    and its SELL on the second, the SELL inserted first; one trade of
    another run, and one dated after the window. *)
Definition twoTradeDb : Db.t :=
  {| Db.strategies := [Db.mkStrategy 1 "RSI Strategy"];
     Db.backtests := [noTradeRow];
     Db.backtestTrades :=
       [Db.mkTrade 1 1 (dayMs + 5) TradeSell (Fin 12) (Fin 10) (Some (Fin 20));
        Db.mkTrade 2 2 7 TradeSell (Fin 12) (Fin 10) (Some (Fin 1000));
        Db.mkTrade 3 1 3 TradeBuy (Fin 10) (Fin 10) None;
        Db.mkTrade 4 1 (5 * dayMs) TradeSell (Fin 12) (Fin 10) (Some (Fin 7))];
     Db.backtestSeq := 1;
     Db.tradeSeq := 4 |}.

(** ** Vocabulary of the second revision's simulator *)

(** A purchase and the sale that closes it, as the second revision logs
    them: same quantity, and the profit of the sale is the price difference
    times the quantity. *)
Definition longRoundTrip (p : Trade.t * Trade.t) : Prop :=
  let (buy, sell) := p in
  Trade.type buy = TradeBuy /\ Trade.profit buy = None /\
  (Trade.quantity buy >? Fin 0)%num = true /\
  Trade.type sell = TradeSell /\ Trade.quantity sell = Trade.quantity buy /\
  Trade.profit sell =
    Some ((Trade.price sell - Trade.price buy) * Trade.quantity buy)%num.

(** The position is flat or long, never short, and the trade log is a
    sequence of round trips followed by the purchase still open, if any. *)
Definition flatOrLong (st : Sim2.state) : Prop :=
  exists pairs,
    Forall longRoundTrip pairs /\
    Sim2.winningTrades st + Sim2.losingTrades st = len pairs /\
    ((Sim2.position st = 0 /\ Sim2.trades st = tradesOf pairs) \/
     (Sim2.position st = 1 /\
      exists buy, Trade.type buy = TradeBuy /\ Trade.profit buy = None /\
        (Trade.quantity buy >? Fin 0)%num = true /\
        Trade.quantity buy = Sim2.shares st /\ Trade.price buy = Sim2.entryPrice st /\
        Sim2.trades st = tradesOf pairs ++ [buy])).

(** The account has not moved: no trade, the initial cash, no counted
    trade, no drawdown. *)
Definition idle (initialCapital : num) (st : Sim2.state) : Prop :=
  Sim2.trades st = [] /\ Sim2.cash st = initialCapital /\ Sim2.position st = 0 /\
  Sim2.winningTrades st = 0 /\ Sim2.losingTrades st = 0 /\
  Sim2.maxDrawdown st = Fin 0 /\
  Forall (fun p => EquityPoint.equity p = initialCapital) (Sim2.equityCurve st).

(** A bar of the second revision closing at [x] on day [t], with its signal. *)
Definition signalBar (t : Z) (x : Q) (signal : Z) : Revision2.SignalBar :=
  Revision2.mkSignalBar
    (Revision2.mkBar (dayMs * t) (Fin x) (Fin x) (Fin x) (Fin x) (Fin 1000)) signal.

(** ** Vocabulary of the generated series *)

(** The date is neither a Sunday nor a Saturday. *)
Definition weekday (date : Date) : Prop :=
  Data2.getDay date <> 0 /\ Data2.getDay date <> 6.

#[global] Instance weekday_dec date : Decision (weekday date).
Proof. unfold weekday. apply _. Defined.

(** Every result of [Math.random()] is a finite number from 0 up to 1. *)
Definition unitRandom (random : nat -> num) : Prop :=
  forall n, exists r, random n = Fin r /\ (0 <= r)%Q /\ (r <= 1)%Q.

(** The bar's prices are finite, the low is not above the open and the
    close, which are not above the high, and the close is strictly
    positive. *)
Definition wellFormedBar (c : Candle.t) : Prop :=
  exists o h l x,
    Candle.open c = Fin o /\ Candle.high c = Fin h /\
    Candle.low c = Fin l /\ Candle.close c = Fin x /\
    (l <= o)%Q /\ (o <= h)%Q /\ (l <= x)%Q /\ (x <= h)%Q /\ (0 < x)%Q.

(** A source of random numbers that always answers one half. *)
Definition halfRandom (n : nat) : num := Fin 0.5.

(** The least price after [k] generated bars: each loses at most 2%. *)
Fixpoint leastPrice (k : nat) : Q :=
  match k with
  | O => 100
  | S k => 0.98 * leastPrice k
  end.

(** ** Vocabulary and runs in binary64 *)

Module Run64.

Import PrimFloat.
Local Open Scope float_scope.

(** The number of trades of the log whose [profit] is not [null]. *)
Definition countClosing (trades : list Sim64.Trade.t) : Z :=
  len (filter (fun t => is_Some (Sim64.Trade.profit t)) trades).

(** Sum of the non-null [profit] fields, added in the order of the log. *)
Definition profitSum (trades : list Sim64.Trade.t) : float :=
  fold_left add (omap Sim64.Trade.profit trades) 0.

(** A capital of 397.2 and a single BUY at 33.1; twelve shares at that
    price cost 397.20000000000005. *)
Definition overspendCapital : float := 397.2.
Definition overspendSignals : list Sim64.Signal.t := [Sim64.Signal.mk 1%Z BUY 33.1].
Definition overspendCost : float := 397.20000000000005.
Definition overspentCash : float := -5.6843418860808015e-14.

(** A capital of 100, a BUY at 69.79 and a SELL at 135.69: the profit of
    the one trade and the gain of the capital. *)
Definition roundedSignals : list Sim64.Signal.t :=
  [Sim64.Signal.mk 1%Z BUY 69.79; Sim64.Signal.mk 2%Z SELL 135.69].
Definition roundedTradeProfit : float := 65.899999999999991.
Definition roundedGain : float := 65.899999999999977.

End Run64.

(** * Properties *)

(** ** Arithmetic of finite numbers *)

Section FiniteArithmetic.

Local Open Scope Q_scope.

Lemma ltb_Fin (a b : Q) : (Fin a <? Fin b)%num = true <-> a < b.
Proof.
  unfold ltb. rewrite Qlt_alt. destruct (a ?= b); split; congruence.
Qed.

Lemma gtb_Fin (a b : Q) : (Fin a >? Fin b)%num = true <-> b < a.
Proof. apply ltb_Fin. Qed.

Lemma gtb_Fin_false (a b : Q) : (Fin a >? Fin b)%num = false <-> a <= b.
Proof.
  rewrite <- not_true_iff_false, gtb_Fin. split; intros H.
  - apply Qnot_lt_le, H.
  - apply Qle_not_lt, H.
Qed.

Lemma eqb_Fin (a b : Q) : (Fin a =? Fin b)%num = true <-> a == b.
Proof. apply Qeq_bool_iff. Qed.

Lemma qsign_zero (q : Q) : q == 0 -> qsign q = Eq.
Proof. intros H. unfold qsign. apply Qeq_alt, H. Qed.

Lemma div_Fin (a b : Q) : ~ b == 0 -> (Fin a / Fin b)%num = Fin (a / b).
Proof.
  intros H. unfold div. destruct (qsign b) eqn:E; try reflexivity.
  exfalso. apply H. apply Qeq_alt, E.
Qed.

Lemma div_zero_zero (a b : Q) : a == 0 -> b == 0 -> (Fin a / Fin b)%num = NaN.
Proof. intros Ha Hb. unfold div. now rewrite (qsign_zero b Hb), (qsign_zero a Ha). Qed.

Lemma inject_Z_pos (z : Z) : (0 < z)%Z -> 0 < inject_Z z.
Proof. intros H. change 0 with (inject_Z 0). now rewrite <- Zlt_Qlt. Qed.

Lemma floor_div_nonpos (c p : Q) : c <= 0 -> 0 < p -> (Qfloor (c / p) <= 0)%Z.
Proof.
  intros Hc Hp. rewrite Zle_Qle.
  apply Qle_trans with (c / p); [apply Qfloor_le|].
  change (inject_Z 0) with 0. unfold Qdiv.
  apply Qle_trans with (0 * / p); [|rewrite Qmult_0_l; apply Qle_refl].
  apply Qmult_le_compat_r; [exact Hc|].
  apply Qlt_le_weak, Qinv_lt_0_compat, Hp.
Qed.

Lemma sum_snoc (l : list num) (x : num) : sum (l ++ [x]) = (sum l + x)%num.
Proof. unfold sum. now rewrite fold_left_app. Qed.

End FiniteArithmetic.

(** ** Loops and arrays *)

Lemma fold_left_invariant {A B} (P : A -> Prop) (f : A -> B -> A) (l : list B) :
  (forall a x, x ∈ l -> P a -> P (f a x)) ->
  forall a, P a -> P (fold_left f l a).
Proof.
  induction l as [|x l IH]; intros Hstep a Ha; cbn.
  - exact Ha.
  - apply IH.
    + intros a' x' Hin. apply Hstep. now right.
    + apply Hstep; [left | exact Ha].
Qed.

Lemma elem_of_indices (start stop i : Z) :
  i ∈ indices start stop <-> start <= i < stop.
Proof.
  unfold indices. rewrite list_elem_of_fmap. split.
  - intros (j & -> & Hj). apply elem_of_seq in Hj. lia.
  - intros H. exists (Z.to_nat (i - start)). split; [lia|].
    apply elem_of_seq. lia.
Qed.

Lemma aget_lookup (a : list num) (i : Z) (x : num) :
  0 <= i -> a !! Z.to_nat i = Some x -> aget a i = x.
Proof.
  intros Hi Hx. unfold aget. rewrite (proj2 (Z.ltb_ge _ _) Hi), Hx. reflexivity.
Qed.

Lemma aget_Forall (P : num -> Prop) (a : list num) (i : Z) :
  Forall P a -> 0 <= i < len a -> P (aget a i).
Proof.
  intros Hall [Hi Hlt]. unfold len in Hlt.
  destruct (lookup_lt_is_Some_2 a (Z.to_nat i)) as [x Hx]; [lia|].
  rewrite (aget_lookup a i x Hi Hx).
  rewrite Forall_lookup in Hall. apply (Hall _ _ Hx).
Qed.

Lemma slice_Forall {A} (P : A -> Prop) (a : list A) (start stop : Z) :
  Forall P a -> Forall P (slice a start stop).
Proof. intros H. unfold slice. apply Forall_take, Forall_drop, H. Qed.

Lemma slice_all {A} (a : list A) (stop : Z) : len a <= stop -> slice a 0 stop = a.
Proof.
  intros H. unfold slice, relIndex, len in *. cbn.
  destruct (stop <? 0) eqn:E; [lia|].
  rewrite Z.min_r by lia. rewrite Z.min_l by lia. rewrite Nat2Z.id.
  change (Z.to_nat 0) with 0%nat. rewrite Nat.sub_0_r. apply firstn_all.
Qed.

Lemma indices_empty (start stop : Z) : stop <= start -> indices start stop = [].
Proof. intros H. unfold indices. now replace (Z.to_nat (stop - start)) with 0%nat by lia. Qed.

Lemma filter_split_length {A} (P : A -> Prop) `{!forall x, Decision (P x)} (l : list A) :
  (length (filter (fun x => ~ P x) l) + length (filter P l) = length l)%nat.
Proof.
  induction l as [|x l IH]; [reflexivity|].
  rewrite !filter_cons. destruct (decide (P x)) as [HP|HP].
  - rewrite decide_False by tauto. cbn. lia.
  - rewrite decide_True by exact HP. cbn. lia.
Qed.

(** ** The trade simulator *)

(** Case analysis on the condition of a conditional of the goal. *)
Ltac case_cond :=
  match goal with
  | |- context [if ?c then _ else _] => destruct c
  end.

(** Decide the comparisons of signal types whose outcome is known. *)
Ltac simpl_decide :=
  repeat first
    [ rewrite bool_decide_eq_true_2 by congruence
    | rewrite bool_decide_eq_false_2 by congruence ].

Ltac case_cond_eq H :=
  match goal with
  | |- context [if ?c then _ else _] => destruct c eqn:H
  end.

Lemma countTrades_snoc f l t :
  countTrades f (l ++ [t]) = countTrades f l + (if f t then 1 else 0).
Proof.
  unfold countTrades, len. rewrite filter_app, length_app.
  rewrite filter_cons, filter_nil. destruct (f t); cbn.
  - rewrite decide_True by exact I. cbn. lia.
  - rewrite decide_False by (intros []). cbn. lia.
Qed.

Lemma countTrades_partition l :
  countTrades isClosing l = countTrades isWinning l + countTrades isLosing l.
Proof.
  induction l as [|t l IH] using rev_ind; [reflexivity|].
  rewrite !countTrades_snoc, IH.
  unfold isClosing, isWinning, isLosing.
  destruct (Trade.profit t) as [p|]; [destruct (p >? Fin 0)%num|]; cbn; lia.
Qed.

(** Anything kept by every iteration holds when the loop ends. *)
Lemma loop_invariant (P : Sim.state -> Prop) (signals : list Signal.t) :
  (forall st s, s ∈ signals -> P st -> P (Sim.step st s)) ->
  forall st, P st -> P (Sim.loop st signals).
Proof. apply fold_left_invariant. Qed.

Lemma countersAgree_step st s : countersAgree st -> countersAgree (Sim.step st s).
Proof.
  intros [Ht Hw]. unfold Sim.step. cbv zeta.
  case_cond.
  - case_cond; [|split; assumption].
    split; cbn; rewrite countTrades_snoc; cbn; lia.
  - case_cond; [|split; assumption].
    split; cbn; rewrite countTrades_snoc; cbn; [lia|].
    case_cond; lia.
Qed.

Lemma countersAgree_close signals st :
  countersAgree st -> countersAgree (Sim.closeRemaining signals st).
Proof.
  intros [Ht Hw]. unfold Sim.closeRemaining. cbv zeta.
  destruct (last signals) as [lastSignal|]; [|split; assumption].
  case_cond; [|split; assumption].
  split; cbn; rewrite countTrades_snoc; cbn; [lia|].
  case_cond; lia.
Qed.

Lemma countersAgree_run now signals initialCapital :
  countersAgree
    (Sim.closeRemaining signals
       (Sim.loop (Sim.init now signals initialCapital) signals)).
Proof.
  apply countersAgree_close, loop_invariant.
  - intros st' s _. apply countersAgree_step.
  - split; reflexivity.
Qed.

(** C5: for every run of the trade simulator, on any signal sequence and any
    initial capital, the summary satisfies
    [totalTrades = winningTrades + losingTrades]; the three counters are the
    numbers of closing, winning and losing trades of the returned log. *)
Theorem simulateTrades_trade_counts (now : Date) (signals : list Signal.t)
    (initialCapital : num) :
  exists out, simulateTrades now signals initialCapital = Ok out /\
    let s := Sim.summary out in
    Summary.totalTrades s = Summary.winningTrades s + Summary.losingTrades s /\
    Summary.totalTrades s = countTrades isClosing (Sim.out_trades out) /\
    Summary.winningTrades s = countTrades isWinning (Sim.out_trades out) /\
    Summary.losingTrades s = countTrades isLosing (Sim.out_trades out).
Proof.
  eexists. split; [reflexivity|]. cbn.
  set (st := Sim.closeRemaining signals _).
  destruct (countersAgree_run now signals initialCapital) as [Ht Hw]. fold st in Ht, Hw.
  pose proof (countTrades_partition (Sim.trades st)) as Hp.
  repeat split; lia.
Qed.

Lemma step_sell_open st d price :
  (Sim.position st >? Fin 0)%num = true ->
  let profit := (Sim.position st * price - Sim.position st * Sim.entryPrice st)%num in
  let st' := Sim.step st (Signal.mk d SELL price) in
  Sim.trades st' =
    Sim.trades st ++ [Trade.mk d TradeSell price (Sim.position st) (Some profit)] /\
  Sim.totalTrades st' = Sim.totalTrades st + 1 /\
  Sim.winningTrades st' =
    (if (profit >? Fin 0)%num then Sim.winningTrades st + 1 else Sim.winningTrades st) /\
  Sim.capital st' = (Sim.capital st + Sim.position st * price)%num.
Proof.
  intros Hpos. unfold Sim.step. cbn. rewrite Hpos. cbn. auto.
Qed.

(** C3: whenever the simulator still holds a position after the last signal,
    it closes it at the price of the last element of its input, appending a
    SELL trade with a non-null profit and counting it in [totalTrades]; the
    trade, the counters and the final capital are those a SELL signal at that
    price would have produced.  With no trade closed before, the run ends with
    [totalTrades = 1]. *)
Theorem simulateTrades_force_close (now : Date) (signals : list Signal.t)
    (initialCapital : num) :
  let st := stateAfter now signals signals initialCapital in
  (Sim.position st >? Fin 0)%num = true ->
  exists out lastSignal profit,
    simulateTrades now signals initialCapital = Ok out /\
    last signals = Some lastSignal /\
    Sim.out_trades out =
      Sim.trades st ++
      [Trade.mk (Signal.date lastSignal) TradeSell (Signal.price lastSignal)
         (Sim.position st) (Some profit)] /\
    profit = (Sim.position st * Signal.price lastSignal
              - Sim.position st * Sim.entryPrice st)%num /\
    Summary.totalTrades (Sim.summary out) = Sim.totalTrades st + 1 /\
    (Sim.totalTrades st = 0 -> Summary.totalTrades (Sim.summary out) = 1) /\
    let st' := Sim.step st
                 (Signal.mk (Signal.date lastSignal) SELL (Signal.price lastSignal)) in
    Sim.out_trades out = Sim.trades st' /\
    Summary.totalTrades (Sim.summary out) = Sim.totalTrades st' /\
    Summary.winningTrades (Sim.summary out) = Sim.winningTrades st' /\
    Summary.finalCapital (Sim.summary out) = Sim.capital st'.
Proof.
  intros st Hpos.
  destruct (last signals) as [lastSignal|] eqn:Hlast.
  2:{ apply last_None in Hlast. subst signals. discriminate Hpos. }
  destruct (step_sell_open st (Signal.date lastSignal) (Signal.price lastSignal) Hpos)
    as (Htr & Htot & Hwin & Hcap).
  eexists _, lastSignal, _. split; [reflexivity|]. split; [reflexivity|].
  unfold simulateTrades, Sim.closeRemaining. cbn.
  fold (stateAfter now signals signals initialCapital). fold st.
  rewrite Hlast, Hpos. cbn.
  split; [reflexivity|]. split; [reflexivity|]. split; [reflexivity|].
  split; [intros ->; reflexivity|].
  rewrite Htr, Htot, Hwin, Hcap. auto.
Qed.

Lemma simulateTrades_force_close_witness :
  (Sim.position (stateAfter 0 scenarioD scenarioD (Fin 105)) >? Fin 0)%num = true /\
  exists out lastSignal profit,
    simulateTrades 0 scenarioD (Fin 105) = Ok out /\
    last scenarioD = Some lastSignal /\
    Sim.out_trades out =
      Sim.trades (stateAfter 0 scenarioD scenarioD (Fin 105)) ++
      [Trade.mk (Signal.date lastSignal) TradeSell (Signal.price lastSignal)
         (Sim.position (stateAfter 0 scenarioD scenarioD (Fin 105))) (Some profit)] /\
    Summary.totalTrades (Sim.summary out) = 1.
Proof.
  split; [vm_compute; reflexivity|].
  destruct (simulateTrades_force_close 0 scenarioD (Fin 105))
    as (out & lastSignal & profit & H1 & H2 & H3 & _ & _ & H6 & _).
  - vm_compute; reflexivity.
  - exists out, lastSignal, profit. repeat split; try assumption.
    apply H6. reflexivity.
Defined.

(** Scenario D: the single BUY at 10 with a capital of 105 buys 10 shares;
    the end of the data closes them at 10 with a profit of 0. *)
Example scenarioD_run :
  exists out, simulateTrades 0 scenarioD (Fin 105) = Ok out /\
    Sim.out_trades out =
      [Trade.mk 1 TradeBuy (Fin 10) (Fin 10) None;
       Trade.mk 1 TradeSell (Fin 10) (Fin 10) (Some (Fin 0))] /\
    Summary.totalTrades (Sim.summary out) = 1 /\
    Summary.finalCapital (Sim.summary out) = Fin 105.
Proof. eexists. split; [reflexivity|]. vm_compute. auto. Qed.

Lemma add_Fin a b : (Fin a + Fin b)%num = Fin (a + b).
Proof. reflexivity. Qed.

Lemma sub_Fin a b : (Fin a - Fin b)%num = Fin (a - b).
Proof. reflexivity. Qed.

Lemma mul_Fin a b : (Fin a * Fin b)%num = Fin (a * b).
Proof. reflexivity. Qed.

Lemma floor_Fin a : floor (Fin a) = Fin (inject_Z (Qfloor a)).
Proof. reflexivity. Qed.

Lemma div_Fin_pos a b : (0 < b)%Q -> (Fin a / Fin b)%num = Fin (a / b).
Proof. intros H. apply div_Fin. intros E. rewrite E in H. discriminate. Qed.

(** ** The simulator in binary64 *)

Section Binary64.

Import PrimFloat.
Local Open Scope float_scope.

(** C4 (at the failing input): in binary64, with a capital of 397.2 and a
    BUY at the positive price 33.1, the quotient [397.2 / 33.1] rounds to 12,
    so [Math.floor] of it is 12, one share more than the cash pays for:
    the cost [12 * 33.1] is 397.20000000000005, above the capital, and the
    cash balance after the signal is negative. *)
Theorem simulateTrades_overspends :
  let st := Sim64.loop (Sim64.init 0%Z Run64.overspendSignals Run64.overspendCapital)
                       Run64.overspendSignals in
  (0 <=? Run64.overspendCapital) = true /\
  Forall (fun s => (0 <? Sim64.Signal.price s) = true) Run64.overspendSignals /\
  F64.floor (Run64.overspendCapital / 33.1) = 12 /\
  12 * 33.1 = Run64.overspendCost /\
  (Run64.overspendCapital <? Run64.overspendCost) = true /\
  Sim64.position st = 12 /\
  Sim64.capital st = Run64.overspentCash /\
  (Sim64.capital st <? 0) = true.
Proof.
  cbv zeta. split; [reflexivity|]. split; [repeat constructor|].
  repeat split; vm_compute; reflexivity.
Qed.

End Binary64.

(** ** Average trade profit *)

Lemma countClosing_snoc (l : list Sim64.Trade.t) (t : Sim64.Trade.t) :
  Run64.countClosing (l ++ [t])
  = Run64.countClosing l + (match Sim64.Trade.profit t with Some _ => 1 | None => 0 end).
Proof.
  unfold Run64.countClosing, len. rewrite filter_app, length_app.
  rewrite filter_cons, filter_nil. destruct (Sim64.Trade.profit t); cbn.
  - rewrite decide_True by eauto. cbn. lia.
  - rewrite decide_False by (intros [x Hx]; discriminate). cbn. lia.
Qed.

Lemma countClosing_step st s :
  Sim64.totalTrades st = Run64.countClosing (Sim64.trades st) ->
  Sim64.totalTrades (Sim64.step st s) = Run64.countClosing (Sim64.trades (Sim64.step st s)).
Proof.
  intros H. unfold Sim64.step. cbv zeta.
  repeat case_cond; cbn [Sim64.totalTrades Sim64.trades];
    try exact H; rewrite countClosing_snoc; cbn; lia.
Qed.

Lemma countClosing_close signals st :
  Sim64.totalTrades st = Run64.countClosing (Sim64.trades st) ->
  Sim64.totalTrades (Sim64.closeRemaining signals st)
  = Run64.countClosing (Sim64.trades (Sim64.closeRemaining signals st)).
Proof.
  intros H. unfold Sim64.closeRemaining. cbv zeta.
  destruct (last signals); [case_cond|]; cbn [Sim64.totalTrades Sim64.trades];
    try exact H; rewrite countClosing_snoc; cbn; lia.
Qed.

Section AverageProfit.

Import PrimFloat.
Local Open Scope float_scope.

(** C9 (as amended): in binary64, for every run, [totalTrades] is the number
    of trades of the log with a non-null profit, and [avgTradeProfit] is the
    gain of the capital, [finalCapital - initialCapital], divided by it, or 0
    when no trade was closed. *)
Theorem simulateTrades_avgTradeProfit (now : Date) (signals : list Sim64.Signal.t)
    (initialCapital : float) :
  let out := Sim64.simulateTrades now signals initialCapital in
  let s := Sim64.summary out in
  let closed := Run64.countClosing (Sim64.out_trades out) in
  Sim64.Summary.totalTrades s = closed /\
  Sim64.Summary.avgTradeProfit s =
    if (closed >? 0)%Z
    then (Sim64.Summary.finalCapital s - Sim64.Summary.initialCapital s) / F64.ofZ closed
    else 0.
Proof.
  cbv zeta. unfold Sim64.simulateTrades. cbv zeta.
  cbn [Sim64.summary Sim64.out_trades Sim64.summarize Sim64.Summary.totalTrades
       Sim64.Summary.avgTradeProfit Sim64.Summary.finalCapital
       Sim64.Summary.initialCapital].
  assert (H : Sim64.totalTrades
                (Sim64.closeRemaining signals
                   (Sim64.loop (Sim64.init now signals initialCapital) signals))
              = Run64.countClosing
                  (Sim64.trades
                     (Sim64.closeRemaining signals
                        (Sim64.loop (Sim64.init now signals initialCapital) signals)))).
  { apply countClosing_close. unfold Sim64.loop.
    apply (fold_left_invariant
             (fun st => Sim64.totalTrades st = Run64.countClosing (Sim64.trades st))).
    - intros st s _. apply countClosing_step.
    - reflexivity. }
  split; [exact H|]. rewrite <- H. reflexivity.
Qed.

(** C9 fails as stated: in binary64, with a capital of 100, a BUY at 69.79
    and a SELL at 135.69, the one closed trade has the profit
    65.89999999999999 while the capital has gained 65.89999999999998; the
    sum of the profit fields is not [finalCapital - initialCapital], and
    [avgTradeProfit] is not that sum divided by [totalTrades]. *)
Lemma simulateTrades_profit_sum_differs :
  let out := Sim64.simulateTrades 0%Z Run64.roundedSignals 100 in
  let s := Sim64.summary out in
  Sim64.Summary.totalTrades s = 1%Z /\
  Run64.profitSum (Sim64.out_trades out) = Run64.roundedTradeProfit /\
  Sim64.Summary.finalCapital s - Sim64.Summary.initialCapital s = Run64.roundedGain /\
  (Run64.profitSum (Sim64.out_trades out)
   =? Sim64.Summary.finalCapital s - Sim64.Summary.initialCapital s) = false /\
  Sim64.Summary.avgTradeProfit s = Run64.roundedGain /\
  (Sim64.Summary.avgTradeProfit s
   =? Run64.profitSum (Sim64.out_trades out) / F64.ofZ (Sim64.Summary.totalTrades s))
  = false.
Proof. cbv zeta. repeat split; vm_compute; reflexivity. Qed.

End AverageProfit.

Lemma simulateTrades_total now signals initialCapital :
  ~ fails (simulateTrades now signals initialCapital).
Proof. intros [e H]. discriminate H. Qed.

(** An account with nothing to spend is left untouched by every signal. *)
Lemma step_nonpositive_capital st s c0 :
  (c0 <= 0)%Q -> positivePrice s ->
  Sim.capital st = Fin c0 -> Sim.position st = Fin 0 ->
  Sim.step st s = st.
Proof.
  intros Hc0 (p & Hp & Hpos) Hc Hq.
  unfold Sim.step. cbv zeta. rewrite Hp, Hc, Hq.
  rewrite (div_Fin_pos _ _ Hpos), floor_Fin.
  assert (Hk : (Fin (inject_Z (Qfloor (c0 / p))) >? Fin 0)%num = false).
  { apply gtb_Fin_false. change 0%Q with (inject_Z 0). rewrite <- Zle_Qle.
    apply floor_div_nonpos; assumption. }
  rewrite Hk.
  assert (H0 : (Fin 0 >? Fin 0)%num = false) by reflexivity.
  rewrite H0, andb_false_r. now destruct (_ && _).
Qed.

(** C2 (as amended): on strictly positive prices, a run with an initial
    capital [<= 0] does not fail: the simulator returns a summary with an
    empty trade log, [totalTrades = 0] and [finalCapital = initialCapital];
    with an initial capital of 0 its [profitPercentage] is [NaN]. *)
Theorem simulateTrades_nonpositive_capital (now : Date) (signals : list Signal.t)
    (c0 : Q) :
  (c0 <= 0)%Q ->
  Forall positivePrice signals ->
  exists out, simulateTrades now signals (Fin c0) = Ok out /\
    Sim.out_trades out = [] /\
    Summary.totalTrades (Sim.summary out) = 0 /\
    Summary.finalCapital (Sim.summary out) = Fin c0 /\
    ((c0 == 0)%Q -> Summary.profitPercentage (Sim.summary out) = NaN).
Proof.
  intros Hc0 Hall.
  assert (Hloop : Sim.loop (Sim.init now signals (Fin c0)) signals
                  = Sim.init now signals (Fin c0)).
  { apply (loop_invariant (fun st => st = Sim.init now signals (Fin c0)));
      [|reflexivity].
    intros st s Hin ->. rewrite Forall_forall in Hall.
    apply (step_nonpositive_capital _ _ c0); auto. }
  eexists. split; [reflexivity|].
  rewrite Hloop. unfold Sim.closeRemaining.
  assert (Hpct : (c0 == 0)%Q -> ((Fin c0 - Fin c0) / Fin c0 * Fin 100)%num = NaN).
  { intros E. rewrite sub_Fin, div_zero_zero; [reflexivity | rewrite E; reflexivity | exact E]. }
  destruct (last signals); cbn; auto.
Qed.

Lemma simulateTrades_nonpositive_capital_witness :
  (-5 <= 0)%Q /\ Forall positivePrice scenarioRoundTrip /\
  exists out, simulateTrades 0 scenarioRoundTrip (Fin (-5)) = Ok out /\
    Sim.out_trades out = [] /\
    Summary.totalTrades (Sim.summary out) = 0 /\
    Summary.finalCapital (Sim.summary out) = Fin (-5) /\
    ((-5 == 0)%Q -> Summary.profitPercentage (Sim.summary out) = NaN).
Proof.
  assert (H0 : (-5 <= 0)%Q) by (vm_compute; discriminate).
  assert (HP : Forall positivePrice scenarioRoundTrip).
  { repeat constructor; eexists; (split; reflexivity). }
  split; [exact H0|]. split; [exact HP|].
  exact (simulateTrades_nonpositive_capital 0 scenarioRoundTrip (-5) H0 HP).
Defined.

(** C2 fails as stated: with [initialCapital = 0] (Scenario C) the simulator
    returns a summary instead of failing. *)
Lemma simulateTrades_zero_capital_returns :
  ~ fails (simulateTrades 0 [] (Fin 0)) /\
  exists out, simulateTrades 0 [] (Fin 0) = Ok out /\
    Sim.out_trades out = [] /\
    Summary.totalTrades (Sim.summary out) = 0 /\
    Summary.finalCapital (Sim.summary out) = Fin 0 /\
    Summary.profitPercentage (Sim.summary out) = NaN.
Proof.
  split; [apply simulateTrades_total|].
  eexists. split; [reflexivity|]. vm_compute. auto.
Qed.

(** ** Win rate *)

Lemma countTrades_nonneg f l : 0 <= countTrades f l.
Proof. unfold countTrades, len. lia. Qed.

(** The simulator guards the division: its [winRate] is
    [winningTrades / totalTrades * 100], and 0 when no trade was closed. *)
Lemma simulateTrades_winRate now signals initialCapital :
  exists out, simulateTrades now signals initialCapital = Ok out /\
    let s := Sim.summary out in
    Summary.winRate s =
      if Summary.totalTrades s =? 0 then Fin 0
      else (ofZ (Summary.winningTrades s) / ofZ (Summary.totalTrades s) * Fin 100)%num.
Proof.
  destruct (countersAgree_run now signals initialCapital) as [Hcount _].
  eexists. split; [reflexivity|].
  pose proof (countTrades_nonneg isClosing
    (Sim.trades (Sim.closeRemaining signals
       (Sim.loop (Sim.init now signals initialCapital) signals)))) as Hge.
  cbn in *. rewrite <- Hcount in Hge.
  destruct (Z.eqb_spec (Sim.totalTrades (Sim.closeRemaining signals
              (Sim.loop (Sim.init now signals initialCapital) signals))) 0) as [E|E].
  - rewrite E. reflexivity.
  - rewrite (proj2 (Z.gtb_lt _ _)) by lia. reflexivity.
Qed.

(** The read path divides unguarded: a stored run without trades gets
    [winRate = NaN] (and [avgTradeProfit = NaN]). *)
Lemma detailsSummary_no_trades (b : Db.BacktestRow) :
  Db.totalTrades b = 0 -> Db.winningTrades b = 0 ->
  Summary.winRate (detailsSummary b) = NaN.
Proof. intros Ht Hw. unfold detailsSummary. cbn. rewrite Ht, Hw. reflexivity. Qed.

(** C6 (read path, at the failing input): for the stored record of a run that
    closed no trade, [getBacktestDetails] answers a summary with
    [totalTrades = 0] whose [winRate] is [NaN], not 0, while the simulator's
    own summary of that run has [winRate = 0]. *)
Theorem getBacktestDetails_winRate_no_trades :
  Summary.winRate noTradeSummary = Fin 0 /\
  exists d, getBacktestDetails 1 1 noTradeDb = Ok (Some d) /\
    Summary.totalTrades (det_summary d) = 0 /\
    Summary.winningTrades (det_summary d) = 0 /\
    Summary.winRate (det_summary d) = NaN /\
    (Summary.winRate (det_summary d) =? Fin 0)%num = false.
Proof.
  split; [reflexivity|].
  eexists. split; [vm_compute; reflexivity|]. vm_compute. auto.
Qed.

Lemma sum_finiteZero (l : list num) : Forall finiteZero l -> finiteZero (sum l).
Proof.
  induction l as [|x l IH] using rev_ind; intros H.
  - exists 0%Q. split; reflexivity.
  - apply Forall_app in H as [Hl Hx]. apply Forall_singleton in Hx as (q & -> & Hq).
    destruct (IH Hl) as (s & Hs & Hs0). rewrite sum_snoc, Hs, add_Fin.
    eexists. split; [reflexivity|]. rewrite Hs0, Hq. reflexivity.
Qed.

Lemma changes_nonneg (data : list num) :
  nonDecreasing data -> Forall finiteNonneg (changes data).
Proof.
  intros Hmono. unfold changes. apply Forall_fmap, Forall_forall.
  intros i Hi. apply elem_of_indices in Hi. unfold len in Hi. cbn.
  destruct (lookup_lt_is_Some_2 data (Z.to_nat (i - 1))) as [a Ha]; [lia|].
  destruct (lookup_lt_is_Some_2 data (Z.to_nat i)) as [b Hb]; [lia|].
  rewrite (aget_lookup data i b) by (lia || exact Hb).
  rewrite (aget_lookup data (i - 1) a) by (lia || exact Ha).
  replace (Z.to_nat i) with (S (Z.to_nat (i - 1))) in Hb by lia.
  destruct (Hmono _ _ _ Ha Hb) as (x & y & -> & -> & Hxy).
  rewrite sub_Fin. eexists. split; [reflexivity|]. lra.
Qed.

Lemma lossOf_zero (change : num) : finiteNonneg change -> lossOf change = Fin 0.
Proof.
  intros (d & -> & Hd). unfold lossOf.
  destruct (Fin d <? Fin 0)%num eqn:E; [|reflexivity].
  apply ltb_Fin in E. lra.
Qed.

Section ZeroLoss.

Variable period : Z.
Hypothesis period_pos : 1 <= period.

Lemma div_period_zero (x : num) : finiteZero x -> finiteZero (x / ofZ period)%num.
Proof using period_pos.
  intros (s & -> & Hs). unfold ofZ.
  assert (Hp : (0 < inject_Z period)%Q) by (apply inject_Z_pos; lia).
  rewrite (div_Fin_pos _ _ Hp). eexists. split; [reflexivity|].
  rewrite Hs. unfold Qdiv. ring.
Qed.

Lemma smooth_zero (avg x : num) :
  finiteZero avg -> finiteZero x ->
  finiteZero ((avg * ofZ (period - 1) + x) / ofZ period)%num.
Proof using period_pos.
  intros (a & -> & Ha) (g & -> & Hg). apply div_period_zero.
  unfold ofZ. rewrite mul_Fin, add_Fin. eexists. split; [reflexivity|].
  rewrite Ha, Hg. ring.
Qed.

End ZeroLoss.

Lemma rsiOf_zero_loss (avgGain avgLoss : num) :
  finiteZero avgLoss -> rsiOf avgGain avgLoss = rsiAtZeroLoss avgGain.
Proof.
  intros (l & -> & Hl). unfold rsiOf, rsiAtZeroLoss. cbv zeta.
  rewrite (proj2 (eqb_Fin l 0) Hl). reflexivity.
Qed.

(** C7 (as amended): for a period of at least 1 and prices that never
    decrease, the average loss is 0 at every step, the code divides by 0.001
    in its place, and every value [calculateRSI] outputs is
    [100 - 100 / (1 + avgGain / 0.001)] for the smoothed average gain
    [avgGain] of its step, not 100.  The losses, their sums and their
    averages are exact zeros, so nothing here depends on rounding. *)
Theorem calculateRSI_zero_loss (data : list num) (period : Z) :
  1 <= period ->
  nonDecreasing data ->
  calculateRSI data period <> [] /\
  calculateRSI data period = rsiAtZeroLoss <$> averageGains data period.
Proof.
  intros Hperiod Hmono.
  assert (Hlosses : Forall finiteZero (lossOf <$> changes data)).
  { apply Forall_fmap. eapply Forall_impl; [apply changes_nonneg, Hmono|].
    intros x Hx. cbn. rewrite (lossOf_zero x Hx). exists 0%Q. split; reflexivity. }
  unfold calculateRSI, averageGains. cbv zeta.
  set (gains := gainOf <$> changes data) in *.
  set (losses := lossOf <$> changes data) in *.
  assert (Hl0 : finiteZero (sum (slice losses 0 period) / ofZ period)%num).
  { apply div_period_zero; [exact Hperiod|].
    apply sum_finiteZero, slice_Forall, Hlosses. }
  assert (Hidx : forall i, i ∈ indices period (len gains) -> 0 <= i < len losses).
  { intros i Hi. apply elem_of_indices in Hi.
    unfold gains, losses, len in *. rewrite !length_fmap in *. lia. }
  revert Hidx. generalize (indices period (len gains)) as idxs.
  assert (Hrel0 : [rsiOf (sum (slice gains 0 period) / ofZ period)%num
                         (sum (slice losses 0 period) / ofZ period)%num]
                  = rsiAtZeroLoss <$> [(sum (slice gains 0 period) / ofZ period)%num]).
  { cbn. f_equal. apply rsiOf_zero_loss, Hl0. }
  assert (Hne0 : [rsiOf (sum (slice gains 0 period) / ofZ period)%num
                        (sum (slice losses 0 period) / ofZ period)%num] <> [])
    by discriminate.
  revert Hl0 Hrel0 Hne0.
  generalize (sum (slice gains 0 period) / ofZ period)%num as avgGain.
  generalize (sum (slice losses 0 period) / ofZ period)%num as avgLoss.
  intros avgLoss avgGain.
  generalize [rsiOf avgGain avgLoss] as rsiData.
  generalize [avgGain] as averages.
  intros averages rsiData Hl Hrel Hne idxs.
  revert avgGain avgLoss averages rsiData Hl Hrel Hne.
  induction idxs as [|i idxs IH]; intros avgGain avgLoss averages rsiData Hl Hrel Hne Hidx.
  - cbn. split; [exact Hne | exact Hrel].
  - cbn [fold_left].
    assert (Hl' : finiteZero ((avgLoss * ofZ (period - 1) + aget losses i) / ofZ period)%num).
    { apply smooth_zero; [exact Hperiod | exact Hl|].
      apply aget_Forall; [exact Hlosses|]. apply Hidx. left. }
    apply IH.
    + exact Hl'.
    + rewrite fmap_app, Hrel. cbn. do 2 f_equal. apply rsiOf_zero_loss, Hl'.
    + intros E. apply app_eq_nil in E as [_ E]. discriminate E.
    + intros j Hj. apply Hidx. now right.
Qed.

Lemma flatPrices_nonDecreasing : nonDecreasing flatPrices.
Proof.
  intros i a b Ha Hb. unfold flatPrices in *.
  apply lookup_replicate in Ha as [-> _]. apply lookup_replicate in Hb as [-> _].
  exists 100%Q, 100%Q. repeat split. apply Qle_refl.
Qed.

Lemma calculateRSI_zero_loss_witness :
  1 <= 14 /\ nonDecreasing flatPrices /\
  calculateRSI flatPrices 14 = rsiAtZeroLoss <$> averageGains flatPrices 14.
Proof.
  split; [lia|]. split; [exact flatPrices_nonDecreasing|].
  apply (calculateRSI_zero_loss flatPrices 14); [lia | exact flatPrices_nonDecreasing].
Defined.

(** C7 fails as stated: on a flat series (every delta is 0, so the average
    loss is 0) the RSI values are 0, and on the rising series [1, 2, 3] with
    period 2 the one value is [100 - 100 / 1001]. *)
Lemma calculateRSI_not_100 :
  nonDecreasing flatPrices /\
  calculateRSI flatPrices 14 = [Fin (0 # 14); Fin (0 # 196)] /\
  Forall (fun r => (r =? Fin 0)%num = true /\ (r =? Fin 100)%num = false)
         (calculateRSI flatPrices 14) /\
  calculateRSI risingPrices 2 = [Fin (200000 # 2002)] /\
  (Fin (200000 # 2002) =? Fin 100)%num = false.
Proof.
  split; [exact flatPrices_nonDecreasing|].
  split; [vm_compute; reflexivity|].
  split; [|split; vm_compute; reflexivity].
  assert (E : calculateRSI flatPrices 14 = [Fin (0 # 14); Fin (0 # 196)])
    by (vm_compute; reflexivity).
  rewrite E. repeat constructor.
Qed.

(** C8 (as amended): with fewer prices than the period, [calculateEMA] raises
    nothing: it returns the one-element sequence [sum(prices) / period]; the
    guard sits in the caller, where [movingAverageCrossover] answers its
    neutral object for fewer than [longPeriod] candles. *)
Theorem calculateEMA_short_input (data : list num) (period : Z) :
  len data < period ->
  calculateEMA data period = [(sum data / ofZ period)%num] /\
  forall (candles : list Candle.t) (shortPeriod : Z),
    close <$> candles = data ->
    movingAverageCrossover candles shortPeriod period = neutral.
Proof.
  intros Hlt. split.
  - unfold calculateEMA. cbv zeta.
    rewrite indices_empty by lia. rewrite slice_all by lia. reflexivity.
  - intros candles shortPeriod <-. unfold movingAverageCrossover.
    unfold len in *. rewrite length_fmap in Hlt.
    now rewrite (proj2 (Z.ltb_lt _ _) Hlt).
Qed.

Lemma calculateEMA_short_input_witness :
  len [Fin 1] < 2 /\ calculateEMA [Fin 1] 2 = [(sum [Fin 1] / ofZ 2)%num].
Proof.
  split; [reflexivity|].
  apply (calculateEMA_short_input [Fin 1] 2). reflexivity.
Defined.

(** C8 fails as stated: one price and a period of 2 give a value, not an
    error. *)
Lemma calculateEMA_returns_on_short_input :
  len [Fin 1] < 2 /\ calculateEMA [Fin 1] 2 = [Fin (1 # 2)].
Proof. split; reflexivity. Qed.

(** ** The strategy engine *)

Lemma closeAt_error `{HasClose A} (data : list A) (i : Z) (e : error) :
  closeAt data i = Err e -> exists msg, e = TypeError msg.
Proof.
  unfold closeAt. destruct (if i <? 0 then None else data !! Z.to_nat i); [discriminate|].
  intros [= <-]. eauto.
Qed.

Lemma bollingerBandsStrategy_error `{HasClose A} (sqrt : num -> num) (data : list A)
    (period : Z) (stdDev : num) (e : error) :
  bollingerBandsStrategy sqrt data period stdDev = Err e -> exists msg, e = TypeError msg.
Proof.
  unfold bollingerBandsStrategy. destruct (len data <? period); [discriminate|].
  destruct (closeAt data (len data - 1)) as [x|e1] eqn:E1; cbn.
  - destruct (closeAt data (len data - 2)) as [y|e2] eqn:E2; cbn; [discriminate|].
    intros [= <-]. eapply closeAt_error, E2.
  - intros [= <-]. eapply closeAt_error, E1.
Qed.

Lemma closeAt_ok `{HasClose A} (data : list A) (i : Z) :
  0 <= i < len data -> exists x, closeAt data i = Ok x.
Proof.
  intros [Hi Hlt]. unfold closeAt, len in *.
  rewrite (proj2 (Z.ltb_ge _ _) Hi).
  destruct (lookup_lt_is_Some_2 data (Z.to_nat i)) as [c Hc]; [lia|].
  rewrite Hc. eauto.
Qed.

Lemma bollingerBandsStrategy_ok `{HasClose A} (sqrt : num -> num) (data : list A)
    (period : Z) (stdDev : num) :
  2 <= len data -> exists r, bollingerBandsStrategy sqrt data period stdDev = Ok r.
Proof.
  intros Hlen. unfold bollingerBandsStrategy.
  destruct (len data <? period); [eauto|].
  destruct (closeAt_ok data (len data - 1)) as [x ->]; [lia|].
  destruct (closeAt_ok data (len data - 2)) as [y ->]; [lia|].
  cbn. eauto.
Qed.

(** C10: for each of the four supported strategy names and every non-empty
    candle sequence, [applyStrategy] throws a [TypeError] before any signal
    list exists: the strategy returns an object, on which [map] is not a
    function (on a one-bar series [bollingerBandsStrategy] itself throws
    first, reading a missing bar); so [runBacktest] ends with that error,
    the tables unchanged, and never calls the trade simulator. *)
Theorem applyStrategy_throws_for_supported (sqrt : num -> num) (data : list Candle.t)
    (strategyName : string) (parameters : Parameters) :
  data <> [] ->
  strategyName ∈ supportedStrategies ->
  exists msg : string,
    applyStrategy sqrt data strategyName parameters = Err (TypeError msg) /\
    (strategyName <> "Bollinger Bands Strategy" \/ 2 <= len data ->
     msg = "result.map is not a function") /\
    forall (now : Date) (userId strategyId : Z) (stockSymbol : string)
           (startDate endDate : Date) (initialCapital : num)
           (db : Db.t) (row : Db.StrategyRow),
      head (filter (fun s => Db.strategy_id s = strategyId) (Db.strategies db)) = Some row ->
      Db.strategy_name row = strategyName ->
      runBacktest sqrt now data userId strategyId stockSymbol startDate endDate
        initialCapital parameters db = (Err (TypeError msg), db).
Proof.
  intros Hdata Hname.
  assert (H : exists msg, applyStrategy sqrt data strategyName parameters
                          = Err (TypeError msg) /\
                (strategyName <> "Bollinger Bands Strategy" \/ 2 <= len data ->
                 msg = "result.map is not a function")).
  { unfold applyStrategy. rewrite bool_decide_eq_false_2 by exact Hdata.
    unfold supportedStrategies in Hname.
    repeat (apply elem_of_cons in Hname as [->|Hname]);
      [| | | |apply elem_of_nil in Hname; contradiction];
      simpl_decide.
    - eexists. split; reflexivity.
    - eexists. split; reflexivity.
    - eexists. split; reflexivity.
    - destruct (bollingerBandsStrategy _ _ _ _) as [r|e] eqn:E.
      + eexists. split; reflexivity.
      + destruct (bollingerBandsStrategy_error _ _ _ _ _ E) as [msg ->].
        exists msg. split; [reflexivity|].
        intros [Hne|Hlen]; [contradiction|].
        destruct (bollingerBandsStrategy_ok sqrt data
                    (default 20 (period parameters))
                    (default (Fin 2) (stdDev parameters)) Hlen) as [r Hr].
        congruence. }
  destruct H as (msg & Hmsg & Hmap). exists msg.
  split; [exact Hmsg|]. split; [exact Hmap|].
  intros now userId strategyId stockSymbol startDate endDate initialCapital db row Hrow Hn.
  unfold runBacktest. rewrite Hrow, Hn, Hmsg.
  rewrite bool_decide_eq_false_2 by exact Hdata. reflexivity.
Qed.

Lemma applyStrategy_throws_for_supported_witness :
  [bar 1 100] <> [] /\
  "Moving Average Crossover" ∈ supportedStrategies /\
  exists msg,
    applyStrategy sqrtStub [bar 1 100] "Moving Average Crossover" noParameters
    = Err (TypeError msg).
Proof.
  assert (H1 : [bar 1 100] <> []) by discriminate.
  assert (H2 : "Moving Average Crossover" ∈ supportedStrategies) by (left).
  split; [exact H1|]. split; [exact H2|].
  destruct (applyStrategy_throws_for_supported sqrtStub [bar 1 100]
              "Moving Average Crossover" noParameters H1 H2) as (msg & Hmsg & _).
  exists msg. exact Hmsg.
Defined.

Lemma mapFrom_spec (data : list Candle.t) (a : list num) (i : nat) :
  (i + length a <= length data)%nat ->
  exists signals, mapFrom data i a = Ok signals /\
    length signals = length a /\
    forall j c x, data !! (i + j)%nat = Some c -> a !! j = Some x ->
      signals !! j = Some (signalAt c x).
Proof.
  revert i. induction a as [|x a IH]; intros i Hlen.
  - exists []. repeat split. intros j c x _ Hx. discriminate Hx.
  - cbn in Hlen. cbn [mapFrom]. unfold toSignal.
    destruct (lookup_lt_is_Some_2 data i) as [c Hc]; [lia|]. rewrite Hc. cbn.
    destruct (IH (S i)) as (signals & Hmap & Hlength & Hnth); [lia|].
    rewrite Hmap. cbn. eexists. split; [reflexivity|]. split; [cbn; lia|].
    intros [|j] c' x' Hc' Hx'.
    + rewrite Nat.add_0_r, Hc in Hc'. injection Hc' as <-.
      cbn in Hx'. injection Hx' as <-. reflexivity.
    + cbn in Hx'. cbn. apply Hnth; [|exact Hx'].
      now replace (S i + j)%nat with (i + S j)%nat by lia.
Qed.

(** The mapping and the final filter of [applyStrategy], had the strategy
    returned a per-bar array of [n] numbers over [n] candles: [n] signals,
    one per bar, of which the HOLD entries are then dropped. *)
Lemma mapSignals_then_dropHold (data : list Candle.t) (a : list num) :
  length a = length data ->
  exists signals, mapSignals data (JArray a) = Ok signals /\
    length signals = length data /\
    (forall i c x, data !! i = Some c -> a !! i = Some x ->
       signals !! i = Some (signalAt c x)) /\
    (length (dropHold signals) + length (filter isHold signals) = length data)%nat /\
    Forall (fun s => Signal.type s <> HOLD) (dropHold signals).
Proof.
  intros Hlen.
  destruct (mapFrom_spec data a 0) as (signals & Hmap & Hlength & Hnth); [lia|].
  exists signals. split; [exact Hmap|]. split; [congruence|]. split; [exact Hnth|].
  split.
  - rewrite <- Hlen, <- Hlength. apply (filter_split_length isHold).
  - unfold dropHold. apply Forall_forall. intros s Hs.
    apply list_elem_of_filter in Hs as [Hs _]. exact Hs.
Qed.

(** ** The second revision of the strategy engine *)

Lemma slice_prefix_len {A} (a : list A) (k : Z) :
  0 <= k <= len a -> len (slice a 0 k) = k.
Proof.
  intros H. unfold slice, relIndex, len in *. cbn.
  destruct (k <? 0) eqn:E; [lia|].
  rewrite Z.min_l by lia. rewrite Z.min_l by lia.
  change (Z.to_nat 0) with 0%nat. rewrite Nat.sub_0_r, length_take, drop_0. lia.
Qed.

Lemma mapM_Ok {A B} (f : A -> result B) (l : list A) :
  (forall x, x ∈ l -> exists y, f x = Ok y) ->
  exists ys, mapM f l = Ok ys /\ length ys = length l /\
    forall j x, l !! j = Some x -> exists y, f x = Ok y /\ ys !! j = Some y.
Proof.
  induction l as [|x l IH]; intros Hall.
  - exists []. repeat split. intros j x Hx. discriminate Hx.
  - destruct (Hall x) as [y Hy]; [left|].
    destruct IH as (ys & Hys & Hlen & Hnth); [intros z Hz; apply Hall; now right|].
    exists (y :: ys). cbn. rewrite Hy. cbn. rewrite Hys. cbn.
    split; [reflexivity|]. split; [lia|].
    intros [|j] z Hz; cbn in Hz.
    + injection Hz as <-. eauto.
    + apply Hnth, Hz.
Qed.

Lemma signalFor_early sqrt strategyName ohlcData parameters (i : nat) :
  (i < 30)%nat -> Revision2.signalFor sqrt strategyName ohlcData parameters i = Ok 0.
Proof.
  intros Hi. unfold Revision2.signalFor.
  now rewrite (proj2 (Z.leb_gt _ _)) by lia.
Qed.

Lemma signalFor_supported sqrt strategyName ohlcData parameters (i : nat) :
  strategyName ∈ supportedStrategies -> (i < length ohlcData)%nat ->
  exists z, Revision2.signalFor sqrt strategyName ohlcData parameters i = Ok z.
Proof.
  intros Hname Hi. unfold Revision2.signalFor. cbv zeta.
  destruct (30 <=? Z.of_nat i) eqn:E; [|eauto]. apply Z.leb_le in E.
  unfold supportedStrategies in Hname.
  repeat (apply elem_of_cons in Hname as [->|Hname]);
    [| | | |apply elem_of_nil in Hname; contradiction];
    simpl_decide; cbn; eauto.
  destruct (bollingerBandsStrategy_ok sqrt (slice ohlcData 0 (Z.of_nat i + 1))
              (Revision2.orZ (period parameters) 20)
              (Revision2.orNum (stdDev parameters) (Fin 2))) as [r ->].
  - rewrite slice_prefix_len; unfold len; lia.
  - cbn. eauto.
Qed.

(** The sibling path: for a supported strategy the second revision returns
    one entry per bar, the first thirty with the signal 0 (no action). *)
Lemma Revision2_applyStrategy_one_entry_per_bar (sqrt : num -> num)
    (strategyName : string) (data : list Candle.t) (parameters : Parameters) :
  strategyName ∈ supportedStrategies ->
  exists bars, Revision2.applyStrategy sqrt strategyName data parameters = Ok bars /\
    length bars = length data /\
    forall i b, (i < 30)%nat -> bars !! i = Some b -> Revision2.barSignal b = 0.
Proof.
  intros Hname. unfold Revision2.applyStrategy. cbv zeta.
  set (ohlcData := Revision2.toBar <$> data).
  destruct (mapM_Ok (Revision2.signalFor sqrt strategyName ohlcData parameters)
              (seq 0 (length ohlcData))) as (signals & -> & Hlen & Hnth).
  { intros i Hi. apply elem_of_seq in Hi.
    apply signalFor_supported; [exact Hname | lia]. }
  cbn. eexists. split; [reflexivity|]. split.
  - rewrite length_imap. unfold ohlcData. apply length_fmap.
  - intros i b Hi Hb. rewrite list_lookup_imap in Hb.
    destruct (ohlcData !! i) as [bar|] eqn:Hbar; [|discriminate Hb].
    cbn in Hb. injection Hb as <-. cbn.
    assert (Hlt : (i < length ohlcData)%nat) by (eapply lookup_lt_Some, Hbar).
    destruct (Hnth i i) as (z & Hz & Hsig).
    { apply lookup_seq. lia. }
    rewrite signalFor_early in Hz by exact Hi. injection Hz as <-.
    rewrite Hsig. cbn. now destruct (_ <? _).
Qed.

(** C1 (at the failing input): on a one-bar series and the crossover
    strategy, [applyStrategy] throws instead of returning one signal; a HOLD
    bar would besides be filtered out of what it returns; the second
    revision returns one entry for the bar. *)
Theorem applyStrategy_throws_on_one_bar :
  applyStrategy sqrtStub [bar 1 100] "Moving Average Crossover" noParameters
    = Err (TypeError "result.map is not a function") /\
  mapSignals [bar 1 100] (JArray [Fin 0]) = Ok [Signal.mk 1 HOLD (Fin 100)] /\
  dropHold [Signal.mk 1 HOLD (Fin 100)] = [] /\
  exists b, Revision2.applyStrategy sqrtStub "Moving Average Crossover"
              [bar 1 100] noParameters = Ok [b] /\
            Revision2.barSignal b = 0.
Proof.
  split; [vm_compute; reflexivity|]. split; [vm_compute; reflexivity|].
  split; [vm_compute; reflexivity|].
  eexists. split; vm_compute; reflexivity.
Qed.

(** * Further properties of the indicator library *)

Lemma length_indices (start stop : Z) :
  length (indices start stop) = Z.to_nat (stop - start).
Proof. unfold indices. now rewrite length_fmap, length_seq. Qed.

(** A loop that pushes one value per index grows its array by the number of
    indices. *)
Lemma fold_push_length {S B} (next : S -> Z -> S) (value : S -> Z -> B)
    (idxs : list Z) (s : S) (acc : list B) :
  length (snd (fold_left (fun '(s, acc) i => (next s i, acc ++ [value s i])) idxs (s, acc)))
  = (length acc + length idxs)%nat.
Proof.
  revert s acc. induction idxs as [|i idxs IH]; intros s acc; cbn.
  - lia.
  - rewrite IH, length_app. cbn. lia.
Qed.

Lemma calculateEMA_length_nat (data : list num) (period : Z) :
  length (calculateEMA data period) = S (Z.to_nat (len data - period)).
Proof.
  unfold calculateEMA. cbv zeta.
  set (k := (Fin 2 / ofZ (period + 1))%num).
  rewrite (fold_push_length
             (fun ema i => ((aget data i - ema) * k + ema)%num)
             (fun ema i => ((aget data i - ema) * k + ema)%num)).
  now rewrite length_indices.
Qed.

(** X1: [calculateEMA] returns one value for the seed and one per price from
    index [period] on. *)
Theorem calculateEMA_length (data : list num) (period : Z) :
  len (calculateEMA data period) = 1 + Z.max 0 (len data - period).
Proof. unfold len at 1. rewrite calculateEMA_length_nat. lia. Qed.

Lemma sum_within (lo hi : Q) (l : list num) :
  Forall (finiteWithin lo hi) l ->
  exists s, sum l = Fin s /\
    (inject_Z (len l) * lo <= s)%Q /\ (s <= inject_Z (len l) * hi)%Q.
Proof.
  induction l as [|x l IH] using rev_ind; intros H.
  - exists 0%Q. split; [reflexivity|].
    change (inject_Z (len (@nil num))) with 0%Q. split; lra.
  - apply Forall_app in H as [Hl Hx].
    apply Forall_singleton in Hx as (q & -> & Hlo & Hhi).
    destruct (IH Hl) as (s & Hs & Hslo & Hshi).
    rewrite sum_snoc, Hs, add_Fin. eexists. split; [reflexivity|].
    unfold len in *. rewrite length_app, Nat2Z.inj_add, inject_Z_plus. cbn.
    split; ring_simplify; lra.
Qed.

(** The loop of [calculateRSI], for any property the two averages keep. *)
Lemma calculateRSI_averages (PG PL : num -> Prop) (data : list num) (period : Z) :
  let gains := gainOf <$> changes data in
  let losses := lossOf <$> changes data in
  PG (sum (slice gains 0 period) / ofZ period)%num ->
  PL (sum (slice losses 0 period) / ofZ period)%num ->
  (forall g i, PG g -> period <= i < len gains ->
     PG ((g * ofZ (period - 1) + aget gains i) / ofZ period)%num) ->
  (forall l i, PL l -> period <= i < len gains ->
     PL ((l * ofZ (period - 1) + aget losses i) / ofZ period)%num) ->
  Forall (fun r => exists g l, PG g /\ PL l /\ r = rsiOf g l) (calculateRSI data period).
Proof.
  intros gains losses Hg0 Hl0 Hg Hl. unfold calculateRSI. cbv zeta.
  fold gains losses.
  set (P := fun st : num * num * list num =>
              PG st.1.1 /\ PL st.1.2 /\
              Forall (fun r => exists g l, PG g /\ PL l /\ r = rsiOf g l) st.2).
  apply (fold_left_invariant P).
  - intros [[g l] rsiData] i Hi (HPg & HPl & Hall). apply elem_of_indices in Hi.
    cbn in HPg, HPl, Hall. unfold P. cbn [fst snd].
    split; [exact (Hg g i HPg Hi)|]. split; [exact (Hl l i HPl Hi)|].
    apply Forall_app. split; [exact Hall|]. apply Forall_singleton.
    eexists _, _. split; [exact (Hg g i HPg Hi)|]. split; [exact (Hl l i HPl Hi)|].
    reflexivity.
  - unfold P. cbn [fst snd].
    split; [exact Hg0|]. split; [exact Hl0|]. apply Forall_singleton.
    eexists _, _. split; [exact Hg0|]. split; [exact Hl0|]. reflexivity.
Qed.

Lemma rsi_fold_length (period : Z) (gains losses : list num) (idxs : list Z)
    (st : num * num * list num) :
  length (snd (fold_left
         (fun '(avgGain, avgLoss, rsiData) i =>
            let avgGain' := ((avgGain * ofZ (period - 1) + aget gains i) / ofZ period)%num in
            let avgLoss' := ((avgLoss * ofZ (period - 1) + aget losses i) / ofZ period)%num in
            (avgGain', avgLoss', rsiData ++ [rsiOf avgGain' avgLoss']))
         idxs st))
  = (length (snd st) + length idxs)%nat.
Proof.
  revert st. induction idxs as [|i idxs IH]; intros [[g l] rsiData]; cbn.
  - lia.
  - rewrite IH. cbn. rewrite length_app. cbn. lia.
Qed.

(** X3: [calculateRSI] returns one value for the seed and one per price change
    from index [period] on; there are [len data - 1] changes. *)
Theorem calculateRSI_length (data : list num) (period : Z) :
  len (calculateRSI data period) = 1 + Z.max 0 (Z.max 0 (len data - 1) - period).
Proof.
  unfold calculateRSI. cbv zeta. unfold len at 1.
  rewrite rsi_fold_length, length_indices. cbn.
  unfold changes, len. rewrite !length_fmap, length_indices. lia.
Qed.

(** ** NaN in the MACD computation *)

Lemma add_NaN_r (x : num) : (x + NaN)%num = NaN.
Proof. now destruct x. Qed.

Lemma sub_NaN_r (x : num) : (x - NaN)%num = NaN.
Proof. now destruct x. Qed.

Lemma ltb_NaN_r (x : num) : (x <? NaN)%num = false.
Proof. now destruct x. Qed.

Lemma gtb_NaN_r (x : num) : (x >? NaN)%num = false.
Proof. reflexivity. Qed.

Lemma fold_add_NaN (l : list num) : fold_left add l NaN = NaN.
Proof. induction l as [|x l IH]; [reflexivity | exact IH]. Qed.

Lemma sum_NaN (l : list num) : NaN ∈ l -> sum l = NaN.
Proof.
  intros H. apply list_elem_of_split in H as (l1 & l2 & ->).
  unfold sum. rewrite fold_left_app. cbn. rewrite add_NaN_r. apply fold_add_NaN.
Qed.

Lemma slice_head {A} (x : A) (a : list A) (k : Z) :
  1 <= k -> x ∈ slice (x :: a) 0 k.
Proof.
  intros Hk. unfold slice, relIndex, len. cbn [length].
  destruct (k <? 0) eqn:E; [lia|].
  change (if 0 <? 0 then _ else _) with (Z.min 0 (Z.of_nat (S (length a)))).
  rewrite (Z.min_l 0) by lia. change (Z.to_nat 0) with 0%nat.
  rewrite Nat.sub_0_r, drop_0.
  destruct (Z.to_nat (Z.min k (Z.of_nat (S (length a))))) as [|m] eqn:Em; [lia|].
  cbn. left.
Qed.

(** Once the first element is NaN, the seed of the average is NaN and so is
    everything after it. *)
Lemma calculateEMA_NaN (rest : list num) (period : Z) :
  1 <= period -> Forall (fun x => x = NaN) (calculateEMA (NaN :: rest) period).
Proof.
  intros Hperiod. unfold calculateEMA. cbv zeta.
  rewrite (sum_NaN (slice (NaN :: rest) 0 period)) by (apply slice_head, Hperiod).
  change (NaN / ofZ period)%num with NaN.
  set (P := fun st : num * list num => st.1 = NaN /\ Forall (fun x => x = NaN) st.2).
  apply (fold_left_invariant P).
  - intros [ema emaData] i _ [He Hall]. cbn in He, Hall. subst ema.
    unfold P. cbn [fst snd]. rewrite add_NaN_r.
    split; [reflexivity|]. apply Forall_app. split; [exact Hall|].
    now apply Forall_singleton.
  - split; [reflexivity|]. now apply Forall_singleton.
Qed.

Lemma fromEnd_NaN (a : list num) (back : Z) :
  Forall (fun x => x = NaN) a -> fromEnd a back = NaN.
Proof.
  intros H. unfold fromEnd, aget. destruct (_ <? 0); [reflexivity|].
  destruct (a !! _) as [x|] eqn:E; [|reflexivity].
  rewrite Forall_lookup in H. exact (H _ _ E).
Qed.

Lemma indices_from_zero (n : Z) :
  1 <= n -> indices 0 n = 0 :: ((fun j => 0 + Z.of_nat j) <$> seq 1 (Z.to_nat n - 1)).
Proof.
  intros Hn. unfold indices. rewrite Z.sub_0_r.
  destruct (Z.to_nat n) as [|m] eqn:E; [lia|].
  cbn. now rewrite Nat.sub_0_r.
Qed.

(** With [fastPeriod < slowPeriod] the fast average is the longer array, so
    the index shift is negative and the first MACD value reads the slow
    average before its start. *)
Lemma calculateMACD_head (data : list num) (fastPeriod slowPeriod signalPeriod : Z) :
  fastPeriod < slowPeriod -> fastPeriod < len data ->
  exists rest, macdLine (calculateMACD data fastPeriod slowPeriod signalPeriod) = NaN :: rest.
Proof.
  intros Hfs Hf. unfold calculateMACD. cbv zeta. cbn [macdLine].
  assert (Hshift : len (calculateEMA data slowPeriod) - len (calculateEMA data fastPeriod) < 0).
  { unfold len at 1 2. rewrite !calculateEMA_length_nat. lia. }
  rewrite indices_from_zero by (unfold len; rewrite calculateEMA_length_nat; lia).
  cbn [omap list_omap].
  rewrite (proj2 (Z.leb_le _ 0)) by lia.
  rewrite Z.add_0_l. unfold aget at 2.
  rewrite (proj2 (Z.ltb_lt _ 0)) by exact Hshift.
  rewrite sub_NaN_r. eexists. reflexivity.
Qed.

Lemma calculateMACD_signalLine_NaN (data : list num)
    (fastPeriod slowPeriod signalPeriod : Z) :
  fastPeriod < slowPeriod -> fastPeriod < len data -> 1 <= signalPeriod ->
  Forall (fun x => x = NaN)
         (signalLine (calculateMACD data fastPeriod slowPeriod signalPeriod)).
Proof.
  intros Hfs Hf Hs.
  destruct (calculateMACD_head data fastPeriod slowPeriod signalPeriod Hfs Hf) as [rest Hhead].
  unfold calculateMACD in *. cbv zeta in *. cbn [macdLine signalLine] in *.
  rewrite Hhead. apply calculateEMA_NaN, Hs.
Qed.

(** X5: For [fastPeriod < slowPeriod], the usual setting, and a signal period of
    at least 1, every value of the signal line and of the histogram that
    [calculateMACD] returns is NaN. *)
Theorem calculateMACD_signal_NaN (data : list num)
    (fastPeriod slowPeriod signalPeriod : Z) :
  fastPeriod < slowPeriod -> fastPeriod < len data -> 1 <= signalPeriod ->
  let m := calculateMACD data fastPeriod slowPeriod signalPeriod in
  signalLine m <> [] /\
  Forall (fun x => x = NaN) (signalLine m) /\
  Forall (fun x => x = NaN) (histogram m).
Proof.
  intros Hfs Hf Hs m.
  assert (Hsig : Forall (fun x => x = NaN) (signalLine m))
    by (apply calculateMACD_signalLine_NaN; assumption).
  split; [|split; [exact Hsig|]].
  - intros E. apply (f_equal length) in E.
    unfold m, calculateMACD in E. cbv zeta in E. cbn [signalLine] in E.
    rewrite calculateEMA_length_nat in E. discriminate E.
  - unfold m, calculateMACD in *. cbv zeta in *. cbn [macdLine signalLine histogram] in *.
    apply Forall_fmap, Forall_forall. intros i Hi. apply elem_of_indices in Hi. cbn.
    rewrite (aget_Forall _ _ i Hsig) by lia. apply sub_NaN_r.
Qed.

Lemma calculateMACD_signal_NaN_witness :
  12 < 26 /\ 12 < len (replicate 40 (Fin 100)) /\ 1 <= 9 /\
  Forall (fun x => x = NaN) (signalLine (calculateMACD (replicate 40 (Fin 100)) 12 26 9)).
Proof.
  assert (H : 12 < len (replicate 40 (Fin 100))) by (unfold len; rewrite length_replicate; lia).
  split; [lia|]. split; [exact H|]. split; [lia|].
  apply (calculateMACD_signal_NaN (replicate 40 (Fin 100)) 12 26 9); [lia | exact H | lia].
Defined.

(** X6: With [fastPeriod < slowPeriod] and a signal period of at least 1,
    [macdStrategy] never answers BUY or SELL: either the series is too short
    for its guard, or the current signal value is NaN and both comparisons
    with it are false. *)
Theorem macdStrategy_always_neutral `{HasClose A} (data : list A)
    (fastPeriod slowPeriod signalPeriod : Z) :
  fastPeriod < slowPeriod -> 1 <= signalPeriod ->
  signal (macdStrategy data fastPeriod slowPeriod signalPeriod) = "NEUTRAL".
Proof.
  intros Hfs Hs. unfold macdStrategy.
  destruct (len data <? slowPeriod + signalPeriod) eqn:Hguard; [reflexivity|].
  apply Z.ltb_ge in Hguard. cbv zeta. cbn [signal].
  assert (Hsig : Forall (fun x => x = NaN)
                   (signalLine (calculateMACD (close <$> data)
                                  fastPeriod slowPeriod signalPeriod))).
  { apply calculateMACD_signalLine_NaN;
      [exact Hfs | unfold len in *; rewrite length_fmap; lia | exact Hs]. }
  rewrite (fromEnd_NaN _ 1 Hsig).
  rewrite gtb_NaN_r, ltb_NaN_r. reflexivity.
Qed.

Lemma macdStrategy_always_neutral_witness :
  12 < 26 /\ 1 <= 9 /\
  signal (macdStrategy risingBars 12 26 9) = "NEUTRAL".
Proof.
  split; [lia|]. split; [lia|].
  apply (macdStrategy_always_neutral risingBars 12 26 9); lia.
Defined.

(** ** Further properties of the strategies *)

(** X10: [bollingerBandsStrategy] throws exactly when a series of fewer than two
    bars passes its guard: it then reads [data[data.length - 2].close] (or
    [data[data.length - 1].close]) of a missing bar. *)
Theorem bollingerBandsStrategy_fails_iff `{HasClose A} (sqrt : num -> num)
    (data : list A) (period : Z) (stdDev : num) :
  fails (bollingerBandsStrategy sqrt data period stdDev)
  <-> period <= len data /\ len data < 2.
Proof.
  split.
  - intros [e He]. split.
    + unfold bollingerBandsStrategy in He.
      destruct (len data <? period) eqn:E; [discriminate He|].
      now apply Z.ltb_ge in E.
    + destruct (Z.lt_ge_cases (len data) 2) as [Hlt|Hge]; [exact Hlt|].
      destruct (bollingerBandsStrategy_ok sqrt data period stdDev) as [r Hr]; [lia|].
      congruence.
  - intros [Hp Hlen]. unfold bollingerBandsStrategy.
    rewrite (proj2 (Z.ltb_ge _ _) Hp).
    destruct data as [|c [|c' data]].
    + eexists. reflexivity.
    + eexists. reflexivity.
    + unfold len in Hlen. cbn in Hlen. lia.
Qed.

Lemma fromEnd_Forall (P : num -> Prop) (a : list num) (back : Z) :
  Forall P a -> fromEnd a back = NaN \/ P (fromEnd a back).
Proof.
  intros H. unfold fromEnd, aget. destruct (_ <? 0); [now left|].
  destruct (a !! _) as [x|] eqn:E; [|now left].
  right. rewrite Forall_lookup in H. exact (H _ _ E).
Qed.

Lemma fromEnd_last (P : num -> Prop) (a : list num) :
  a <> [] -> Forall P a -> P (fromEnd a 1).
Proof.
  intros Hne H. unfold fromEnd. apply aget_Forall; [exact H|].
  unfold len. destruct a; [contradiction|]. cbn. lia.
Qed.

Lemma gtb_same (x y : num) (p : Q) :
  (x = NaN \/ finiteWithin p p x) -> (y = NaN \/ finiteWithin p p y) ->
  (x >? y)%num = false.
Proof.
  intros [->|(a & -> & Ha1 & Ha2)] [->|(b & -> & Hb1 & Hb2)];
    try reflexivity; try apply ltb_NaN_r.
  apply gtb_Fin_false. lra.
Qed.

Lemma flat_closes `{HasClose A} (data : list A) (p : Q) :
  flat data p -> Forall (finiteWithin p p) (close <$> data).
Proof.
  intros Hflat. apply Forall_fmap, Forall_forall. intros c Hc. cbn.
  rewrite (Hflat c Hc). exists p. split; [reflexivity|]. split; apply Qle_refl.
Qed.

Lemma flatBars_flat : flat flatBars 100.
Proof.
  intros c Hc. unfold flatBars in Hc. apply list_elem_of_fmap in Hc as (j & -> & _).
  reflexivity.
Qed.

Lemma changes_flat (data : list num) (p : Q) :
  Forall (finiteWithin p p) data -> Forall finiteZero (changes data).
Proof.
  intros Hdata. unfold changes. apply Forall_fmap, Forall_forall.
  intros i Hi. apply elem_of_indices in Hi. cbn.
  destruct (aget_Forall _ data i Hdata) as (x & -> & Hx1 & Hx2); [lia|].
  destruct (aget_Forall _ data (i - 1) Hdata) as (y & -> & Hy1 & Hy2); [lia|].
  rewrite sub_Fin. eexists. split; [reflexivity|]. lra.
Qed.

Lemma gainOf_zero (change : num) : finiteZero change -> finiteZero (gainOf change).
Proof.
  intros (d & -> & Hd). unfold gainOf. destruct (Fin d >? Fin 0)%num.
  - exists d. split; [reflexivity | exact Hd].
  - exists 0%Q. split; reflexivity.
Qed.

Lemma finiteZero_nonneg (x : num) : finiteZero x -> finiteNonneg x.
Proof. intros (q & -> & Hq). exists q. split; [reflexivity | lra]. Qed.

(** On flat prices every RSI value is 0. *)
Lemma rsiOf_flat (avgGain avgLoss : num) :
  finiteZero avgGain -> finiteZero avgLoss -> finiteZero (rsiOf avgGain avgLoss).
Proof.
  intros (g & -> & Hg) Hl. rewrite (rsiOf_zero_loss _ _ Hl). unfold rsiAtZeroLoss.
  assert (Hk : (0 < 1 # 1000)%Q) by reflexivity.
  rewrite (div_Fin_pos _ _ Hk), add_Fin.
  assert (Hden : (0 < 1 + g / (1 # 1000))%Q) by (rewrite Hg; reflexivity).
  rewrite (div_Fin_pos _ _ Hden), sub_Fin.
  eexists. split; [reflexivity|]. rewrite Hg. reflexivity.
Qed.

Lemma calculateRSI_flat (data : list num) (p : Q) (period : Z) :
  1 <= period -> Forall (finiteWithin p p) data ->
  Forall finiteZero (calculateRSI data period).
Proof.
  intros Hperiod Hdata.
  assert (Hgains : Forall finiteZero (gainOf <$> changes data)).
  { apply Forall_fmap. eapply Forall_impl; [apply (changes_flat data p), Hdata|].
    intros x. apply gainOf_zero. }
  assert (Hlosses : Forall finiteZero (lossOf <$> changes data)).
  { apply Forall_fmap. eapply Forall_impl; [apply (changes_flat data p), Hdata|].
    intros x Hx. cbn. rewrite (lossOf_zero x (finiteZero_nonneg x Hx)).
    exists 0%Q. split; reflexivity. }
  eapply Forall_impl.
  - apply (calculateRSI_averages finiteZero finiteZero).
    + apply div_period_zero; [exact Hperiod|].
      apply sum_finiteZero, slice_Forall, Hgains.
    + apply div_period_zero; [exact Hperiod|].
      apply sum_finiteZero, slice_Forall, Hlosses.
    + intros g i Hg Hi. apply smooth_zero; [exact Hperiod | exact Hg|].
      apply aget_Forall; [exact Hgains | lia].
    + intros l i Hl Hi. apply smooth_zero; [exact Hperiod | exact Hl|].
      apply aget_Forall; [exact Hlosses|]. unfold len in *. rewrite length_fmap in *. lia.
  - intros r (g & l & Hg & Hl & ->). apply rsiOf_flat; assumption.
Qed.

(** Two equal finite values cannot be on both sides of a threshold. *)
Lemma threshold_not_crossed (a b : Q) (x : num) :
  (a == b)%Q ->
  (Fin a <? x)%num && (Fin b >=? x)%num = false /\
  (Fin a >? x)%num && (Fin b <=? x)%num = false.
Proof.
  intros Hab. destruct x as [t| | |]; try (split; reflexivity).
  unfold geb, leb, gtb. split; apply andb_false_iff.
  - destruct (Fin a <? Fin t)%num eqn:E1; [right|now left].
    apply ltb_Fin in E1. apply orb_false_iff. split; apply not_true_iff_false; intros E.
    + apply ltb_Fin in E. lra.
    + apply eqb_Fin in E. lra.
  - destruct (Fin t <? Fin a)%num eqn:E1; [right|now left].
    apply ltb_Fin in E1. apply orb_false_iff. split; apply not_true_iff_false; intros E.
    + apply ltb_Fin in E. lra.
    + apply eqb_Fin in E. lra.
Qed.

(** X9: On a flat series the RSI stays at 0 and crosses no threshold:
    [rsiStrategy] answers NEUTRAL whatever the two thresholds. *)
Theorem rsiStrategy_flat `{HasClose A} (data : list A) (p : Q) (period : Z)
    (overbought oversold : num) :
  flat data p -> 1 <= period ->
  signal (rsiStrategy data period overbought oversold) = "NEUTRAL".
Proof.
  intros Hflat Hperiod. unfold rsiStrategy.
  destruct (len data <? period + 14); [reflexivity|]. cbv zeta. cbn [signal].
  pose proof (calculateRSI_flat (close <$> data) p period Hperiod
                (flat_closes data p Hflat)) as Hrsi.
  assert (Hne : calculateRSI (close <$> data) period <> []).
  { intros E. apply (f_equal length) in E. unfold calculateRSI in E. cbv zeta in E.
    rewrite rsi_fold_length in E. discriminate E. }
  destruct (fromEnd_last _ _ Hne Hrsi) as (a & -> & Ha).
  destruct (fromEnd_Forall _ _ 2 Hrsi) as [->|(b & -> & Hb)].
  - replace (NaN >=? oversold)%num with false by (now destruct oversold).
    replace (NaN <=? overbought)%num with false by (now destruct overbought).
    now rewrite !andb_false_r.
  - destruct (threshold_not_crossed a b oversold) as [-> _]; [lra|].
    destruct (threshold_not_crossed a b overbought) as [_ ->]; [lra|].
    reflexivity.
Qed.

Lemma rsiStrategy_flat_witness :
  flat flatBars 100 /\ 1 <= 14 /\
  signal (rsiStrategy flatBars 14 (Fin 70) (Fin 30)) = "NEUTRAL".
Proof.
  split; [exact flatBars_flat|]. split; [lia|].
  apply (rsiStrategy_flat flatBars 100 14 (Fin 70) (Fin 30) flatBars_flat). lia.
Defined.

Lemma slice_len {A} (a : list A) (start stop : Z) :
  0 <= start <= stop -> stop <= len a -> len (slice a start stop) = stop - start.
Proof.
  intros [H0 H1] H2. unfold slice, relIndex, len in *. cbv zeta.
  rewrite (proj2 (Z.ltb_ge _ _) H0).
  rewrite (proj2 (Z.ltb_ge stop 0)) by lia.
  rewrite length_take, length_drop. lia.
Qed.

Lemma bands_flat (sqrt : num -> num) (data : list num) (p s : Q) (period : Z) :
  (forall x, finiteZero x -> finiteZero (sqrt x)) ->
  1 <= period ->
  Forall (finiteWithin p p) data ->
  let b := calculateBollingerBands sqrt data period (Fin s) in
  Forall (finiteWithin p p) (upper b) /\ Forall (finiteWithin p p) (lower b).
Proof.
  intros Hsqrt Hperiod Hdata. unfold calculateBollingerBands. cbv zeta.
  cbn [upper lower]. rewrite <- !list_fmap_compose.
  assert (Hpos : (0 < inject_Z period)%Q) by (apply inject_Z_pos; lia).
  assert (Hrow : forall i, i ∈ indices (period - 1) (len data) ->
            exists a z,
              (sum (slice data (i - period + 1) (i + 1)) / ofZ period)%num = Fin a /\
              (a == p)%Q /\
              sqrt (sum ((fun price => square (price - Fin a)%num)
                           <$> slice data (i - period + 1) (i + 1)) / ofZ period)%num
                = Fin z /\ (z == 0)%Q).
  { intros i Hi. apply elem_of_indices in Hi.
    pose proof (slice_Forall _ data (i - period + 1) (i + 1) Hdata) as Hwin.
    destruct (sum_within p p _ Hwin) as (t & Ht & Hlo & Hhi).
    rewrite (slice_len data (i - period + 1) (i + 1)) in Hlo, Hhi by lia.
    replace (i + 1 - (i - period + 1)) with period in Hlo, Hhi by lia.
    rewrite Ht. unfold ofZ at 1. rewrite (div_Fin_pos _ _ Hpos).
    assert (Ha : (t / inject_Z period == p)%Q).
    { assert (E : (t == inject_Z period * p)%Q) by (apply Qle_antisym; assumption).
      rewrite E. field. intros E0. rewrite E0 in Hpos. discriminate Hpos. }
    exists (t / inject_Z period)%Q.
    assert (Hvar : finiteZero
              (sum ((fun price => square (price - Fin (t / inject_Z period))%num)
                      <$> slice data (i - period + 1) (i + 1)) / ofZ period)%num).
    { apply (div_period_zero period Hperiod), sum_finiteZero.
      apply Forall_fmap. eapply Forall_impl; [exact Hwin|].
      intros x (q & -> & Hq1 & Hq2). cbn. unfold square. rewrite sub_Fin, mul_Fin.
      eexists. split; [reflexivity|].
      assert (E : (q == p)%Q) by (apply Qle_antisym; assumption).
      rewrite E, Ha. ring. }
    destruct (Hsqrt _ Hvar) as (z & Hz & Hz0).
    exists z. auto. }
  split; apply Forall_fmap, Forall_forall; intros i Hi;
    destruct (Hrow i Hi) as (a & z & Ha & Hap & Hz & Hz0); cbn;
    rewrite Ha, Hz, mul_Fin; [rewrite add_Fin | rewrite sub_Fin];
    eexists; (split; [reflexivity|]); rewrite Hap, Hz0; split;
    apply Qle_lteq; right; ring.
Qed.

Lemma closeAt_flat `{HasClose A} (data : list A) (p : Q) (i : Z) :
  flat data p -> 0 <= i < len data -> closeAt data i = Ok (Fin p).
Proof.
  intros Hflat [Hi Hlt]. unfold closeAt, len in *.
  rewrite (proj2 (Z.ltb_ge _ _) Hi).
  destruct (lookup_lt_is_Some_2 data (Z.to_nat i)) as [c Hc]; [lia|].
  rewrite Hc. rewrite (Hflat c); [reflexivity|].
  eapply list_elem_of_lookup_2, Hc.
Qed.

(** X11: On a flat series, and with a square root that is zero at zero, both
    bands collapse onto the price, which is then neither above the lower
    nor below the upper band: [bollingerBandsStrategy] answers NEUTRAL. *)
Theorem bollingerBandsStrategy_flat `{HasClose A} (sqrt : num -> num)
    (data : list A) (p s : Q) (period : Z) :
  flat data p ->
  (forall x, finiteZero x -> finiteZero (sqrt x)) ->
  1 <= period -> 2 <= len data ->
  exists r, bollingerBandsStrategy sqrt data period (Fin s) = Ok r /\
            signal r = "NEUTRAL".
Proof.
  intros Hflat Hsqrt Hperiod Hlen. unfold bollingerBandsStrategy.
  destruct (len data <? period) eqn:Hguard; [exists neutral; split; reflexivity|].
  cbv zeta.
  rewrite (closeAt_flat data p (len data - 1) Hflat) by lia.
  rewrite (closeAt_flat data p (len data - 2) Hflat) by lia.
  cbn [mbind result_bind]. eexists. split; [reflexivity|]. cbn [signal].
  destruct (bands_flat sqrt (close <$> data) p s period Hsqrt Hperiod
              (flat_closes data p Hflat)) as [Hup Hlow].
  assert (Hp : finiteWithin p p (Fin p))
    by (exists p; split; [reflexivity|]; split; apply Qle_refl).
  rewrite (gtb_same (Fin p) _ p (or_intror Hp) (fromEnd_Forall _ _ 1 Hlow)).
  rewrite andb_false_r.
  replace (Fin p <? fromEnd _ 1)%num with false.
  - rewrite andb_false_r. reflexivity.
  - symmetry. apply (gtb_same _ (Fin p) p (fromEnd_Forall _ _ 1 Hup) (or_intror Hp)).
Qed.

Lemma bollingerBandsStrategy_flat_witness :
  flat flatBars 100 /\
  (forall x, finiteZero x -> finiteZero (sqrtStub x)) /\
  1 <= 20 /\ 2 <= len flatBars /\
  exists r, bollingerBandsStrategy sqrtStub flatBars 20 (Fin 2) = Ok r /\
            signal r = "NEUTRAL".
Proof.
  assert (Hs : forall x, finiteZero x -> finiteZero (sqrtStub x)) by (intros x Hx; exact Hx).
  assert (Hl : 2 <= len flatBars) by (vm_compute; discriminate).
  split; [exact flatBars_flat|]. split; [exact Hs|]. split; [lia|]. split; [exact Hl|].
  apply (bollingerBandsStrategy_flat sqrtStub flatBars 100 2 20 flatBars_flat Hs); [lia|exact Hl].
Defined.

Lemma fromEnd_short (a : list num) (back : Z) : len a < back -> fromEnd a back = NaN.
Proof.
  intros H. unfold fromEnd, aget. now rewrite (proj2 (Z.ltb_lt _ 0)) by lia.
Qed.

Lemma leb_NaN_r (x : num) : (x <=? NaN)%num = false.
Proof. now destruct x. Qed.

Lemma leb_NaN_l (x : num) : (NaN <=? x)%num = false.
Proof. now destruct x. Qed.

(** X8: On the first series long enough for its guard, one of exactly
    [longPeriod] bars, [movingAverageCrossover] has no previous long average
    to compare with: it answers BUY whenever the short average is above the
    long one, crossover or not, and never SELL. *)
Theorem movingAverageCrossover_first_window `{HasClose A} (data : list A)
    (shortPeriod longPeriod : Z) :
  len data = longPeriod ->
  signal (movingAverageCrossover data shortPeriod longPeriod)
    = if (fromEnd (calculateEMA (close <$> data) shortPeriod) 1
          >? fromEnd (calculateEMA (close <$> data) longPeriod) 1)%num
      then "BUY" else "NEUTRAL".
Proof.
  intros Hlen. unfold movingAverageCrossover.
  rewrite (proj2 (Z.ltb_ge _ _)) by lia. cbv zeta. cbn [signal].
  rewrite (fromEnd_short (calculateEMA (close <$> data) longPeriod) 2).
  - rewrite gtb_NaN_r. cbn [negb]. rewrite andb_true_r, andb_false_r.
    reflexivity.
  - unfold len at 1. rewrite calculateEMA_length_nat.
    unfold len in *. rewrite length_fmap. lia.
Qed.

Lemma movingAverageCrossover_first_window_witness :
  len [bar 1 10; bar 2 10; bar 3 13] = 3 /\
  signal (movingAverageCrossover [bar 1 10; bar 2 10; bar 3 13] 1 3) = "BUY".
Proof.
  assert (H : len [bar 1 10; bar 2 10; bar 3 13] = 3) by reflexivity.
  split; [exact H|].
  rewrite (movingAverageCrossover_first_window [bar 1 10; bar 2 10; bar 3 13] 1 3 H).
  vm_compute. reflexivity.
Defined.

(** X12: On a series of exactly [period] bars, the first that passes its guard,
    [bollingerBandsStrategy] has no previous band to compare with and
    answers NEUTRAL, whatever the prices. *)
Theorem bollingerBandsStrategy_first_window `{HasClose A} (sqrt : num -> num)
    (data : list A) (period : Z) (stdDev : num) :
  len data = period -> 2 <= len data ->
  exists r, bollingerBandsStrategy sqrt data period stdDev = Ok r /\
            signal r = "NEUTRAL".
Proof.
  intros Hp Hlen. unfold bollingerBandsStrategy.
  rewrite (proj2 (Z.ltb_ge _ _)) by lia. cbv zeta.
  destruct (closeAt_ok data (len data - 1)) as [x ->]; [lia|].
  destruct (closeAt_ok data (len data - 2)) as [y ->]; [lia|].
  cbn [mbind result_bind]. eexists. split; [reflexivity|]. cbn [signal].
  assert (Hrows : forall f : num * num * num -> num,
            len (f <$> ((fun i =>
               let window := slice (close <$> data) (i - period + 1) (i + 1) in
               let avg := (sum window / ofZ period)%num in
               let squaredDiffs := (fun price => square (price - avg)%num) <$> window in
               let variance := (sum squaredDiffs / ofZ period)%num in
               let sd := sqrt variance in
               (avg, (avg + stdDev * sd)%num, (avg - stdDev * sd)%num))
              <$> indices (period - 1) (len (close <$> data)))) < 2).
  { intros f. unfold len. rewrite !length_fmap, length_indices.
    unfold len in Hp. lia. }
  unfold calculateBollingerBands. cbv zeta. cbn [upper lower].
  rewrite !(fromEnd_short _ 2) by apply Hrows.
  unfold geb. rewrite leb_NaN_r, leb_NaN_l. reflexivity.
Qed.

Lemma bollingerBandsStrategy_first_window_witness :
  len [bar 1 10; bar 2 10; bar 3 13] = 3 /\ 2 <= len [bar 1 10; bar 2 10; bar 3 13] /\
  exists r, bollingerBandsStrategy sqrtStub [bar 1 10; bar 2 10; bar 3 13] 3 (Fin 2) = Ok r /\
            signal r = "NEUTRAL".
Proof.
  assert (H : len [bar 1 10; bar 2 10; bar 3 13] = 3) by reflexivity.
  assert (H2 : 2 <= len [bar 1 10; bar 2 10; bar 3 13]) by (vm_compute; discriminate).
  split; [exact H|]. split; [exact H2|].
  exact (bollingerBandsStrategy_first_window sqrtStub [bar 1 10; bar 2 10; bar 3 13]
           3 (Fin 2) H H2).
Defined.

(** * Further properties of the trade simulator *)

Lemma positive_not_zero (x : num) : (x >? Fin 0)%num = true -> (x =? Fin 0)%num = false.
Proof.
  destruct x as [a| | |]; try discriminate; try reflexivity.
  intros H. apply gtb_Fin in H. apply not_true_iff_false. intros E.
  apply eqb_Fin in E. lra.
Qed.

Lemma tradesOf_snoc pairs buy sell :
  tradesOf (pairs ++ [(buy, sell)]) = tradesOf pairs ++ [buy; sell].
Proof. unfold tradesOf. rewrite flat_map_app. cbn. reflexivity. Qed.

Lemma len_snoc {A} (l : list A) (x : A) : len (l ++ [x]) = len l + 1.
Proof. unfold len. rewrite length_app. cbn. lia. Qed.

Lemma pairedUp_step st s : pairedUp st -> pairedUp (Sim.step st s).
Proof.
  intros (pairs & Hall & Htot & Hstate). unfold Sim.step. cbv zeta.
  destruct Hstate as [[Hpos Htr]|(Hpos & buy & Hty & Hpr & Hq & Hprice & Htr)].
  - (* no position: only a BUY can trade *)
    rewrite Hpos.
    replace (Fin 0 >? Fin 0)%num with false by reflexivity.
    rewrite andb_false_r.
    destruct (bool_decide (Signal.type s = BUY) && (Fin 0 =? Fin 0)%num).
    + case_cond_eq Hk.
      * exists pairs. split; [exact Hall|]. split; [exact Htot|]. right.
        cbn [Sim.position Sim.trades Sim.entryPrice]. split; [exact Hk|].
        exists (Trade.mk (Signal.date s) TradeBuy (Signal.price s)
                  (floor (Sim.capital st / Signal.price s)) None).
        split; [reflexivity|]. split; [reflexivity|].
        split; [reflexivity|]. split; [reflexivity|]. now rewrite Htr.
      * exists pairs. split; [exact Hall|]. split; [exact Htot|]. left. auto.
    + exists pairs. split; [exact Hall|]. split; [exact Htot|]. left. auto.
  - (* a position is open: only a SELL can trade *)
    rewrite (positive_not_zero _ Hpos), andb_false_r, Hpos, andb_true_r.
    destruct (bool_decide (Signal.type s = SELL)).
    + exists (pairs ++ [(buy,
         Trade.mk (Signal.date s) TradeSell (Signal.price s) (Sim.position st)
           (Some (Sim.position st * Signal.price s
                  - Sim.position st * Sim.entryPrice st)%num))]).
      split; [|split].
      * apply Forall_app. split; [exact Hall|]. apply Forall_singleton.
        cbn. rewrite Hq, Hprice. repeat split; assumption.
      * cbn [Sim.totalTrades]. rewrite len_snoc. lia.
      * left. cbn [Sim.position Sim.trades]. split; [reflexivity|].
        rewrite tradesOf_snoc, Htr, <- app_assoc. reflexivity.
    + exists pairs. split; [exact Hall|]. split; [exact Htot|]. right.
      split; [exact Hpos|]. exists buy. auto.
Qed.

(** X13: For every input, the trade log [simulateTrades] returns is a sequence of
    round trips: each BUY is followed at once by the SELL of the same
    quantity, whose profit is its proceeds minus the cost of that BUY, and
    [totalTrades] is the number of round trips.  The simulator never holds
    two positions and never sells what it does not hold. *)
Theorem simulateTrades_round_trips (now : Date) (signals : list Signal.t)
    (initialCapital : num) :
  exists out pairs,
    simulateTrades now signals initialCapital = Ok out /\
    Sim.out_trades out = tradesOf pairs /\
    Forall roundTrip pairs /\
    Summary.totalTrades (Sim.summary out) = len pairs.
Proof.
  assert (H : pairedUp (Sim.loop (Sim.init now signals initialCapital) signals)).
  { apply loop_invariant.
    - intros st s _. apply pairedUp_step.
    - exists []. split; [constructor|]. split; [reflexivity|]. left. auto. }
  destruct H as (pairs & Hall & Htot & Hstate).
  unfold simulateTrades.
  set (st := Sim.loop (Sim.init now signals initialCapital) signals) in *.
  unfold Sim.closeRemaining. cbv zeta.
  destruct Hstate as [[Hpos Htr]|(Hpos & buy & Hty & Hpr & Hq & Hprice & Htr)].
  - exists {| Sim.out_trades := Sim.trades st;
              Sim.summary := Sim.summarize initialCapital st;
              Sim.out_equityCurve := Sim.equityCurve st |}, pairs.
    rewrite Hpos. replace (Fin 0 >? Fin 0)%num with false by reflexivity.
    split; [now destruct (last signals)|]. cbn. auto.
  - destruct (last signals) as [lastSignal|] eqn:Hlast.
    + rewrite Hpos. eexists _, (pairs ++ [(buy, _)]).
      split; [reflexivity|]. cbn [Sim.out_trades Sim.summary Sim.trades].
      split; [|split].
      * rewrite tradesOf_snoc, Htr, <- app_assoc. reflexivity.
      * apply Forall_app. split; [exact Hall|]. apply Forall_singleton.
        cbn. rewrite Hq, Hprice. repeat split; assumption.
      * cbn. rewrite len_snoc. lia.
    + apply last_None in Hlast. exfalso.
      unfold st in Hpos. rewrite Hlast in Hpos. discriminate Hpos.
Qed.

Lemma curve_step first st s :
  (exists curve, Sim.equityCurve st = first :: curve /\
     EquityPoint.date <$> curve = Trade.date <$> Sim.trades st) ->
  exists curve, Sim.equityCurve (Sim.step st s) = first :: curve /\
     EquityPoint.date <$> curve = Trade.date <$> Sim.trades (Sim.step st s).
Proof.
  intros (curve & Hcurve & Hdates). unfold Sim.step. cbv zeta.
  case_cond; [case_cond|case_cond]; try (exists curve; split; assumption);
    cbn [Sim.equityCurve Sim.trades]; rewrite Hcurve;
    eexists (curve ++ [_]); (split; [reflexivity|]); rewrite !fmap_app, Hdates; reflexivity.
Qed.

(** X14: The equity curve [simulateTrades] returns starts with the initial
    capital, dated at the first signal (or at the current time when there is
    none), and then holds exactly one point per recorded trade, dated as the
    trade: bars without a trade leave no point. *)
Theorem simulateTrades_equity_curve (now : Date) (signals : list Signal.t)
    (initialCapital : num) :
  exists out curve,
    simulateTrades now signals initialCapital = Ok out /\
    Sim.out_equityCurve out
      = EquityPoint.mk (Sim.firstDate now signals) initialCapital :: curve /\
    EquityPoint.date <$> curve = Trade.date <$> Sim.out_trades out /\
    length (Sim.out_equityCurve out) = S (length (Sim.out_trades out)).
Proof.
  set (first := EquityPoint.mk (Sim.firstDate now signals) initialCapital).
  set (P := fun st : Sim.state =>
              exists curve, Sim.equityCurve st = first :: curve /\
                EquityPoint.date <$> curve = Trade.date <$> Sim.trades st).
  assert (Hloop : P (Sim.loop (Sim.init now signals initialCapital) signals)).
  { apply loop_invariant.
    - intros st s _. apply curve_step.
    - exists []. split; reflexivity. }
  set (st := Sim.loop (Sim.init now signals initialCapital) signals) in *.
  assert (Hclose : P (Sim.closeRemaining signals st)).
  { destruct Hloop as (curve & Hcurve & Hdates). unfold Sim.closeRemaining. cbv zeta.
    destruct (last signals) as [lastSignal|]; [|exists curve; split; assumption].
    case_cond; [|exists curve; split; assumption].
    unfold P. cbn [Sim.equityCurve Sim.trades]. rewrite Hcurve.
    eexists (curve ++ [_]). split; [reflexivity|]. rewrite !fmap_app, Hdates. reflexivity. }
  destruct Hclose as (curve & Hcurve & Hdates).
  eexists _, curve. split; [reflexivity|]. cbn [Sim.out_equityCurve Sim.out_trades].
  fold st. rewrite Hcurve. split; [reflexivity|]. split; [exact Hdates|].
  cbn. f_equal. rewrite <- (length_fmap EquityPoint.date), Hdates. apply length_fmap.
Qed.

Lemma step_hold st s : Signal.type s = HOLD -> Sim.step st s = st.
Proof. intros H. unfold Sim.step. cbv zeta. rewrite H. simpl_decide. reflexivity. Qed.

Lemma loop_dropHold st signals :
  Sim.loop st (dropHold signals) = Sim.loop st signals.
Proof.
  revert st. induction signals as [|s signals IH]; intros st; [reflexivity|].
  unfold dropHold. rewrite filter_cons.
  destruct (decide (Signal.type s <> HOLD)) as [Hne|He].
  - cbn. apply IH.
  - cbn. rewrite step_hold; [apply IH|].
    destruct (Signal.type s); try reflexivity; exfalso; apply He; discriminate.
Qed.

Lemma ledger_step st st' s :
  ledger st = ledger st' -> ledger (Sim.step st s) = ledger (Sim.step st' s).
Proof.
  destruct st, st'. unfold ledger. cbn. intros [= -> -> -> -> -> -> -> ->].
  unfold Sim.step. cbn.
  repeat case_cond; reflexivity.
Qed.

Lemma ledger_loop signals st st' :
  ledger st = ledger st' -> ledger (Sim.loop st signals) = ledger (Sim.loop st' signals).
Proof.
  revert st st'. induction signals as [|s signals IH]; intros st st' H; [exact H|].
  cbn. apply IH, ledger_step, H.
Qed.

Lemma ledger_closeRemaining signals signals' st st' :
  last signals = last signals' -> ledger st = ledger st' ->
  ledger (Sim.closeRemaining signals st) = ledger (Sim.closeRemaining signals' st').
Proof.
  intros Hl. destruct st, st'. unfold ledger. cbn. intros [= -> -> -> -> -> -> -> ->].
  unfold Sim.closeRemaining. rewrite Hl. cbn.
  destruct (last signals'); [case_cond|]; reflexivity.
Qed.

(** X16: HOLD signals never trade: removing them from the input, as
    [applyStrategy] does, leaves the trade log and the summary unchanged,
    provided the last signal, which prices the forced close, is kept. *)
Theorem simulateTrades_ignores_hold (now : Date) (signals : list Signal.t)
    (lastSignal : Signal.t) (initialCapital : num) :
  Signal.type lastSignal <> HOLD ->
  exists out out',
    simulateTrades now (signals ++ [lastSignal]) initialCapital = Ok out /\
    simulateTrades now (dropHold (signals ++ [lastSignal])) initialCapital = Ok out' /\
    Sim.out_trades out' = Sim.out_trades out /\
    Sim.summary out' = Sim.summary out.
Proof.
  intros Hlast. eexists _, _. split; [reflexivity|]. split; [reflexivity|].
  assert (Hdrop : dropHold (signals ++ [lastSignal]) = dropHold signals ++ [lastSignal]).
  { unfold dropHold. rewrite filter_app, filter_cons, decide_True by exact Hlast.
    reflexivity. }
  set (all := signals ++ [lastSignal]).
  assert (H : ledger (Sim.closeRemaining (dropHold all)
                        (Sim.loop (Sim.init now (dropHold all) initialCapital)
                                  (dropHold all)))
              = ledger (Sim.closeRemaining all
                          (Sim.loop (Sim.init now all initialCapital) all))).
  { apply ledger_closeRemaining.
    - subst all. rewrite Hdrop, !last_snoc. reflexivity.
    - rewrite loop_dropHold. apply ledger_loop. reflexivity. }
  cbn [Sim.out_trades Sim.summary]. unfold Sim.summarize.
  unfold ledger in H. injection H as Hc _ _ Ht Hm _ Hw Hn.
  split; [exact Ht|]. rewrite Hc, Hm, Hw, Hn. reflexivity.
Qed.

Lemma simulateTrades_ignores_hold_witness :
  Signal.type (Signal.mk 4 SELL (Fin 12)) <> HOLD /\
  exists out out',
    simulateTrades 0 (scenarioWithHolds ++ [Signal.mk 4 SELL (Fin 12)]) (Fin 105) = Ok out /\
    simulateTrades 0 (dropHold (scenarioWithHolds ++ [Signal.mk 4 SELL (Fin 12)])) (Fin 105)
      = Ok out' /\
    Sim.out_trades out' = Sim.out_trades out /\
    Sim.summary out' = Sim.summary out.
Proof.
  assert (H : Signal.type (Signal.mk 4 SELL (Fin 12)) <> HOLD) by discriminate.
  split; [exact H|].
  exact (simulateTrades_ignores_hold 0 scenarioWithHolds _ (Fin 105) H).
Defined.

(** ** The orchestrator and the read path *)

Lemma applyStrategy_fails (sqrt : num -> num) (data : list Candle.t)
    (strategyName : string) (parameters : Parameters) :
  fails (applyStrategy sqrt data strategyName parameters).
Proof.
  unfold fails, applyStrategy.
  case_cond; [eauto|].
  repeat (case_cond; [cbn; solve [eauto]|]).
  case_cond; [|cbn; eauto].
  destruct (bollingerBandsStrategy _ _ _ _); cbn; eauto.
Qed.

(** X17: In this revision no call of [runBacktest] stores anything: whatever the
    strategy table, the fetched series, the strategy name and the
    parameters, the call ends with an error and the tables are as before. *)
Theorem runBacktest_never_stores (sqrt : num -> num) (now : Date)
    (fetched : list Candle.t) (userId strategyId : Z) (stockSymbol : string)
    (startDate endDate : Date) (initialCapital : num) (parameters : Parameters)
    (db : Db.t) :
  exists e : error,
    runBacktest sqrt now fetched userId strategyId stockSymbol startDate endDate
      initialCapital parameters db = (Err e, db).
Proof.
  unfold runBacktest.
  destruct (head _) as [strategyData|]; [|eauto].
  case_cond; [eauto|].
  destruct (applyStrategy_fails sqrt fetched (Db.strategy_name strategyData) parameters)
    as [e ->].
  eauto.
Qed.

Lemma byDate_total : Total byDate.
Proof. intros a b. unfold byDate. lia. Qed.

Lemma byDate_trans : Transitive byDate.
Proof. intros a b c. unfold byDate. lia. Qed.

(** X18: [getBacktestDetails] answers [null] exactly when no stored run has both
    the requested identifier and the requesting user; it never throws. *)
Theorem getBacktestDetails_null_iff (backtestId userId : Z) (db : Db.t) :
  (getBacktestDetails backtestId userId db = Ok None <->
   forall b, b ∈ Db.backtests db -> ~ (Db.id b = backtestId /\ Db.userId b = userId)) /\
  ~ fails (getBacktestDetails backtestId userId db).
Proof.
  unfold getBacktestDetails, fails.
  destruct (head _) as [b|] eqn:E.
  - split; [|intros [e He]; discriminate].
    split; [discriminate|]. intros Hno. exfalso.
    apply head_Some_elem_of, list_elem_of_filter in E as [Hb Hin].
    exact (Hno b Hin Hb).
  - split; [|intros [e He]; discriminate].
    split; [|reflexivity]. intros _ b Hin Hb.
    apply head_None in E.
    assert (Hb' : b ∈ filter (fun b => Db.id b = backtestId ∧ Db.userId b = userId)
                         (Db.backtests db))
      by (apply list_elem_of_filter; auto).
    rewrite E in Hb'. apply elem_of_nil in Hb'. exact Hb'.
Qed.

(** X19: The run that [getBacktestDetails] returns is a stored run of the
    requesting user with the requested identifier, and the trades returned
    are exactly the stored trades of that run, in date order. *)
Theorem getBacktestDetails_scoped (backtestId userId : Z) (db : Db.t)
    (det : BacktestDetails) :
  getBacktestDetails backtestId userId db = Ok (Some det) ->
  det_backtest det ∈ Db.backtests db /\
  Db.id (det_backtest det) = backtestId /\
  Db.userId (det_backtest det) = userId /\
  Sorted byDate (det_trades det) /\
  det_trades det ≡ₚ filter (fun r => Db.backtestId r = backtestId) (Db.backtestTrades db).
Proof.
  unfold getBacktestDetails.
  destruct (head _) as [b|] eqn:E; [|discriminate].
  intros [= <-]. cbn [det_backtest det_trades].
  apply head_Some_elem_of, list_elem_of_filter in E as [[Hid Hu] Hin].
  repeat split; auto.
  - apply Sorted_merge_sort, byDate_total.
  - apply merge_sort_Permutation.
Qed.

Lemma getBacktestDetails_scoped_witness :
  exists det, getBacktestDetails 1 1 twoTradeDb = Ok (Some det) /\
    Db.userId (det_backtest det) = 1 /\
    det_trades det ≡ₚ filter (fun r => Db.backtestId r = 1) (Db.backtestTrades twoTradeDb).
Proof.
  assert (Hs : exists det, getBacktestDetails 1 1 twoTradeDb = Ok (Some det))
    by (eexists; vm_compute; reflexivity).
  destruct Hs as [det Hdet]. exists det. split; [exact Hdet|].
  destruct (getBacktestDetails_scoped 1 1 twoTradeDb det Hdet) as (_ & _ & Hu & _ & Hp).
  split; [exact Hu | exact Hp].
Defined.

Lemma tradesByDay_snoc (trades : list Db.TradeRow) (t : Db.TradeRow) :
  tradesByDay (trades ++ [t]) =
    let key := dateKey (Db.date t) in
    let tradeMap := tradesByDay trades in
    let tradeMap' := if bool_decide (is_Some (tradeMap !! key)) then tradeMap
                     else <[key := []]> tradeMap in
    <[key := default [] (tradeMap' !! key) ++ [t]]> tradeMap'.
Proof. unfold tradesByDay. rewrite fold_left_app. reflexivity. Qed.

Lemma tradesByDay_lookup (trades : list Db.TradeRow) (k : Z) :
  tradesByDay trades !! k =
    match filter (fun t => dateKey (Db.date t) = k) trades with
    | [] => None
    | g => Some g
    end.
Proof.
  induction trades as [|t trades IH] using rev_ind; [reflexivity|].
  rewrite tradesByDay_snoc. cbv zeta. rewrite filter_app, filter_cons, filter_nil.
  set (m := tradesByDay trades) in *.
  set (g := filter (fun t => dateKey (Db.date t) = k) trades) in *.
  destruct (decide (dateKey (Db.date t) = k)) as [Hk|Hk].
  - rewrite Hk. rewrite lookup_insert_eq.
    assert (Hd : default [] ((if bool_decide (is_Some (m !! k)) then m
                              else <[k := []]> m) !! k) = g).
    { rewrite IH. destruct g; cbn.
      - rewrite lookup_insert_eq. reflexivity.
      - rewrite IH. reflexivity. }
    rewrite Hd. destruct g; reflexivity.
  - rewrite lookup_insert_ne by exact Hk.
    rewrite app_nil_r.
    case_cond; [exact IH|]. rewrite lookup_insert_ne by exact Hk. exact IH.
Qed.

(** X20: The grouping loop of [getBacktestDetails] loses and reorders nothing:
    the entry of a day holds exactly the trades dated that day, in the
    order of the query, and a day has an entry only if a trade falls on
    it. *)
Theorem tradesByDay_groups (trades : list Db.TradeRow) (k : Z) :
  default [] (tradesByDay trades !! k)
    = filter (fun t => dateKey (Db.date t) = k) trades /\
  (is_Some (tradesByDay trades !! k) <->
   exists t, t ∈ trades /\ dateKey (Db.date t) = k).
Proof.
  rewrite tradesByDay_lookup.
  destruct (filter _ trades) as [|t g] eqn:E.
  - split; [reflexivity|]. split.
    + intros [x Hx]. discriminate.
    + intros (t & Hin & Hk).
      assert (Ht : t ∈ filter (fun t => dateKey (Db.date t) = k) trades)
        by (apply list_elem_of_filter; auto).
      rewrite E in Ht. apply elem_of_nil in Ht. contradiction.
  - split; [reflexivity|]. split; [|eauto].
    intros _. exists t.
    assert (Ht : t ∈ filter (fun t => dateKey (Db.date t) = k) trades)
      by (rewrite E; left).
    apply list_elem_of_filter in Ht as [Hk Hin]. auto.
Qed.

Lemma dateKey_day (startDate j : Z) :
  dateKey (startDate + dayMs * j) = dateKey startDate + j.
Proof.
  unfold dateKey. rewrite (Z.mul_comm dayMs j).
  apply Z.div_add. unfold dayMs. lia.
Qed.

Lemma dateKey_mono (a b : Z) : a <= b -> dateKey a <= dateKey b.
Proof. intros H. unfold dateKey. apply Z.div_le_mono; [unfold dayMs; lia | exact H]. Qed.

Lemma filter_none {A} (P : A -> Prop) `{forall x, Decision (P x)} (l : list A) :
  Forall (fun x => ~ P x) l -> filter P l = [].
Proof.
  induction 1 as [|x l Hx _ IH]; [reflexivity|].
  rewrite filter_cons, decide_False by exact Hx. exact IH.
Qed.

Lemma filter_within_split (trades : list Db.TradeRow) (a b c : Z) :
  StronglySorted byDate trades -> a <= b <= c ->
  filter (tradedWithin a c) trades
    = filter (tradedWithin a b) trades ++ filter (tradedWithin b c) trades.
Proof.
  intros Hs Habc. induction Hs as [|x l Hs IH Hx]; [reflexivity|].
  rewrite !filter_cons.
  destruct (decide (tradedWithin a c x)) as [Hac|Hac],
           (decide (tradedWithin a b x)) as [Hab|Hab],
           (decide (tradedWithin b c x)) as [Hbc|Hbc];
    unfold tradedWithin in Hac, Hab, Hbc; try lia.
  - rewrite IH. reflexivity.
  - rewrite IH.
    rewrite (filter_none (tradedWithin a b) l); [reflexivity|].
    eapply Forall_impl; [exact Hx|].
    intros t Ht. unfold byDate in Ht. apply dateKey_mono in Ht.
    unfold tradedWithin. lia.
  - exact IH.
Qed.

Lemma applyDayTrades_app (equity : num) (l1 l2 : list Db.TradeRow) :
  applyDayTrades equity (l1 ++ l2) = applyDayTrades (applyDayTrades equity l1) l2.
Proof. unfold applyDayTrades. apply fold_left_app. Qed.

Lemma dailyCurve_spec (trades : list Db.TradeRow) (startDate : Date)
    (initialCapital : num) (n : nat) :
  StronglySorted byDate trades ->
  fold_left
    (fun '(equity, equityCurve) d =>
       let dayTrades := default [] (tradesByDay trades !! dateKey d) in
       let equity' := applyDayTrades equity dayTrades in
       (equity', equityCurve ++ [EquityPoint.mk d equity']))
    ((fun j => startDate + dayMs * Z.of_nat j) <$> seq 0 n)
    (initialCapital, [])
  = (applyDayTrades initialCapital
       (filter (tradedWithin (dateKey startDate) (dateKey startDate + Z.of_nat n)) trades),
     (fun j => EquityPoint.mk (startDate + dayMs * Z.of_nat j)
                 (applyDayTrades initialCapital
                    (filter (tradedWithin (dateKey startDate)
                                          (dateKey startDate + Z.of_nat j + 1)) trades)))
       <$> seq 0 n).
Proof.
  intros Hs.
  match goal with |- fold_left ?f _ _ = _ => set (F := f) end.
  induction n as [|n IH].
  - cbn. rewrite filter_none; [reflexivity|].
    apply Forall_forall. intros t _. unfold tradedWithin. lia.
  - rewrite seq_S, !fmap_app, fold_left_app.
    match goal with
    | |- fold_left _ _ ?x = _ =>
        match type of IH with _ = ?y => replace x with y by (symmetry; exact IH) end
    end.
    cbn [fold_left fmap list_fmap plus]. unfold F. cbv zeta.
    assert (Hday : default [] (tradesByDay trades !! dateKey (startDate + dayMs * Z.of_nat n))
                   = filter (tradedWithin (dateKey startDate + Z.of_nat n)
                                          (dateKey startDate + Z.of_nat n + 1)) trades).
    { rewrite tradesByDay_lookup, dateKey_day.
      transitivity (filter (fun t => dateKey (Db.date t) = dateKey startDate + Z.of_nat n)
                           trades).
      - destruct (filter (fun t => dateKey (Db.date t) = dateKey startDate + Z.of_nat n)
                         trades); reflexivity.
      - apply list_filter_iff. intros t. unfold tradedWithin. lia. }
    rewrite Hday, <- applyDayTrades_app.
    rewrite <- (filter_within_split trades (dateKey startDate)
                  (dateKey startDate + Z.of_nat n)
                  (dateKey startDate + Z.of_nat n + 1)) by (exact Hs || lia).
    replace (dateKey startDate + Z.of_nat (S n))
      with (dateKey startDate + Z.of_nat n + 1) by lia.
    reflexivity.
Qed.

(** X21: The daily equity curve of [getBacktestDetails] has one point for each
    day from the start date to the end date of the run, and the equity of
    day [j] is the initial capital with the profits of the run's trades
    from the start day through day [j] added in date order; trades dated
    before the start day or after the end day never enter it. *)
Theorem getBacktestDetails_equity_curve (backtestId userId : Z) (db : Db.t)
    (det : BacktestDetails) :
  getBacktestDetails backtestId userId db = Ok (Some det) ->
  EquityPoint.date <$> det_equityCurve det
    = eachDay (Db.startDate (det_backtest det)) (Db.endDate (det_backtest det)) /\
  forall (j : nat) (p : EquityPoint.t),
    det_equityCurve det !! j = Some p ->
    EquityPoint.equity p =
      applyDayTrades (Db.initialCapital (det_backtest det))
        (filter (tradedWithin (dateKey (Db.startDate (det_backtest det)))
                              (dateKey (Db.startDate (det_backtest det)) + Z.of_nat j + 1))
                (det_trades det)).
Proof.
  unfold getBacktestDetails.
  destruct (head _) as [b|]; [|discriminate].
  intros [= <-]. cbn [det_backtest det_trades det_equityCurve].
  set (trades := merge_sort byDate _).
  assert (Hs : StronglySorted byDate trades)
    by (apply StronglySorted_merge_sort; [apply byDate_trans | apply byDate_total]).
  unfold eachDay. case_cond.
  - cbn. split; [reflexivity|]. intros j p Hp. discriminate Hp.
  - rewrite (dailyCurve_spec trades (Db.startDate b) (Db.initialCapital b) _ Hs).
    cbn [snd]. split.
    + rewrite <- list_fmap_compose. reflexivity.
    + intros j p Hp. apply list_lookup_fmap_Some in Hp as (i & -> & Hi).
      apply lookup_seq in Hi as [-> _]. reflexivity.
Qed.

Lemma getBacktestDetails_equity_curve_witness :
  exists det, getBacktestDetails 1 1 twoTradeDb = Ok (Some det) /\
    EquityPoint.equity <$> det_equityCurve det = [Fin 10000; Fin 10020; Fin 10020] /\
    EquityPoint.date <$> det_equityCurve det
      = eachDay (Db.startDate (det_backtest det)) (Db.endDate (det_backtest det)).
Proof.
  assert (Hs : exists det, getBacktestDetails 1 1 twoTradeDb = Ok (Some det))
    by (eexists; vm_compute; reflexivity).
  destruct Hs as [det Hdet]. exists det. split; [exact Hdet|].
  destruct (getBacktestDetails_equity_curve 1 1 twoTradeDb det Hdet) as [Hdates _].
  split; [|exact Hdates].
  injection Hdet as <-. vm_compute. reflexivity.
Defined.

(** ** The trade simulator of the second revision *)

Lemma Sim2_loop_invariant (P : Sim2.state -> Prop) (bars : list Revision2.SignalBar) :
  (forall st i b, bars !! i = Some b -> P st -> P (Sim2.step st i b)) ->
  forall st, P st -> P (Sim2.loop st bars).
Proof.
  intros Hstep. unfold Sim2.loop. apply fold_left_invariant.
  intros st [i b] Hin. apply list_elem_of_lookup in Hin as [j Hj].
  apply lookup_zip_with_Some in Hj as (x & y & [= -> ->] & Hx & Hy).
  apply lookup_seq in Hx as [-> _]. cbn. apply Hstep, Hy.
Qed.

Lemma markToMarket_keeps (st : Sim2.state) (b : Revision2.SignalBar) :
  Sim2.trades (Sim2.markToMarket st b) = Sim2.trades st /\
  Sim2.cash (Sim2.markToMarket st b) = Sim2.cash st /\
  Sim2.shares (Sim2.markToMarket st b) = Sim2.shares st /\
  Sim2.position (Sim2.markToMarket st b) = Sim2.position st /\
  Sim2.entryPrice (Sim2.markToMarket st b) = Sim2.entryPrice st /\
  Sim2.winningTrades (Sim2.markToMarket st b) = Sim2.winningTrades st /\
  Sim2.losingTrades (Sim2.markToMarket st b) = Sim2.losingTrades st /\
  Sim2.totalProfit (Sim2.markToMarket st b) = Sim2.totalProfit st.
Proof.
  unfold Sim2.markToMarket. cbv zeta.
  repeat case_cond; cbn; repeat split; reflexivity.
Qed.

Lemma flatOrLong_step st i b : flatOrLong st -> flatOrLong (Sim2.step st i b).
Proof.
  intros Hst. unfold Sim2.step. case_cond; [exact Hst|]. cbv zeta.
  destruct (markToMarket_keeps st b) as (Ht & _ & Hsh & Hp & He & Hw & Hl & _).
  assert (H1 : flatOrLong (Sim2.markToMarket st b)).
  { destruct Hst as (pairs & Hall & Htot & Hstate). exists pairs.
    rewrite Ht, Hsh, Hp, He, Hw, Hl. auto. }
  clear Hst Ht Hsh Hp He Hw Hl. revert H1. generalize (Sim2.markToMarket st b). clear st.
  intros st (pairs & Hall & Htot & Hstate).
  destruct Hstate as [[Hpos Htr]|(Hpos & buy & Hty & Hpr & Hq0 & Hq & Hprice & Htr)].
  - (* no position *)
    rewrite Hpos.
    rewrite (bool_decide_eq_false_2 (0 = -1)), (bool_decide_eq_false_2 (0 = 1))
      by discriminate.
    cbn [Z.leb Z.geb Z.compare andb]. rewrite !andb_true_r.
    destruct (bool_decide (Revision2.barSignal b = 1)).
    + unfold Sim2.openLong. cbv zeta. case_cond_eq Hk.
      * exists pairs. split; [exact Hall|]. split; [exact Htot|]. right.
        cbn [Sim2.position Sim2.trades Sim2.shares Sim2.entryPrice].
        split; [reflexivity|]. eexists (Trade.mk _ _ _ _ _).
        split; [reflexivity|]. split; [reflexivity|]. split; [exact Hk|].
        split; [reflexivity|]. split; [reflexivity|]. rewrite Htr. reflexivity.
      * exists pairs. split; [exact Hall|]. split; [exact Htot|]. left. auto.
    + destruct (bool_decide (Revision2.barSignal b = -1)).
      * exists pairs. split; [exact Hall|]. split; [exact Htot|]. left. auto.
      * exists pairs. split; [exact Hall|]. split; [exact Htot|]. left. auto.
  - (* long *)
    rewrite Hpos.
    rewrite (bool_decide_eq_true_2 (1 = 1)) by reflexivity.
    cbn [Z.leb Z.geb Z.compare andb]. rewrite andb_false_r, andb_true_r.
    destruct (bool_decide (Revision2.barSignal b = -1)).
    + exists (pairs ++ [(buy,
         Trade.mk (Revision2.time (Revision2.bar b)) TradeSell
           (Revision2.bar_close (Revision2.bar b)) (Sim2.shares st)
           (Some ((Revision2.bar_close (Revision2.bar b) - Sim2.entryPrice st)
                  * Sim2.shares st)%num))]).
      split; [|split].
      * apply Forall_app. split; [exact Hall|]. apply Forall_singleton.
        cbn. rewrite Hq, Hprice. rewrite Hq in Hq0. repeat split; assumption.
      * cbn [Sim2.flatten Sim2.closeLong Sim2.winningTrades Sim2.losingTrades].
        rewrite len_snoc. case_cond; lia.
      * left. cbn [Sim2.flatten Sim2.closeLong Sim2.position Sim2.trades].
        split; [reflexivity|].
        rewrite tradesOf_snoc, Htr, <- app_assoc. reflexivity.
    + exists pairs. split; [exact Hall|]. split; [exact Htot|]. right.
      split; [exact Hpos|]. exists buy. auto 10.
Qed.

(** X22: The second revision never goes short, so its branch that closes a short
    position is dead code: whatever the bars and the capital, the trade log
    is a sequence of purchases each followed by the sale of the same
    quantity, the sale carrying the profit [(sale price - purchase price) *
    quantity] and no purchase carrying one, and [totalTrades] counts the
    pairs. *)
Theorem Sim2_round_trips (strategyResults : list Revision2.SignalBar)
    (initialCapital : num) :
  exists pairs,
    Sim2.out_trades (Sim2.simulateTrades strategyResults initialCapital) = tradesOf pairs /\
    Forall longRoundTrip pairs /\
    Summary.totalTrades (Sim2.summary (Sim2.simulateTrades strategyResults initialCapital))
      = len pairs.
Proof.
  assert (H : flatOrLong (Sim2.loop (Sim2.init strategyResults initialCapital)
                                    strategyResults)).
  { apply Sim2_loop_invariant.
    - intros st i b _. apply flatOrLong_step.
    - exists []. split; [constructor|]. split; [reflexivity|]. left. auto. }
  destruct H as (pairs & Hall & Htot & Hstate).
  unfold Sim2.simulateTrades. cbv zeta.
  set (st := Sim2.loop (Sim2.init strategyResults initialCapital) strategyResults) in *.
  unfold Sim2.closeRemaining.
  destruct Hstate as [[Hpos Htr]|(Hpos & buy & Hty & Hpr & Hq0 & Hq & Hprice & Htr)].
  - exists pairs. rewrite Hpos.
    rewrite (bool_decide_eq_false_2 (0 = 1)) by discriminate. rewrite andb_false_r.
    destruct (last strategyResults); cbn; auto.
  - destruct (last strategyResults) as [lastBar|] eqn:Hlast.
    + rewrite Hpos.
      rewrite (bool_decide_eq_true_2 (1 = 1)), (bool_decide_eq_true_2 (1 <> 0))
        by (reflexivity || discriminate).
      cbn [andb].
      eexists (pairs ++ [(buy, Trade.mk _ _ _ _ _)]).
      cbn [Sim2.out_trades Sim2.summary Sim2.closeLong Sim2.trades].
      split; [|split].
      * rewrite tradesOf_snoc, Htr, <- app_assoc. reflexivity.
      * apply Forall_app. split; [exact Hall|]. apply Forall_singleton.
        cbn. rewrite Hq, Hprice. rewrite Hq in Hq0. repeat split; assumption.
      * cbn. rewrite len_snoc. case_cond; lia.
    + apply last_None in Hlast. exfalso.
      unfold st in Hpos. rewrite Hlast in Hpos. discriminate Hpos.
Qed.

Lemma idle_step (initialCapital : num) st i b :
  Revision2.barSignal b = 0 \/ (i < 10)%nat ->
  idle initialCapital st -> idle initialCapital (Sim2.step st i b).
Proof.
  intros Hsig (Htr & Hcash & Hpos & Hw & Hl & Hd & Hcurve).
  unfold Sim2.step. case_cond_eq Hi; [repeat split; assumption|].
  destruct Hsig as [Hsig|Hlt]; [|apply Z.ltb_ge in Hi; lia].
  cbv zeta. rewrite Hsig.
  rewrite (bool_decide_eq_false_2 (0 = 1)), (bool_decide_eq_false_2 (0 = -1))
    by discriminate.
  cbn [andb]. unfold Sim2.markToMarket. cbv zeta. rewrite Hpos.
  rewrite (bool_decide_eq_false_2 (0 <> 0)) by (intros H; apply H; reflexivity).
  unfold idle. cbn. rewrite Hcash. repeat split; try assumption.
  apply Forall_app. split; [exact Hcurve|]. apply Forall_singleton. reflexivity.
Qed.

Lemma idle_run (strategyResults : list Revision2.SignalBar) (initialCapital : num) :
  (forall i b, strategyResults !! i = Some b -> (10 <= i)%nat ->
               Revision2.barSignal b = 0) ->
  idle initialCapital
       (Sim2.closeRemaining strategyResults
          (Sim2.loop (Sim2.init strategyResults initialCapital) strategyResults)).
Proof.
  intros Hsig.
  assert (H : idle initialCapital
                (Sim2.loop (Sim2.init strategyResults initialCapital) strategyResults)).
  { apply Sim2_loop_invariant.
    - intros st i b Hb. apply idle_step.
      destruct (decide (i < 10)%nat) as [Hlt|Hge]; [right; exact Hlt|].
      left. apply (Hsig i b Hb). lia.
    - unfold idle, Sim2.init. cbn. repeat split.
      destruct strategyResults; repeat constructor. }
  unfold Sim2.closeRemaining.
  destruct H as (Htr & Hcash & Hpos & Hrest).
  rewrite Hpos. rewrite (bool_decide_eq_false_2 (0 = 1)) by discriminate.
  rewrite andb_false_r.
  destruct (last strategyResults); repeat split; tauto.
Qed.

Lemma idle_output (strategyResults : list Revision2.SignalBar) (initialCapital : num) :
  idle initialCapital
       (Sim2.closeRemaining strategyResults
          (Sim2.loop (Sim2.init strategyResults initialCapital) strategyResults)) ->
  let out := Sim2.simulateTrades strategyResults initialCapital in
  Sim2.out_trades out = [] /\
  Summary.totalTrades (Sim2.summary out) = 0 /\
  Summary.finalCapital (Sim2.summary out) = initialCapital /\
  Summary.maxDrawdown (Sim2.summary out) = Fin 0 /\
  Forall (fun p => EquityPoint.equity p = initialCapital) (Sim2.out_equityCurve out).
Proof.
  intros (Htr & Hcash & Hpos & Hw & Hl & Hd & Hcurve).
  unfold Sim2.simulateTrades. cbv zeta. cbn.
  rewrite Hw, Hl. auto.
Qed.

(** X23: The signals of the first ten bars are ignored, and without a signal on
    a later bar nothing happens: no trade is logged or counted, the final
    capital is the initial capital, and the equity curve is flat. *)
Theorem Sim2_no_signal_no_trade (strategyResults : list Revision2.SignalBar)
    (initialCapital : num) :
  (forall i b, strategyResults !! i = Some b -> (10 <= i)%nat ->
               Revision2.barSignal b = 0) ->
  let out := Sim2.simulateTrades strategyResults initialCapital in
  Sim2.out_trades out = [] /\
  Summary.totalTrades (Sim2.summary out) = 0 /\
  Summary.finalCapital (Sim2.summary out) = initialCapital /\
  Summary.maxDrawdown (Sim2.summary out) = Fin 0 /\
  Forall (fun p => EquityPoint.equity p = initialCapital) (Sim2.out_equityCurve out).
Proof. intros Hsig. apply idle_output, idle_run, Hsig. Qed.

Lemma Sim2_no_signal_no_trade_witness :
  (forall i b, [signalBar 0 10 1; signalBar 1 12 (-1)] !! i = Some b -> (10 <= i)%nat ->
               Revision2.barSignal b = 0) /\
  Sim2.out_trades
    (Sim2.simulateTrades [signalBar 0 10 1; signalBar 1 12 (-1)] (Fin 1000)) = [].
Proof.
  assert (H : forall i b, [signalBar 0 10 1; signalBar 1 12 (-1)] !! i = Some b ->
                          (10 <= i)%nat -> Revision2.barSignal b = 0).
  { intros i b Hb Hi. apply lookup_lt_Some in Hb. cbn in Hb. lia. }
  split; [exact H|].
  apply (Sim2_no_signal_no_trade [signalBar 0 10 1; signalBar 1 12 (-1)] (Fin 1000) H).
Defined.

Lemma signalFor_macd sqrt ohlcData parameters (i : nat) :
  Revision2.orZ (fastPeriod parameters) 12 < Revision2.orZ (slowPeriod parameters) 26 ->
  1 <= Revision2.orZ (signalPeriod parameters) 9 ->
  Revision2.signalFor sqrt "MACD Strategy" ohlcData parameters i = Ok 0.
Proof.
  intros Hfs Hs. unfold Revision2.signalFor. cbv zeta.
  case_cond; [|reflexivity]. simpl_decide. cbn [mbind result_bind].
  set (currentData := slice ohlcData 0 (Z.of_nat i + 1)).
  assert (Hn : signal (macdStrategy currentData
                         (Revision2.orZ (fastPeriod parameters) 12)
                         (Revision2.orZ (slowPeriod parameters) 26)
                         (Revision2.orZ (signalPeriod parameters) 9)) = "NEUTRAL").
  { unfold macdStrategy.
    destruct (len currentData <? _ + _) eqn:Hguard; [reflexivity|].
    apply Z.ltb_ge in Hguard. cbv zeta. cbn [signal].
    assert (Hsig : Forall (fun x => x = NaN)
                     (signalLine (calculateMACD (close <$> currentData)
                                    (Revision2.orZ (fastPeriod parameters) 12)
                                    (Revision2.orZ (slowPeriod parameters) 26)
                                    (Revision2.orZ (signalPeriod parameters) 9)))).
    { apply calculateMACD_signalLine_NaN;
        [exact Hfs | unfold len in *; rewrite length_fmap; lia | exact Hs]. }
    rewrite (fromEnd_NaN _ 1 Hsig).
    rewrite gtb_NaN_r, ltb_NaN_r. reflexivity. }
  rewrite Hn. reflexivity.
Qed.

Lemma applyStrategy_macd (sqrt : num -> num) (data : list Candle.t)
    (parameters : Parameters) :
  Revision2.orZ (fastPeriod parameters) 12 < Revision2.orZ (slowPeriod parameters) 26 ->
  1 <= Revision2.orZ (signalPeriod parameters) 9 ->
  exists bars, Revision2.applyStrategy sqrt "MACD Strategy" data parameters = Ok bars /\
    length bars = length data /\
    forall i b, bars !! i = Some b -> Revision2.barSignal b = 0.
Proof.
  intros Hfs Hs. unfold Revision2.applyStrategy. cbv zeta.
  set (ohlcData := Revision2.toBar <$> data).
  destruct (mapM_Ok (Revision2.signalFor sqrt "MACD Strategy" ohlcData parameters)
              (seq 0 (length ohlcData))) as (signals & -> & Hlen & Hnth).
  { intros i Hi. exists 0. apply signalFor_macd; assumption. }
  cbn. eexists. split; [reflexivity|]. split.
  - rewrite length_imap. unfold ohlcData. apply length_fmap.
  - intros i b Hb. rewrite list_lookup_imap in Hb.
    destruct (ohlcData !! i) as [bar|] eqn:Hbar; [|discriminate Hb].
    cbn in Hb. injection Hb as <-. cbn.
    assert (Hlt : (i < length ohlcData)%nat) by (eapply lookup_lt_Some, Hbar).
    destruct (Hnth i i) as (z & Hz & Hsig).
    { apply lookup_seq. lia. }
    rewrite signalFor_macd in Hz by assumption. injection Hz as <-.
    rewrite Hsig. cbn. now destruct (_ <? _).
Qed.

(** X26: A backtest of the MACD strategy never trades in the second revision:
    with a fast period below the slow period and a signal period of at
    least 1 (as with the default 12, 26 and 9), [applyStrategy] gives every
    bar the signal 0, so whatever the series [simulateTrades] logs no trade
    and ends with the initial capital. *)
Theorem Revision2_macd_never_trades (sqrt : num -> num) (data : list Candle.t)
    (parameters : Parameters) (initialCapital : num) :
  Revision2.orZ (fastPeriod parameters) 12 < Revision2.orZ (slowPeriod parameters) 26 ->
  1 <= Revision2.orZ (signalPeriod parameters) 9 ->
  exists strategyResults,
    Revision2.applyStrategy sqrt "MACD Strategy" data parameters = Ok strategyResults /\
    let out := Sim2.simulateTrades strategyResults initialCapital in
    Sim2.out_trades out = [] /\
    Summary.totalTrades (Sim2.summary out) = 0 /\
    Summary.finalCapital (Sim2.summary out) = initialCapital.
Proof.
  intros Hfs Hs.
  destruct (applyStrategy_macd sqrt data parameters Hfs Hs) as (bars & Hbars & _ & Hsig).
  exists bars. split; [exact Hbars|].
  destruct (idle_output bars initialCapital) as (Ht & Hn & Hc & _).
  { apply idle_run. intros i b Hb _. apply (Hsig i b Hb). }
  cbv zeta. auto.
Qed.

Lemma Revision2_macd_never_trades_witness :
  Revision2.orZ (fastPeriod noParameters) 12 < Revision2.orZ (slowPeriod noParameters) 26 /\
  1 <= Revision2.orZ (signalPeriod noParameters) 9 /\
  exists strategyResults,
    Revision2.applyStrategy sqrtStub "MACD Strategy" risingBars noParameters
      = Ok strategyResults /\
    Sim2.out_trades (Sim2.simulateTrades strategyResults (Fin 10000)) = [].
Proof.
  assert (H1 : Revision2.orZ (fastPeriod noParameters) 12
               < Revision2.orZ (slowPeriod noParameters) 26) by (vm_compute; reflexivity).
  assert (H2 : 1 <= Revision2.orZ (signalPeriod noParameters) 9)
    by (vm_compute; discriminate).
  split; [exact H1|]. split; [exact H2|].
  destruct (Revision2_macd_never_trades sqrtStub risingBars noParameters
              (Fin 10000) H1 H2) as (bars & Hbars & Ht & _).
  exists bars. split; [exact Hbars | exact Ht].
Defined.

(** X27: A backtest over at most thirty bars never trades in the second
    revision: [applyStrategy] first consults a supported strategy on the
    thirty-first bar, so [simulateTrades] logs no trade and ends with the
    initial capital. *)
Theorem Revision2_short_series_never_trades (sqrt : num -> num) (strategyName : string)
    (data : list Candle.t) (parameters : Parameters) (initialCapital : num) :
  strategyName ∈ supportedStrategies ->
  (length data <= 30)%nat ->
  exists strategyResults,
    Revision2.applyStrategy sqrt strategyName data parameters = Ok strategyResults /\
    let out := Sim2.simulateTrades strategyResults initialCapital in
    Sim2.out_trades out = [] /\
    Summary.totalTrades (Sim2.summary out) = 0 /\
    Summary.finalCapital (Sim2.summary out) = initialCapital.
Proof.
  intros Hname Hlen.
  destruct (Revision2_applyStrategy_one_entry_per_bar sqrt strategyName data parameters Hname)
    as (bars & Hbars & Hl & Hsig).
  exists bars. split; [exact Hbars|].
  destruct (idle_output bars initialCapital) as (Ht & Hn & Hc & _).
  { apply idle_run. intros i b Hb _. apply (Hsig i b); [|exact Hb].
    apply lookup_lt_Some in Hb. lia. }
  cbv zeta. auto.
Qed.

Lemma Revision2_short_series_never_trades_witness :
  "RSI Strategy" ∈ supportedStrategies /\
  (length [bar 1 100; bar 2 90; bar 3 110] <= 30)%nat /\
  exists strategyResults,
    Revision2.applyStrategy sqrtStub "RSI Strategy" [bar 1 100; bar 2 90; bar 3 110]
      noParameters = Ok strategyResults /\
    Sim2.out_trades (Sim2.simulateTrades strategyResults (Fin 10000)) = [].
Proof.
  assert (H1 : "RSI Strategy" ∈ supportedStrategies) by (right; left).
  assert (H2 : (length [bar 1 100; bar 2 90; bar 3 110] <= 30)%nat) by (cbn; lia).
  split; [exact H1|]. split; [exact H2|].
  destruct (Revision2_short_series_never_trades sqrtStub "RSI Strategy"
              [bar 1 100; bar 2 90; bar 3 110] noParameters (Fin 10000) H1 H2)
    as (bars & Hbars & Ht & _).
  exists bars. split; [exact Hbars | exact Ht].
Defined.

Lemma floor_nonneg (a : Q) : (0 <= a)%Q -> (0 <= inject_Z (Qfloor a))%Q.
Proof.
  intros Ha. change 0%Q with (inject_Z 0). rewrite <- Zle_Qle.
  change 0 with (Qfloor (inject_Z 0)). apply Qfloor_resp_le. exact Ha.
Qed.

Lemma equityCurve_step st (k : nat) b :
  EquityPoint.date <$> Sim2.equityCurve (Sim2.step st k b)
    = (EquityPoint.date <$> Sim2.equityCurve st)
      ++ (if Z.of_nat k <? 10 then [] else [Revision2.time (Revision2.bar b)]).
Proof.
  unfold Sim2.step. case_cond; [now rewrite app_nil_r|]. cbv zeta.
  assert (Hm : EquityPoint.date <$> Sim2.equityCurve (Sim2.markToMarket st b)
               = (EquityPoint.date <$> Sim2.equityCurve st)
                 ++ [Revision2.time (Revision2.bar b)]).
  { unfold Sim2.markToMarket. cbv zeta.
    repeat case_cond; cbn [Sim2.recordEquity Sim2.equityCurve];
      rewrite fmap_app; reflexivity. }
  rewrite <- Hm. generalize (Sim2.markToMarket st b). intros st1.
  unfold Sim2.openLong. cbv zeta. repeat case_cond; reflexivity.
Qed.

Lemma equityCurve_loop (l : list Revision2.SignalBar) (k : nat) st :
  EquityPoint.date <$>
    Sim2.equityCurve (fold_left (fun st ib => Sim2.step st ib.1 ib.2)
                                (zip (seq k (length l)) l) st)
  = (EquityPoint.date <$> Sim2.equityCurve st)
    ++ ((fun b => Revision2.time (Revision2.bar b)) <$> drop (10 - k) l).
Proof.
  revert k st. induction l as [|b l IH]; intros k st.
  - cbn. rewrite drop_nil. cbn. now rewrite app_nil_r.
  - cbn [length seq zip zip_with fold_left fst snd].
    rewrite IH, equityCurve_step, <- app_assoc. f_equal.
    destruct (Z.of_nat k <? 10) eqn:Hk.
    + apply Z.ltb_lt in Hk. replace (10 - k)%nat with (S (10 - S k)) by lia.
      reflexivity.
    + apply Z.ltb_ge in Hk. replace (10 - k)%nat with 0%nat by lia.
      replace (10 - S k)%nat with 0%nat by lia. reflexivity.
Qed.

(** X25: The equity curve of the second revision starts with a point dated at
    the first bar and then has one point for each bar from the eleventh on,
    in order; the second to the tenth bar leave no point. *)
Theorem Sim2_equity_curve_dates (strategyResults : list Revision2.SignalBar)
    (initialCapital : num) :
  EquityPoint.date <$>
    Sim2.out_equityCurve (Sim2.simulateTrades strategyResults initialCapital)
  = (fun b => Revision2.time (Revision2.bar b))
      <$> (take 1 strategyResults ++ drop 10 strategyResults).
Proof.
  unfold Sim2.simulateTrades. cbv zeta. cbn [Sim2.out_equityCurve].
  assert (Hclose : forall st,
            Sim2.equityCurve (Sim2.closeRemaining strategyResults st)
            = Sim2.equityCurve st).
  { intros st. unfold Sim2.closeRemaining.
    destruct (last strategyResults); [case_cond|]; reflexivity. }
  rewrite Hclose. unfold Sim2.loop. rewrite equityCurve_loop, fmap_app. f_equal.
  destruct strategyResults; reflexivity.
Qed.

(** ** The generated series of the second revision *)

Lemma fetchHistoricalData_mock (random : nat -> num) (apiKey : string)
    (isInitialized : bool) (symbol : string) (startDate endDate : Date) :
  Data2.fetchHistoricalData random apiKey isInitialized symbol startDate endDate
  = Data2.generateMockHistoricalData random startDate endDate.
Proof.
  unfold Data2.fetchHistoricalData, AngelOne.getHistoricalData, AngelOne.ensureInitialized.
  case_cond; [|reflexivity]. destruct isInitialized; reflexivity.
Qed.

Lemma step_dates (random : nat -> num) (startDate : Date) (idxs : list Z) st :
  Candle.date <$> Data2.data (fold_left (Data2.step random startDate) idxs st)
  = (Candle.date <$> Data2.data st)
    ++ filter weekday ((fun i => startDate + i * dayMs) <$> idxs).
Proof.
  revert st. induction idxs as [|i idxs IH]; intros st.
  - cbn. now rewrite app_nil_r.
  - cbn [fold_left fmap list_fmap]. rewrite IH. rewrite filter_cons.
    unfold Data2.step. cbv zeta.
    replace (startDate + i * 24 * 60 * 60 * 1000) with (startDate + i * dayMs)
      by (unfold dayMs; lia).
    destruct (decide (weekday (startDate + i * dayMs))) as [Hw|Hw].
    + destruct Hw as [H0 H6].
      rewrite (bool_decide_eq_false_2 _ H0), (bool_decide_eq_false_2 _ H6).
      cbn [orb Data2.data]. rewrite fmap_app, <- app_assoc. reflexivity.
    + assert (Hor : bool_decide (Data2.getDay (startDate + i * dayMs) = 0)
                    || bool_decide (Data2.getDay (startDate + i * dayMs) = 6) = true).
      { apply orb_true_iff. rewrite !bool_decide_eq_true.
        unfold weekday in Hw. lia. }
      rewrite Hor. reflexivity.
Qed.

(** X28: Whatever the API key and the state of the broker client, the series
    [fetchHistoricalData] resolves to is the generated one: its bars are
    dated on exactly the weekdays among the first [numBars] days from the
    start date, in order, [numBars] being the number of days of the window
    rounded up and capped at 365; so there are at most 365 bars. *)
Theorem fetchHistoricalData_dates (random : nat -> num) (apiKey : string)
    (isInitialized : bool) (symbol : string) (startDate endDate : Date) :
  let numBars := Z.min (- ((- (endDate - startDate)) `div` dayMs)) 365 in
  let fetched :=
    Data2.fetchHistoricalData random apiKey isInitialized symbol startDate endDate in
  Candle.date <$> fetched
    = filter weekday ((fun i => startDate + i * dayMs) <$> indices 0 numBars) /\
  len fetched <= 365.
Proof.
  cbv zeta. rewrite fetchHistoricalData_mock.
  unfold Data2.generateMockHistoricalData. cbv zeta.
  change (1000 * 3600 * 24) with dayMs.
  set (numBars := Z.min _ 365).
  assert (Hd : Candle.date <$>
                 Data2.data (fold_left (Data2.step random startDate) (indices 0 numBars)
                    {| Data2.price := Fin 100; Data2.calls := 0; Data2.data := [] |})
               = filter weekday ((fun i => startDate + i * dayMs) <$> indices 0 numBars))
    by (rewrite step_dates; reflexivity).
  split; [exact Hd|].
  apply (f_equal length) in Hd. rewrite length_fmap in Hd.
  unfold len. rewrite Hd.
  assert (Hcap : numBars <= 365) by apply Z.le_min_r.
  match goal with
  | |- Z.of_nat ?n <= _ => assert (Hle : (n <= Z.to_nat (numBars - 0))%nat)
  end.
  { etransitivity; [apply length_filter|].
    rewrite length_fmap, length_indices. reflexivity. }
  clearbody numBars. lia.
Qed.

Section Rounding.

Local Open Scope Q_scope.

Lemma nearestCent_mono (a b : Q) : a <= b -> Data2.nearestCent a <= Data2.nearestCent b.
Proof.
  intros H. unfold Data2.nearestCent.
  assert (Hf : (Qfloor (a * 100 + (1 # 2)) <= Qfloor (b * 100 + (1 # 2)))%Z)
    by (apply Qfloor_resp_le; lra).
  rewrite Zle_Qle in Hf. unfold Qdiv.
  apply Qmult_le_compat_r; [exact Hf | discriminate].
Qed.

Lemma nearestCent_nonneg (a : Q) : 0 <= a -> 0 <= Data2.nearestCent a.
Proof.
  intros H. unfold Data2.nearestCent.
  pose proof (floor_nonneg (a * 100 + (1 # 2)) ltac:(lra)) as Hf.
  apply Qle_shift_div_l; [reflexivity|]. lra.
Qed.

Lemma nearestCent_below (a : Q) (t : Z) :
  a < inject_Z t -> Data2.nearestCent a <= inject_Z t.
Proof.
  intros H. unfold Data2.nearestCent.
  assert (Hf : (Qfloor (a * 100 + (1 # 2)) <= t * 100)%Z).
  { apply Z.lt_succ_r. unfold Z.succ. rewrite Zlt_Qlt.
    apply Qle_lt_trans with (a * 100 + (1 # 2)); [apply Qfloor_le|].
    rewrite inject_Z_plus, inject_Z_mult.
    change (inject_Z 100) with 100. change (inject_Z 1) with 1. lra. }
  rewrite Zle_Qle in Hf. rewrite inject_Z_mult in Hf.
  change (inject_Z 100) with 100 in Hf.
  apply Qle_shift_div_r; [reflexivity|]. exact Hf.
Qed.

(** What [toFixed(2)] makes of a finite number, by its size and sign. *)
Lemma toFixed2_cases (q : Q) :
  exists q', Data2.toFixed2 (Fin q) = Fin q' /\
    ((inject_Z (10 ^ 21) <= q /\ q' = q) \/
     (q <= - inject_Z (10 ^ 21) /\ q' = q) \/
     (0 <= q /\ q < inject_Z (10 ^ 21) /\ q' = Data2.nearestCent q) \/
     (- inject_Z (10 ^ 21) < q /\ q < 0 /\ q' = - Data2.nearestCent (- q))).
Proof.
  unfold Data2.toFixed2.
  destruct (Qle_bool (inject_Z (10 ^ 21)) (Qabs q)) eqn:Hbig.
  - exists q. split; [reflexivity|]. apply Qle_bool_iff in Hbig.
    revert Hbig. apply Qabs_case; intros Hs Hbig; [left|right; left]; split;
      try reflexivity; lra.
  - assert (Hsmall : Qabs q < inject_Z (10 ^ 21)).
    { apply Qnot_le_lt. intros H. apply Qle_bool_iff in H. congruence. }
    destruct (Qle_bool 0 q) eqn:Hsign.
    + apply Qle_bool_iff in Hsign. eexists. split; [reflexivity|].
      right; right; left. rewrite Qabs_pos in Hsmall by exact Hsign. auto.
    + assert (Hneg : q < 0).
      { apply Qnot_le_lt. intros H. apply Qle_bool_iff in H. congruence. }
      eexists. split; [reflexivity|]. right; right; right.
      rewrite Qabs_neg in Hsmall by lra. repeat split; [lra|exact Hneg].
Qed.

Lemma toFixed2_mono (a b : Q) :
  a <= b ->
  exists a' b', Data2.toFixed2 (Fin a) = Fin a' /\ Data2.toFixed2 (Fin b) = Fin b' /\
                a' <= b'.
Proof.
  intros Hab.
  destruct (toFixed2_cases a) as (a' & Ha & Hca).
  destruct (toFixed2_cases b) as (b' & Hb & Hcb).
  exists a', b'. split; [exact Ha|]. split; [exact Hb|].
  assert (HT : 0 < inject_Z (10 ^ 21)) by reflexivity.
  pose proof (nearestCent_mono a b Hab) as Hm1.
  pose proof (nearestCent_mono (- b) (- a) ltac:(lra)) as Hm2.
  destruct Hca as [[H1 ->]|[[H1 ->]|[(H1 & H2 & ->)|(H1 & H2 & ->)]]];
    destruct Hcb as [[K1 ->]|[[K1 ->]|[(K1 & K2 & ->)|(K1 & K2 & ->)]]];
    try lra;
    try (pose proof (nearestCent_nonneg a ltac:(lra)));
    try (pose proof (nearestCent_nonneg b ltac:(lra)));
    try (pose proof (nearestCent_nonneg (- a) ltac:(lra)));
    try (pose proof (nearestCent_nonneg (- b) ltac:(lra)));
    try (pose proof (nearestCent_below a (10 ^ 21) ltac:(lra)));
    try (pose proof (nearestCent_below (- b) (10 ^ 21) ltac:(lra)));
    lra.
Qed.

Lemma toFixed2_positive (x : Q) :
  1 # 200 <= x -> exists x', Data2.toFixed2 (Fin x) = Fin x' /\ 0 < x'.
Proof.
  intros Hx. destruct (toFixed2_mono (1 # 200) x Hx) as (a' & x' & Ha & Hx' & Hle).
  exists x'. split; [exact Hx'|].
  assert (E : a' = Data2.nearestCent (1 # 200)).
  { assert (E0 : Data2.toFixed2 (Fin (1 # 200)) = Fin (Data2.nearestCent (1 # 200)))
      by reflexivity.
    congruence. }
  assert (Hpos : 0 < Data2.nearestCent (1 # 200)) by reflexivity.
  rewrite <- E in Hpos. lra.
Qed.

End Rounding.

Section Generator.

Local Open Scope Q_scope.

Lemma leastPrice_pos (k : nat) : 0 < leastPrice k.
Proof. induction k as [|k IH]; cbn [leastPrice]; [reflexivity|lra]. Qed.

Lemma leastPrice_le (m n : nat) : (m <= n)%nat -> leastPrice n <= leastPrice m.
Proof.
  induction 1 as [|n _ IH]; [apply Qle_refl|].
  cbn [leastPrice]. pose proof (leastPrice_pos n). lra.
Qed.

Lemma leastPrice_365 : 1 # 200 <= 0.985 * leastPrice 365.
Proof. apply Qle_bool_imp_le. vm_compute. reflexivity. Qed.

Lemma toFixed2_le (a b a' b' : Q) :
  a <= b -> Data2.toFixed2 (Fin a) = Fin a' -> Data2.toFixed2 (Fin b) = Fin b' ->
  a' <= b'.
Proof.
  intros Hab Ha Hb. destruct (toFixed2_mono a b Hab) as (x & y & Hx & Hy & Hxy).
  congruence.
Qed.

Lemma unit_product (r w : Q) : 0 <= r -> r <= 1 -> 0 <= w -> 0 <= r * w /\ r * w <= w.
Proof. intros. split; nra. Qed.

Lemma generator_step (random : nat -> num) (startDate : Date) st (i : Z) (p : Q) :
  unitRandom random ->
  Data2.price st = Fin p ->
  1 # 200 <= 0.985 * (0.98 * p) ->
  Forall wellFormedBar (Data2.data st) ->
  exists p', Data2.price (Data2.step random startDate st i) = Fin p' /\
             0.98 * p <= p' /\
             Forall wellFormedBar (Data2.data (Data2.step random startDate st i)).
Proof.
  intros Hrand Hp Hlow Hdata. unfold Data2.step. cbv zeta.
  case_cond; [exists p; split; [exact Hp|]; split; [lra|exact Hdata]|].
  destruct (Hrand (Data2.calls st)) as (r1 & -> & Hr1).
  destruct (Hrand (Data2.calls st + 1)%nat) as (r2 & -> & Hr2).
  destruct (Hrand (Data2.calls st + 2)%nat) as (r3 & -> & Hr3).
  destruct (Hrand (Data2.calls st + 3)%nat) as (r4 & -> & Hr4).
  destruct (Hrand (Data2.calls st + 4)%nat) as (r5 & -> & Hr5).
  rewrite Hp. cbn [Data2.price Data2.data].
  repeat (rewrite sub_Fin || rewrite mul_Fin || rewrite add_Fin).
  set (p' := p + (r1 - 0.5) * 2 * (p * 0.02)).
  set (range := p' * 0.015).
  set (high := p' + r2 * range).
  set (low := p' - r3 * range).
  assert (Hp' : 0.98 * p <= p') by (unfold p'; nra).
  assert (Hrange : 0 <= range) by (unfold range; lra).
  destruct (unit_product r2 range) as [Hh1 Hh2]; [lra | lra | exact Hrange |].
  destruct (unit_product r3 range) as [Hl1 Hl2]; [lra | lra | exact Hrange |].
  assert (Hspread : 0 <= high - low) by (unfold high, low; lra).
  destruct (unit_product r4 (high - low)) as [Ho1 Ho2]; [lra | lra | exact Hspread |].
  destruct (unit_product r5 (high - low)) as [Hx1 Hx2]; [lra | lra | exact Hspread |].
  assert (Hfloor : 1 # 200 <= low + r5 * (high - low)) by (unfold low, range in *; lra).
  exists p'. split; [reflexivity|]. split; [exact Hp'|].
  apply Forall_app. split; [exact Hdata|]. apply Forall_singleton.
  destruct (toFixed2_cases (low + r4 * (high - low))) as (o & Ho & _).
  destruct (toFixed2_cases high) as (h & Hh & _).
  destruct (toFixed2_cases low) as (l & Hl & _).
  destruct (toFixed2_positive (low + r5 * (high - low)) Hfloor) as (x & Hx & Hxpos).
  exists o, h, l, x. cbn [Candle.open Candle.high Candle.low Candle.close].
  split; [exact Ho|]. split; [exact Hh|]. split; [exact Hl|]. split; [exact Hx|].
  split; [apply (toFixed2_le low (low + r4 * (high - low)) l o); [lra|exact Hl|exact Ho]|].
  split; [apply (toFixed2_le (low + r4 * (high - low)) high o h); [lra|exact Ho|exact Hh]|].
  split; [apply (toFixed2_le low (low + r5 * (high - low)) l x); [lra|exact Hl|exact Hx]|].
  split; [apply (toFixed2_le (low + r5 * (high - low)) high x h); [lra|exact Hx|exact Hh]|].
  exact Hxpos.
Qed.

Lemma generator_run (random : nat -> num) (startDate : Date) (idxs : list Z)
    st (k : nat) (p : Q) :
  unitRandom random ->
  Data2.price st = Fin p -> leastPrice k <= p ->
  (k + length idxs <= 365)%nat ->
  Forall wellFormedBar (Data2.data st) ->
  Forall wellFormedBar (Data2.data (fold_left (Data2.step random startDate) idxs st)).
Proof.
  intros Hrand. revert st k p. induction idxs as [|i idxs IH]; intros st k p Hp Hk Hlen Hdata.
  - exact Hdata.
  - cbn [fold_left]. cbn [length] in Hlen.
    assert (Hlow : 1 # 200 <= 0.985 * (0.98 * p)).
    { pose proof leastPrice_365 as H365.
      pose proof (leastPrice_le (S k) 365 ltac:(lia)) as Hle.
      cbn [leastPrice] in Hle. lra. }
    destruct (generator_step random startDate st i p Hrand Hp Hlow Hdata)
      as (p' & Hp' & Hge & Hdata').
    apply (IH _ (S k) p' Hp'); [cbn [leastPrice]; lra | lia | exact Hdata'].
Qed.

End Generator.

Lemma generateMockHistoricalData_bars (random : nat -> num) (startDate endDate : Date) :
  unitRandom random ->
  Forall wellFormedBar (Data2.generateMockHistoricalData random startDate endDate).
Proof.
  intros Hrand. unfold Data2.generateMockHistoricalData. cbv zeta.
  set (numBars := Z.min _ 365).
  apply (generator_run random startDate _ _ 0 100 Hrand).
  - reflexivity.
  - apply Qle_refl.
  - rewrite length_indices. assert (Hcap : numBars <= 365) by apply Z.le_min_r.
    clearbody numBars. lia.
  - constructor.
Qed.

(** X29: With [Math.random()] in its range, every bar of the series that
    [fetchHistoricalData] resolves to is well formed: its prices are finite,
    rounded so that the low is not above the open and the close and the
    high is not below them, and the close is strictly positive; the cap of
    365 bars keeps the price, which loses at most 2% a bar, away from
    zero. *)
Theorem fetchHistoricalData_well_formed (random : nat -> num) (apiKey : string)
    (isInitialized : bool) (symbol : string) (startDate endDate : Date) :
  unitRandom random ->
  Forall wellFormedBar
    (Data2.fetchHistoricalData random apiKey isInitialized symbol startDate endDate).
Proof.
  intros Hrand. rewrite fetchHistoricalData_mock.
  apply generateMockHistoricalData_bars, Hrand.
Qed.

Lemma halfRandom_unit : unitRandom halfRandom.
Proof. intros n. exists 0.5%Q. split; [reflexivity|]. split; discriminate. Qed.

Lemma fetchHistoricalData_well_formed_witness :
  unitRandom halfRandom /\
  Forall wellFormedBar (Data2.fetchHistoricalData halfRandom "" false "INFY" 0 (7 * dayMs)).
Proof.
  split; [exact halfRandom_unit|].
  exact (fetchHistoricalData_well_formed halfRandom "" false "INFY" 0 (7 * dayMs)
           halfRandom_unit).
Defined.
